(** * sftpgo: a reconnecting SFTP client facade

    A shallow embedding of the [sftpgo] package: the host-key verifier,
    the session factory, the reconnect supervisor started by [NewClient]
    and the file-operation facade ([MoveFile], [RemoveFile], [WalkFiles],
    [PutFile], [PutString], ...).

    The Go code talks to three collaborators that are not part of the
    package: the ssh/sftp libraries, the local file system and the logger.
    Every call into them is an event of a small program monad [Prog]; a
    [Handler] gives the events their answers, and [exec] runs a program
    against a handler, recording the trace of what was called and said. *)

From Stdlib Require Import String Ascii List Bool Arith Lia ZArith NArith.
From Stdlib Require Import DecimalString.
Import ListNotations.

Local Open Scope string_scope.
Local Open Scope list_scope.

(** ** Go values *)

(** A Go [error] is an interface value: [nil], or a value whose [Error()]
    method yields a message.  Only nil-ness and the message are ever
    observed by this package. *)
Definition error : Type := option string.

(** Pointers handed out by the libraries; [None] is the nil pointer. *)
Definition sftp_Client : Type := nat.
Definition sftp_File : Type := nat.
Definition ssh_Client : Type := nat.
Definition os_File : Type := nat.

(** [os.FileInfo], as far as the package looks at it. *)
Record FileInfo : Type := { Name : string; IsDir : bool }.

(** [ssh.PublicKey]: the two methods [keyString] calls. *)
Record PublicKey : Type := { Type_ : string; Marshal : list Byte.byte }.

Record Config : Type := {
  Host : string; Username : string; Password : string;
  Port : Z;
  SSHTrustedKey : string
}.

(** The two channels of a client. *)
Inductive chan : Type := ch_reconnect | ch_status.

Definition chan_eqb (a b : chan) : bool :=
  match a, b with
  | ch_reconnect, ch_reconnect => true
  | ch_status, ch_status => true
  | _, _ => false
  end.

Record sftpClient : Type := {
  Client : option sftp_Client;
  reconnect : chan;
  ReconnectStatus : chan
}.

(** ** Strings *)

(** [strings.Contains s substr]. *)
Fixpoint Contains (s substr : string) : bool :=
  if prefix substr s then true
  else match s with
       | EmptyString => false
       | String _ s' => Contains s' substr
       end.

(** [strings.Split s sep] for a separator of one byte, which is what the
    package passes ([string(filepath.Separator)]). *)
Fixpoint Split (s : string) (sep : ascii) : list string :=
  match s with
  | EmptyString => [EmptyString]
  | String c s' =>
      if Ascii.eqb c sep then EmptyString :: Split s' sep
      else match Split s' sep with
           | [] => [String c EmptyString]
           | x :: xs => String c x :: xs
           end
  end.

(** ** Paths ([path/filepath] on a Unix host) *)

Definition Separator : ascii := "/"%char.

(** The elements of a path as [filepath.Clean] keeps them: empty and
    [.] elements are dropped, [..] removes the element before it, is
    dropped at the root, and is kept in front of a relative path.  [out]
    is the output so far, last element first. *)
Fixpoint clean_elems (rooted : bool) (elems out : list string) : list string :=
  match elems with
  | [] => rev out
  | e :: rest =>
      if (e =? "")%string then clean_elems rooted rest out
      else if (e =? ".")%string then clean_elems rooted rest out
      else if (e =? "..")%string then
        match out with
        | top :: out' =>
            if (top =? "..")%string then clean_elems rooted rest (e :: out)
            else clean_elems rooted rest out'
        | [] =>
            if rooted then clean_elems rooted rest out
            else clean_elems rooted rest [e]
        end
      else clean_elems rooted rest (e :: out)
  end.

(** [filepath.Clean]. *)
Definition Clean (path : string) : string :=
  match path with
  | EmptyString => "."
  | String c _ =>
      let rooted := Ascii.eqb c Separator in
      let out := String.concat "/" (clean_elems rooted (Split path Separator) []) in
      if rooted then String Separator out
      else if (out =? "")%string then "." else out
  end.

(** [path] up to and including its last separator. *)
Fixpoint upto_last_separator (path : string) : string :=
  match path with
  | EmptyString => EmptyString
  | String c rest =>
      let r := upto_last_separator rest in
      if Ascii.eqb c Separator || negb (r =? "")%string then String c r
      else EmptyString
  end.

(** [filepath.Dir]. *)
Definition Dir (path : string) : string := Clean (upto_last_separator path).

(** [filepath.Join]: the elements from the first non-empty one on,
    joined by the separator and cleaned. *)
Fixpoint Join (elem : list string) : string :=
  match elem with
  | [] => EmptyString
  | e :: rest =>
      if (e =? "")%string then Join rest
      else Clean (String.concat (String Separator EmptyString) elem)
  end.

(** ** Base64 ([base64.StdEncoding.EncodeToString]) *)

Definition encodeStd : string :=
  "ABCDEFGHIJKLMNOPQRSTUVWXYZabcdefghijklmnopqrstuvwxyz0123456789+/".

Definition sextet (n : N) : ascii :=
  match get (N.to_nat (N.land n 63)) encodeStd with
  | Some c => c
  | None => "="%char
  end.

Fixpoint EncodeToString (src : list Byte.byte) : string :=
  match src with
  | [] => EmptyString
  | [a] =>
      let v := N.shiftl (Byte.to_N a) 16 in
      String (sextet (N.shiftr v 18)) (String (sextet (N.shiftr v 12)) "==")
  | [a; b] =>
      let v := N.lor (N.shiftl (Byte.to_N a) 16) (N.shiftl (Byte.to_N b) 8) in
      String (sextet (N.shiftr v 18)) (String (sextet (N.shiftr v 12))
        (String (sextet (N.shiftr v 6)) "="))
  | a :: b :: c :: rest =>
      let v := N.lor (N.lor (N.shiftl (Byte.to_N a) 16) (N.shiftl (Byte.to_N b) 8))
                     (Byte.to_N c) in
      String (sextet (N.shiftr v 18)) (String (sextet (N.shiftr v 12))
        (String (sextet (N.shiftr v 6)) (String (sextet v)
          (EncodeToString rest))))
  end.

(** ** The walker of a session

    [Client.Walk] returns a walker of the transport library: an object
    with a current entry that [Step] advances.  The package only calls
    [Step], [Err], [Stat().IsDir()] and [Path]; a walker is therefore any
    state machine with these four observations. *)
Record Walker : Type := mkWalker {
  wk_state : Type;
  wk_Step : wk_state -> bool * wk_state;
  wk_Err : wk_state -> error;
  wk_Stat : wk_state -> FileInfo;
  wk_Path : wk_state -> string;
  wk_now : wk_state
}.

Definition Step (w : Walker) : bool * Walker :=
  let (more, s) := wk_Step w (wk_now w) in
  (more, mkWalker (wk_state w) (wk_Step w) (wk_Err w) (wk_Stat w) (wk_Path w) s).
Definition Err (w : Walker) : error := wk_Err w (wk_now w).
Definition Stat (w : Walker) : FileInfo := wk_Stat w (wk_now w).
Definition Path (w : Walker) : string := wk_Path w (wk_now w).

(** ** Programs over the collaborators *)

(** What a goroutine started by the package runs. *)
Inductive Goroutine : Type := reconnect_supervisor (ftpConn : sftpClient).

(** Statements that only say something.  [chan_send] is the send
    statement being run.  The channels are unbuffered, so the statement
    only completes when the goroutine at the other end takes the value:
    [exec] below is the run in which every send is taken at once, [run]
    the one in which a receiver decides and a send may block. *)
Inductive Output : Type :=
| slog_Info (msg : string)
| slog_Error (msg : string) (err : error)
| chan_send (c : chan) (v : bool)
| go (g : Goroutine).

(** [ssh.ClientConfig].  The host-key callback is reduced to the only
    argument the package's callbacks look at, the observed key; it
    yields what it logs and the error it returns. *)
Record ClientConfig : Type := {
  User : string;
  Auth : list string;
  HostKeyCallback : PublicKey -> list Output * error;
  Timeout : Z
}.

Inductive Reader : Type :=
| FileReader (f : option os_File)
| StringReader (s : string).

(** Calls that answer.  The index is the Go result type. *)
Inductive Event : Type -> Type :=
| ssh_Dial (network addr : string) (config : ClientConfig)
  : Event (option ssh_Client * error)
| sftp_NewClient (conn : option ssh_Client)
  : Event (option sftp_Client * error)
| Client_Rename (c : option sftp_Client) (oldname newname : string) : Event error
| Client_Remove (c : option sftp_Client) (path : string) : Event error
| Client_Mkdir (c : option sftp_Client) (path : string) : Event error
| Client_Create (c : option sftp_Client) (path : string)
  : Event (option sftp_File * error)
| Client_Open (c : option sftp_Client) (path : string)
  : Event (option sftp_File * error)
| Client_ReadDir (c : option sftp_Client) (path : string)
  : Event (list FileInfo * error)
| Client_Walk (c : option sftp_Client) (root : string) : Event Walker
| Client_Close (c : option sftp_Client) : Event error
| File_Close (f : option sftp_File) : Event error
| os_Open (name : string) : Event (option os_File * error)
| os_File_Close (f : option os_File) : Event error
| io_Copy (dst : option sftp_File) (src : Reader) : Event (Z * error)
| chan_recv (c : chan) : Event bool.

(** A program either returns, panics, says something and goes on, or
    calls a collaborator and goes on with its answer.  The answer is
    [None] when the callee itself panicked (a method entered on a nil
    receiver is the case at hand). *)
Inductive Prog (A : Type) : Type :=
| Ret (a : A)
| Panic
| Emit (o : Output) (k : Prog A)
| Vis {X : Type} (e : Event X) (k : option X -> Prog A).

Arguments Ret {A} a.
Arguments Panic {A}.
Arguments Emit {A} o k.
Arguments Vis {A X} e k.

Fixpoint bind {A B : Type} (p : Prog A) (f : A -> Prog B) : Prog B :=
  match p with
  | Ret a => f a
  | Panic => Panic
  | Emit o k => Emit o (bind k f)
  | Vis e k => Vis e (fun r => bind (k r) f)
  end.

Declare Scope prog_scope.
Delimit Scope prog_scope with prog.
Notation "x <- p ;; q" := (bind p (fun x => q))
  (at level 61, p at next level, right associativity) : prog_scope.
Notation "' pat <- p ;; q" := (bind p (fun x => match x with pat => q end))
  (at level 61, pat pattern, p at next level, right associativity) : prog_scope.
Notation "p ;; q" := (bind p (fun _ => q))
  (at level 61, right associativity) : prog_scope.
Local Open Scope prog_scope.

Definition call {X : Type} (e : Event X) : Prog X :=
  Vis e (fun r => match r with Some x => Ret x | None => Panic end).

Definition emit (o : Output) : Prog unit := Emit o (Ret tt).

(** [defer d; body]: [d] runs when [body] is left, by return or by
    panic; a panic of [body] goes on after [d], a panic of [d] replaces
    the result. *)
Fixpoint defer {A : Type} (d : Prog unit) (body : Prog A) : Prog A :=
  match body with
  | Ret a => d ;; Ret a
  | Panic => d ;; Panic
  | Emit o k => Emit o (defer d k)
  | Vis e k => Vis e (fun r => defer d (k r))
  end.

(** ** Running a program *)

Definition Handler (W : Type) : Type := forall X : Type, Event X -> W -> option X * W.

Inductive Obs : Type :=
| ObsOut (o : Output)
| ObsCall {X : Type} (e : Event X) (r : option X).

Inductive Outcome (A : Type) : Type :=
| Returned (a : A)
| Panicked.

Arguments Returned {A} a.
Arguments Panicked {A}.

Record Run (W A : Type) : Type := mkRun {
  outcome : Outcome A;
  world : W;
  trace : list Obs
}.

Arguments mkRun {W A} outcome world trace.
Arguments outcome {W A} r.
Arguments world {W A} r.
Arguments trace {W A} r.

Definition said {W A : Type} (o : Obs) (r : Run W A) : Run W A :=
  mkRun (outcome r) (world r) (o :: trace r).

(** The run of a program beside goroutines that take every send at
    once: a send is seen and the program goes on.  The run in which a
    send waits for its receiver is [run], further down. *)
Fixpoint exec {W A : Type} (h : Handler W) (p : Prog A) (w : W) : Run W A :=
  match p with
  | Ret a => mkRun (Returned a) w []
  | Panic => mkRun Panicked w []
  | Emit o k => said (ObsOut o) (exec h k w)
  | Vis e k =>
      let (x, w1) := h _ e w in
      said (ObsCall e x) (exec h (k x) w1)
  end.

(** Values sent on a channel, in order. *)
Fixpoint sent_on (c : chan) (t : list Obs) : list bool :=
  match t with
  | [] => []
  | ObsOut (chan_send c' v) :: t' =>
      if chan_eqb c c' then v :: sent_on c t' else sent_on c t'
  | _ :: t' => sent_on c t'
  end.

(** ** The client (part_000, lines 71-148) *)

(** [err.Error()]: a method call on an interface value, which panics on
    the nil interface. *)
Definition Error (err : error) : Prog string :=
  match err with
  | Some msg => Ret msg
  | None => Panic
  end.

Definition ConnectionLostHandler (sc : sftpClient) (err : error) : Prog unit :=
  msg <- Error err ;;
  if Contains msg "connection lost" then
    emit (slog_Info "Reconnecting...") ;;
    emit (chan_send (reconnect sc) true)
  else Ret tt.

Definition MoveFile (sc : sftpClient) (sourcePath destPath : string) : Prog error :=
  err <- call (Client_Rename (Client sc) sourcePath destPath) ;;
  ConnectionLostHandler sc err ;;
  Ret err.

Definition RemoveFile (sc : sftpClient) (dirPath : string) : Prog error :=
  err <- call (Client_Remove (Client sc) dirPath) ;;
  ConnectionLostHandler sc err ;;
  Ret err.


(** ** WalkFiles (part_000, lines 86-102)

    [for walker.Step() { ... }] is bounded by [fuel] iterations; running
    out of fuel yields [None], which no Go run produces. *)
Fixpoint WalkFiles_loop (fuel : nat) (sc : sftpClient) (walker : Walker)
    (files : list string) : Prog (option (list string * error)) :=
  match fuel with
  | O => Ret None
  | S fuel' =>
      let (more, walker) := Step walker in
      if more then
        match Err walker with
        | Some e =>
            ConnectionLostHandler sc (Some e) ;;
            Ret (Some (files, Some e))
        | None =>
            let files :=
              if negb (IsDir (Stat walker)) then files ++ [Path walker]
              else files in
            WalkFiles_loop fuel' sc walker files
        end
      else Ret (Some (files, None))
  end.

Definition WalkFiles (fuel : nat) (sc : sftpClient) (remoteDir : string)
  : Prog (option (list string * error)) :=
  let files := [] in
  walker <- call (Client_Walk (Client sc) remoteDir) ;;
  WalkFiles_loop fuel sc walker files.

(** ** OpenFile, GetRecords, Files, Close (lines 104-142, 208-210) *)

Definition OpenFile (sc : sftpClient) (remoteFile : string)
  : Prog (option sftp_File * error) :=
  '(file, err) <- call (Client_Open (Client sc) remoteFile) ;;
  match err with
  | Some msg =>
      emit (slog_Error ("Error opening file " ++ remoteFile ++ ": " ++ msg)%string None) ;;
      ConnectionLostHandler sc err ;;
      Ret (None, err)
  | None => Ret (file, None)
  end.

Definition GetRecords (sc : sftpClient) (remoteFile : string)
    (onReader : option sftp_File -> Prog (list (list string) * error))
  : Prog (list (list string) * error) :=
  '(file, err) <- OpenFile sc remoteFile ;;
  let read :=
    '(contents, err) <- onReader file ;;
    match err with
    | Some msg =>
        emit (slog_Error ("Error reading file " ++ remoteFile ++ ": " ++ msg)%string None) ;;
        Ret ([], err)
    | None => Ret (contents, None)
    end in
  match err with
  | None => defer (call (File_Close file) ;; Ret tt) read
  | Some _ => ConnectionLostHandler sc err ;; read
  end.

Definition Files (sc : sftpClient) (remoteDir : string) : Prog (list FileInfo) :=
  '(entries, err) <- call (Client_ReadDir (Client sc) remoteDir) ;;
  match err with
  | Some _ =>
      emit (slog_Error "Failed to read directory:" err) ;;
      ConnectionLostHandler sc err ;;
      Ret []
  | None => Ret entries
  end.

Definition Close (sc : sftpClient) : Prog error :=
  call (Client_Close (Client sc)).

(** ** PutFile and PutString (lines 150-206) *)

(** [for _, dir := range dirs { path = filepath.Join(path, dir);
    _ = sc.Client.Mkdir(path) }] *)
Fixpoint mkdir_each (sc : sftpClient) (path : string) (dirs : list string)
  : Prog unit :=
  match dirs with
  | [] => Ret tt
  | dir :: dirs' =>
      let path := Join [path; dir] in
      _ <- call (Client_Mkdir (Client sc) path) ;;
      mkdir_each sc path dirs'
  end.

(** The "Make remote directories recursion" block of both operations. *)
Definition make_remote_directories (sc : sftpClient) (remoteFile : string)
  : Prog unit :=
  let parent := Dir remoteFile in
  let path := String Separator EmptyString in
  let dirs := Split parent Separator in
  mkdir_each sc path dirs.

Definition PutFile (sc : sftpClient) (localFile remoteFile : string) : Prog error :=
  '(srcFile, err) <- call (os_Open localFile) ;;
  match err with
  | Some _ =>
      emit (slog_Error "Open file" err) ;;
      ConnectionLostHandler sc err ;;
      Ret err
  | None =>
      defer (call (os_File_Close srcFile) ;; Ret tt)
        (make_remote_directories sc remoteFile ;;
         '(dstFile, err) <- call (Client_Create (Client sc) remoteFile) ;;
         match err with
         | Some _ =>
             emit (slog_Error "Create remote file" err) ;;
             ConnectionLostHandler sc err ;;
             Ret err
         | None =>
             defer (call (File_Close dstFile) ;; Ret tt)
               ('(_, err) <- call (io_Copy dstFile (FileReader srcFile)) ;;
                Ret err)
         end)
  end.

Definition PutString (sc : sftpClient) (text remoteFile : string) : Prog error :=
  make_remote_directories sc remoteFile ;;
  '(dstFile, err) <- call (Client_Create (Client sc) remoteFile) ;;
  match err with
  | Some _ =>
      emit (slog_Error "Open a file on the remote:" err) ;;
      ConnectionLostHandler sc err
  | None => Ret tt
  end ;;
  defer (call (File_Close dstFile) ;; Ret tt)
    ('(_, err) <- call (io_Copy dstFile (StringReader text)) ;;
     match err with
     | Some _ => emit (slog_Error "Copy a text to remote:" err)
     | None => Ret tt
     end ;;
     Ret None).

(** ** Host keys and the session factory (lines 212-288) *)

Section HostKey.

(** [strconv.Quote], which the verb [%q] formats a string with. *)
Variable Quote : string -> string.

Definition keyString (k : PublicKey) : string :=
  (Type_ k ++ " " ++ EncodeToString (Marshal k))%string.

Definition trustedHostKeyCallback (trustedKey : string)
  : PublicKey -> list Output * error :=
  if (trustedKey =? "")%string then
    fun k =>
      ([slog_Error
          ("WARNING: SSH-key verification is *NOT* in effect: to fix, add this trustedKey: "
             ++ Quote (keyString k))%string None],
       None)
  else
    fun k =>
      let ks := keyString k in
      if negb (trustedKey =? ks)%string then
        ([], Some ("SSH-key verification: expected " ++ Quote trustedKey
                     ++ " but got " ++ Quote ks)%string)
      else ([], None).

(** [ssh.InsecureIgnoreHostKey()]: accepts every key. *)
Definition InsecureIgnoreHostKey : PublicKey -> list Output * error :=
  fun _ => ([], None).

(** The interface [SftpConn]. *)
Record SftpConn : Type := { Connect : Prog (option sftp_Client * error) }.

Definition sftpConn_Connect (s : Config) : Prog (option sftp_Client * error) :=
  let config := {|
    User := Username s;
    Auth := [Password s];
    HostKeyCallback :=
      if negb (SSHTrustedKey s =? "")%string
      then trustedHostKeyCallback (SSHTrustedKey s)
      else InsecureIgnoreHostKey;
    Timeout := 30 * 1000000000
  |} in
  let addr := (Host s ++ ":" ++ NilZero.string_of_int (Z.to_int (Port s)))%string in
  '(conn, err) <- call (ssh_Dial "tcp" addr config) ;;
  match err with
  | Some _ =>
      emit (slog_Error "Connect fail:" err) ;;
      Ret (None, err)
  | None =>
      '(client, err) <- call (sftp_NewClient conn) ;;
      match err with
      | Some _ =>
          emit (slog_Error "New client fail:" err) ;;
          Ret (None, err)
      | None => Ret (client, None)
      end
  end.

Definition NewSftpConn (c : Config) : SftpConn :=
  {| Connect := sftpConn_Connect c |}.

End HostKey.

(** ** NewClient and its supervisor (lines 41-69) *)

(** One turn of the goroutine's [for { select { case res := <-reconnect:
    ... } }] on the client struct it shares with the facade; the struct
    after the turn is returned. *)
Definition supervisor_turn (conn : SftpConn) (ftpConn : sftpClient)
  : Prog sftpClient :=
  res <- call (chan_recv (reconnect ftpConn)) ;;
  if res : bool then
    '(newConn, e) <- Connect conn ;;
    match e with
    | None =>
        let ftpConn := {| Client := newConn;
                          reconnect := reconnect ftpConn;
                          ReconnectStatus := ReconnectStatus ftpConn |} in
        emit (chan_send (ReconnectStatus ftpConn) true) ;;
        emit (slog_Info "Reconnected") ;;
        Ret ftpConn
    | Some _ =>
        emit (chan_send (ReconnectStatus ftpConn) false) ;;
        emit (slog_Error "Reconnect failure" e) ;;
        Ret ftpConn
    end
  else Ret ftpConn.

(** The first [n] turns of the loop, which never ends by itself. *)
Fixpoint supervisor (n : nat) (conn : SftpConn) (ftpConn : sftpClient)
  : Prog sftpClient :=
  match n with
  | O => Ret ftpConn
  | S n' =>
      ftpConn <- supervisor_turn conn ftpConn ;;
      supervisor n' conn ftpConn
  end.

(** The result is the interface value [SftpClient]: [Some] of the struct
    behind the pointer, [None] for a nil interface. *)
Definition NewClient (conn : SftpConn) : Prog (option sftpClient * error) :=
  '(client, err) <- Connect conn ;;
  let reconnect_ := ch_reconnect in
  let status := ch_status in
  let ftpConn := {| Client := client;
                    reconnect := reconnect_;
                    ReconnectStatus := status |} in
  emit (go (reconnect_supervisor ftpConn)) ;;
  Ret (Some ftpConn, err).

(** ** Reading runs *)

(** The run of [p ;; k]: [k] starts in the world [p] left, unless [p]
    panicked. *)
Definition seq_run {W A B : Type} (r : Run W A) (k : A -> W -> Run W B) : Run W B :=
  match outcome r with
  | Returned a =>
      let r2 := k a (world r) in
      mkRun (outcome r2) (world r2) (trace r ++ trace r2)
  | Panicked => mkRun Panicked (world r) (trace r)
  end.

(** The error is non-nil and its message contains [phrase]. *)
Definition mentions (err : error) (phrase : string) : Prop :=
  exists msg pre post, err = Some msg /\ msg = (pre ++ phrase ++ post)%string.

(** ** A scripted server

    A collaborator whose answers are fixed in advance, for running the
    operations on concrete inputs.  Methods entered on a nil receiver
    panic, as the sftp library's do. *)
Record Script : Type := {
  on_Dial : option ssh_Client * error;
  on_NewClient : option sftp_Client * error;
  on_Rename : error;
  on_Remove : error;
  on_Mkdir : string -> error;
  on_Create : option sftp_File * error;
  on_Open : option sftp_File * error;
  on_ReadDir : list FileInfo * error;
  on_Walk : Walker;
  on_Copy : Z * error;
  on_osOpen : option os_File * error;
  on_recv : bool
}.

Definition on_receiver {R X : Type} (recv : option R) (x : X) : option X :=
  match recv with
  | Some _ => Some x
  | None => None
  end.

Definition serve (s : Script) : Handler unit :=
  fun X e w =>
    (match e in Event X return option X with
     | ssh_Dial _ _ _ => Some (on_Dial s)
     | sftp_NewClient conn => on_receiver conn (on_NewClient s)
     | Client_Rename c _ _ => on_receiver c (on_Rename s)
     | Client_Remove c _ => on_receiver c (on_Remove s)
     | Client_Mkdir c path => on_receiver c (on_Mkdir s path)
     | Client_Create c _ => on_receiver c (on_Create s)
     | Client_Open c _ => on_receiver c (on_Open s)
     | Client_ReadDir c _ => on_receiver c (on_ReadDir s)
     | Client_Walk c _ => on_receiver c (on_Walk s)
     | Client_Close c => on_receiver c None
     | File_Close f => on_receiver f None
     | os_Open _ => Some (on_osOpen s)
     | os_File_Close f => on_receiver f None
     | io_Copy dst _ => on_receiver dst (on_Copy s)
     | chan_recv _ => Some (on_recv s)
     end, w).

(** A walker with nothing to visit. *)
Definition empty_walker : Walker :=
  mkWalker unit (fun s => (false, s)) (fun _ => None)
           (fun _ => {| Name := ""; IsDir := false |}) (fun _ => "") tt.

(** A server on which every call succeeds. *)
Definition healthy : Script := {|
  on_Dial := (Some 1, None);
  on_NewClient := (Some 1, None);
  on_Rename := None;
  on_Remove := None;
  on_Mkdir := fun _ => None;
  on_Create := (Some 1, None);
  on_Open := (Some 1, None);
  on_ReadDir := ([], None);
  on_Walk := empty_walker;
  on_Copy := (0%Z, None);
  on_osOpen := (Some 1, None);
  on_recv := true
|}.

(** A client on an established session. *)
Definition connected : sftpClient :=
  {| Client := Some 1; reconnect := ch_reconnect; ReconnectStatus := ch_status |}.

(** What [MoveFile] and [RemoveFile] do with the error of their one
    library call. *)
Definition report (sc : sftpClient) (err : error) : Prog error :=
  ConnectionLostHandler sc err ;; Ret err.

(** The struct after a reconnect that yielded [newConn]. *)
Definition with_Client (ftpConn : sftpClient) (newConn : option sftp_Client)
  : sftpClient :=
  {| Client := newConn;
     reconnect := reconnect ftpConn;
     ReconnectStatus := ReconnectStatus ftpConn |}.

(** Whether an error value is nil. *)
Definition is_nil (e : error) : bool :=
  match e with None => true | Some _ => false end.

(** A server that cannot be reached any more. *)
Definition unreachable : Script := {|
  on_Dial := (None, Some "dial tcp: connection refused");
  on_NewClient := (None, Some "EOF");
  on_Rename := Some "connection lost";
  on_Remove := Some "connection lost";
  on_Mkdir := fun _ => Some "connection lost";
  on_Create := (None, Some "connection lost");
  on_Open := (None, Some "connection lost");
  on_ReadDir := ([], Some "connection lost");
  on_Walk := empty_walker;
  on_Copy := (0%Z, Some "connection lost");
  on_osOpen := (Some 1, None);
  on_recv := true
|}.

(** A quoting function for the examples: the string between two marks. *)
Definition quote_plain (s : string) : string := ("<" ++ s ++ ">")%string.

Definition example_config : Config := {|
  Host := "example.com"; Username := "u"; Password := "p";
  Port := 2022; SSHTrustedKey := ""
|}.

(** ** Walks

    [visits w ws last]: from [w], [Step] succeeds once per element of
    [ws], showing the walker in these states in turn, and leaves it in
    [last]. *)
Inductive visits : Walker -> list Walker -> Walker -> Prop :=
| visits_done (w : Walker) : visits w [] w
| visits_step (w w1 last : Walker) (ws : list Walker) :
    Step w = (true, w1) -> visits w1 ws last -> visits w (w1 :: ws) last.

(** The paths [WalkFiles] keeps of the entries shown: those that are not
    directories, in the order shown. *)
Definition collected (ws : list Walker) : list string :=
  flat_map (fun w => if negb (IsDir (Stat w)) then [Path w] else []) ws.

(** What a walker shows of an entry. *)
Record Entry : Type := {
  entry_path : string;
  entry_isDir : bool;
  entry_err : error
}.

(** A walker that shows the entries of a list, one at each step. *)
Definition list_Step (s : Entry * list Entry) : bool * (Entry * list Entry) :=
  match snd s with
  | [] => (false, s)
  | e :: rest => (true, (e, rest))
  end.

Definition list_walker_at (s : Entry * list Entry) : Walker :=
  mkWalker (Entry * list Entry) list_Step
    (fun s => entry_err (fst s))
    (fun s => {| Name := entry_path (fst s); IsDir := entry_isDir (fst s) |})
    (fun s => entry_path (fst s))
    s.

Definition list_walker (entries : list Entry) : Walker :=
  list_walker_at ({| entry_path := ""; entry_isDir := false; entry_err := None |},
                  entries).

(** ** A walker over a remote tree *)

(** Modelled from the spec: the walker of the session collaborator,
    which is not part of this repository.  Section 4.4 describes the
    walk as a depth-first traversal of the remote tree rooted at the
    directory, directories before their children, every entry shown
    once.  The model keeps the entries still to be shown on a stack and,
    at each step, first pushes the children of the directory it shows,
    then pops the next entry.  A remote tree is a finite tree of files
    and directories; it has no cycles. *)
#[warnings="-register-all"]
Inductive RemoteNode : Type :=
| RemoteFile (name : string)
| RemoteDir (name : string) (entries : list RemoteNode).

Definition node_name (n : RemoteNode) : string :=
  match n with
  | RemoteFile name => name
  | RemoteDir name _ => name
  end.

Definition node_isDir (n : RemoteNode) : bool :=
  match n with
  | RemoteFile _ => false
  | RemoteDir _ _ => true
  end.

Record Item : Type := { item_path : string; item_node : RemoteNode }.

Definition children (it : Item) : list Item :=
  match item_node it with
  | RemoteFile _ => []
  | RemoteDir _ entries =>
      map (fun n => {| item_path := Join [item_path it; node_name n];
                       item_node := n |}) entries
  end.

Record TreeWalk : Type := {
  cur : option Item;
  stack : list Item;
  descend : bool
}.

(** What is still to be shown: the children of the current directory,
    once the walk descends into it, before the rest of the stack. *)
Definition pending (s : TreeWalk) : list Item :=
  (if descend s
   then match cur s with Some it => children it | None => [] end
   else []) ++ stack s.

Definition tree_Step (s : TreeWalk) : bool * TreeWalk :=
  match pending s with
  | [] => (false, {| cur := cur s; stack := []; descend := descend s |})
  | it :: rest => (true, {| cur := Some it; stack := rest; descend := true |})
  end.

Definition tree_walker_at (s : TreeWalk) : Walker :=
  mkWalker TreeWalk tree_Step
    (fun _ => None)
    (fun s => match cur s with
              | Some it => {| Name := node_name (item_node it);
                              IsDir := node_isDir (item_node it) |}
              | None => {| Name := ""; IsDir := false |}
              end)
    (fun s => match cur s with Some it => item_path it | None => EmptyString end)
    s.

(** [Walk(root)] on a server whose tree at [root] is [t]. *)
Definition tree_walker (root : string) (t : RemoteNode) : Walker :=
  tree_walker_at {| cur := None;
                    stack := [{| item_path := root; item_node := t |}];
                    descend := false |}.

(** The entries of a tree in the order of the walk. *)
Fixpoint walk_order (path : string) (n : RemoteNode) : list Item :=
  {| item_path := path; item_node := n |} ::
  match n with
  | RemoteFile _ => []
  | RemoteDir _ entries =>
      flat_map (fun c => walk_order (Join [path; node_name c]) c) entries
  end.

Definition walk_order_of (it : Item) : list Item :=
  walk_order (item_path it) (item_node it).

Fixpoint count_files (n : RemoteNode) : nat :=
  match n with
  | RemoteFile _ => 1
  | RemoteDir _ entries => list_sum (map count_files entries)
  end.

Fixpoint count_dirs (n : RemoteNode) : nat :=
  match n with
  | RemoteFile _ => 0
  | RemoteDir _ entries => S (list_sum (map count_dirs entries))
  end.

(** The paths of the entries of a walk that are not directories. *)
Definition file_paths (items : list Item) : list string :=
  map item_path (filter (fun it => negb (node_isDir (item_node it))) items).

(** The tree of the walk example of section 8, and a walk that breaks
    at its third entry. *)
Definition reports : RemoteNode :=
  RemoteDir "reports"
    [RemoteFile "a.txt"; RemoteDir "sub" [RemoteFile "b.txt"]].

Definition broken_walk : list Entry :=
  [{| entry_path := "/reports"; entry_isDir := true; entry_err := None |};
   {| entry_path := "/reports/a.txt"; entry_isDir := false; entry_err := None |};
   {| entry_path := "/reports/sub"; entry_isDir := true;
      entry_err := Some "connection lost" |};
   {| entry_path := "/reports/sub/b.txt"; entry_isDir := false;
      entry_err := None |}].

(** ** Reading the trace of an upload *)

(** A call that its callee answered, by a result or an error, instead
    of panicking. *)
Definition answered (o : Obs) : bool :=
  match o with
  | ObsCall _ None => false
  | _ => true
  end.

(** The paths [Mkdir] was called on, in order. *)
Fixpoint mkdir_calls (t : list Obs) : list string :=
  match t with
  | [] => []
  | ObsCall e _ :: t' =>
      match e with
      | Client_Mkdir _ path => path :: mkdir_calls t'
      | _ => mkdir_calls t'
      end
  | _ :: t' => mkdir_calls t'
  end.

(** [path] joined with more and more of [dirs]. *)
Fixpoint joined (path : string) (dirs : list string) : list string :=
  match dirs with
  | [] => []
  | dir :: dirs' => Join [path; dir] :: joined (Join [path; dir]) dirs'
  end.

(** The directories both uploads try to create for a remote file. *)
Definition mkdir_paths (remoteFile : string) : list string :=
  joined (String Separator EmptyString) (Split (Dir remoteFile) Separator).

(** The log and the answers that end [PutString]: the copy into [dst]
    and the deferred close of [dst]. *)
Definition copy_log (c : option (Z * error)) : list Obs :=
  match c with
  | Some (_, Some e) => [ObsOut (slog_Error "Copy a text to remote:" (Some e))]
  | _ => []
  end.

(** A path element with a name of its own: not empty, not [.] or [..],
    and without separator. *)
Definition plain (e : string) : Prop :=
  e <> EmptyString /\ e <> "."%string /\ e <> ".."%string /\
  Split e Separator = [e].

(** The absolute path with the elements [segs]. *)
Definition absolute (segs : list string) : string :=
  String Separator (String.concat "/" segs).

(** The absolute paths of the non-empty prefixes of [segs], shortest
    first, below [above]. *)
Fixpoint ancestors (above segs : list string) : list string :=
  match segs with
  | [] => []
  | e :: rest => absolute (above ++ [e]) :: ancestors (above ++ [e]) rest
  end.

(** A server whose copies break off. *)
Definition short_write : Script := {|
  on_Dial := on_Dial healthy; on_NewClient := on_NewClient healthy;
  on_Rename := None; on_Remove := None;
  on_Mkdir := fun _ => Some "file exists";
  on_Create := (Some 1, None); on_Open := on_Open healthy;
  on_ReadDir := ([], None); on_Walk := empty_walker;
  on_Copy := (3%Z, Some "short write");
  on_osOpen := on_osOpen healthy; on_recv := true
|}.

(** A server on which every directory exists already. *)
Definition directories_exist : Script := {|
  on_Dial := on_Dial healthy; on_NewClient := on_NewClient healthy;
  on_Rename := None; on_Remove := None;
  on_Mkdir := fun _ => Some "file exists";
  on_Create := (Some 1, None); on_Open := on_Open healthy;
  on_ReadDir := ([], None); on_Walk := empty_walker;
  on_Copy := (5%Z, None);
  on_osOpen := on_osOpen healthy; on_recv := true
|}.

(** [PutString] from the creation of the remote file on. *)
Definition PutString_write (sc : sftpClient) (text remoteFile : string)
  : Prog error :=
  '(dstFile, err) <- call (Client_Create (Client sc) remoteFile) ;;
  match err with
  | Some _ =>
      emit (slog_Error "Open a file on the remote:" err) ;;
      ConnectionLostHandler sc err
  | None => Ret tt
  end ;;
  defer (call (File_Close dstFile) ;; Ret tt)
    ('(_, err) <- call (io_Copy dstFile (StringReader text)) ;;
     match err with
     | Some _ => emit (slog_Error "Copy a text to remote:" err)
     | None => Ret tt
     end ;;
     Ret None).

(** [PutFile] from the creation of the remote file on, within the
    deferred close of the local file. *)
Definition PutFile_write (sc : sftpClient) (srcFile : option os_File)
    (remoteFile : string) : Prog error :=
  '(dstFile, err) <- call (Client_Create (Client sc) remoteFile) ;;
  match err with
  | Some _ =>
      emit (slog_Error "Create remote file" err) ;;
      ConnectionLostHandler sc err ;;
      Ret err
  | None =>
      defer (call (File_Close dstFile) ;; Ret tt)
        ('(_, err) <- call (io_Copy dstFile (FileReader srcFile)) ;;
         Ret err)
  end.

(** A program that never calls [Mkdir]. *)
Fixpoint no_Mkdir {A : Type} (p : Prog A) : Prop :=
  match p with
  | Ret _ => True
  | Panic => True
  | Emit _ k => no_Mkdir k
  | Vis e k =>
      match e with
      | Client_Mkdir _ _ => False
      | _ => True
      end /\ forall r, no_Mkdir (k r)
  end.

(** ** The demonstration wiring (example/main.go, lines 12-25)

    [New] reads the host and the credentials from the environment,
    given here as the function [getenv], and leaves the trusted key at
    its zero value.  [log.Panic] writes to the standard logger, which is
    not traced, and panics. *)
Definition New (Quote : string -> string) (getenv : string -> string)
  : Prog (option sftpClient) :=
  let config := {|
    Host := getenv "HOST";
    Username := getenv "USER";
    Password := getenv "PASS";
    Port := 2022;
    SSHTrustedKey := ""
  |} in
  let ftpConn := NewSftpConn Quote config in
  '(csftp, err) <- NewClient ftpConn ;;
  match err with
  | Some _ => _ <- Error err ;; Panic
  | None => Ret csftp
  end.

(** A server that is down for its first [down] calls and healthy from
    then on; the world counts the calls. *)
Definition serve_until (down : nat) : Handler nat :=
  fun X e w =>
    (if Nat.ltb w down then fst (serve unreachable X e tt)
     else fst (serve healthy X e tt),
     S w).

(** What [ConnectionLostHandler] sends on the reconnect channel for an
    error. *)
Definition signal (err : error) : list bool :=
  match err with
  | Some msg => if Contains msg "connection lost" then [true] else []
  | None => []
  end.

(** A server that answers no reconnect request with [true]. *)
Definition idle_requests : Script := {|
  on_Dial := on_Dial healthy; on_NewClient := on_NewClient healthy;
  on_Rename := None; on_Remove := None; on_Mkdir := fun _ => None;
  on_Create := on_Create healthy; on_Open := on_Open healthy;
  on_ReadDir := ([], None); on_Walk := empty_walker;
  on_Copy := on_Copy healthy; on_osOpen := on_osOpen healthy;
  on_recv := false
|}.

(** A server on which a file and a directory are missing. *)
Definition not_found : Script := {|
  on_Dial := on_Dial healthy; on_NewClient := on_NewClient healthy;
  on_Rename := Some "file does not exist";
  on_Remove := Some "file does not exist";
  on_Mkdir := fun _ => None;
  on_Create := (None, Some "permission denied");
  on_Open := (None, Some "file does not exist");
  on_ReadDir := ([{| Name := "stale"; IsDir := false |}],
                 Some "file does not exist");
  on_Walk := empty_walker;
  on_Copy := on_Copy healthy;
  on_osOpen := (None, Some "open local.txt: no such file or directory");
  on_recv := true
|}.

(** The address and the configuration [sftpConn.Connect] dials with
    (lines 255-268). *)
Definition dial_address (s : Config) : string :=
  (Host s ++ ":" ++ NilZero.string_of_int (Z.to_int (Port s)))%string.

Definition dial_config (Quote : string -> string) (s : Config) : ClientConfig :=
  {| User := Username s;
     Auth := [Password s];
     HostKeyCallback :=
       if negb (SSHTrustedKey s =? "")%string
       then trustedHostKeyCallback Quote (SSHTrustedKey s)
       else InsecureIgnoreHostKey;
     Timeout := 30 * 1000000000 |}.

(** A reader of records for [GetRecords] that gives up on a nil file. *)
Definition read_rows (file : option sftp_File)
  : Prog (list (list string) * error) :=
  match file with
  | Some _ => Ret ([["id"; "name"]; ["1"; "ann"]]%string, None)
  | None => Ret ([["partial"]]%string, Some "invalid argument"%string)
  end.

(** What [GetRecords] logs after the reader. *)
Definition reading_log {W : Type} (remoteFile : string)
    (rd : Run W (list (list string) * error)) : list Obs :=
  match outcome rd with
  | Returned (_, Some msg) =>
      [ObsOut (slog_Error ("Error reading file " ++ remoteFile ++ ": " ++ msg)%string
                 None)]
  | _ => []
  end.

(** What [GetRecords] makes of the result of the reader. *)
Definition records_of {W : Type} (rd : Run W (list (list string) * error))
  : Outcome (list (list string) * error) :=
  match outcome rd with
  | Returned (contents, None) => Returned (contents, None)
  | Returned (_, Some msg) => Returned ([], Some msg)
  | Panicked => Panicked
  end.

(** A path that starts at the root. *)
Definition rooted (path : string) : Prop :=
  exists rest, path = String Separator rest.

(** A run that sends nothing but [true], and that only on the
    reconnect channel of [sc], whatever the collaborators answer. *)
Definition only_signals {A : Type} (sc : sftpClient) (p : Prog A) : Prop :=
  forall (W : Type) (h : Handler W) (w : W) (c : chan),
    Forall (fun v => v = true) (sent_on c (trace (exec h p w))) /\
    (c <> reconnect sc -> sent_on c (trace (exec h p w)) = []).

(** The configuration [New] builds from the environment. *)
Definition demo_config (getenv : string -> string) : Config :=
  {| Host := getenv "HOST";
     Username := getenv "USER";
     Password := getenv "PASS";
     Port := 2022;
     SSHTrustedKey := "" |}.

(** A walk of two entries without error. *)
Definition short_walk : list Entry :=
  [{| entry_path := "/reports"; entry_isDir := true; entry_err := None |};
   {| entry_path := "/reports/a.txt"; entry_isDir := false; entry_err := None |}].

Definition walking (walker : Walker) : Script := {|
  on_Dial := on_Dial healthy; on_NewClient := on_NewClient healthy;
  on_Rename := None; on_Remove := None; on_Mkdir := fun _ => None;
  on_Create := on_Create healthy; on_Open := on_Open healthy;
  on_ReadDir := ([], None); on_Walk := walker;
  on_Copy := on_Copy healthy; on_osOpen := on_osOpen healthy;
  on_recv := true
|}.

(** ** Runs in which a send waits for its receiver

    The channels of a client are made without buffer (lines 45-46): a
    send goes on only once the goroutine at the other end has taken the
    value.  A [Receiver] says, for a send in a world, whether the value
    is taken, and in which world the sender goes on; [None] is a send
    that is never taken.  Such a send blocks its goroutine for good:
    nothing follows it, no deferred call either. *)
Definition Receiver (W : Type) : Type := chan -> bool -> W -> option W.

Inductive Fate (A : Type) : Type :=
| Done (a : A)
| Panics
| Blocks.

Arguments Done {A} a.
Arguments Panics {A}.
Arguments Blocks {A}.

Record Sync (W A : Type) : Type := mkSync {
  fate : Fate A;
  after : W;
  seen : list Obs
}.

Arguments mkSync {W A} fate after seen.
Arguments fate {W A} s.
Arguments after {W A} s.
Arguments seen {W A} s.

Definition heard {W A : Type} (o : Obs) (r : Sync W A) : Sync W A :=
  mkSync (fate r) (after r) (o :: seen r).

(** A send that is not taken is the last thing seen of the run. *)
Fixpoint run {W A : Type} (h : Handler W) (rcv : Receiver W) (p : Prog A)
    (w : W) : Sync W A :=
  match p with
  | Ret a => mkSync (Done a) w []
  | Panic => mkSync Panics w []
  | Emit o k =>
      match o with
      | chan_send c v =>
          match rcv c v w with
          | Some w' => heard (ObsOut o) (run h rcv k w')
          | None => mkSync Blocks w [ObsOut o]
          end
      | _ => heard (ObsOut o) (run h rcv k w)
      end
  | Vis e k =>
      let (x, w1) := h _ e w in
      heard (ObsCall e x) (run h rcv (k x) w1)
  end.

(** The run of [p ;; k] with a receiver: [k] starts where [p] returned,
    and does not start when [p] panicked or is blocked. *)
Definition seq_sync {W A B : Type} (r : Sync W A) (k : A -> W -> Sync W B)
  : Sync W B :=
  match fate r with
  | Done a =>
      let r2 := k a (after r) in
      mkSync (fate r2) (after r2) (seen r ++ seen r2)
  | Panics => mkSync Panics (after r) (seen r)
  | Blocks => mkSync Blocks (after r) (seen r)
  end.

(** A run without receiver read as one with. *)
Definition as_sync {W A : Type} (r : Run W A) : Sync W A :=
  mkSync (match outcome r with
          | Returned a => Done a
          | Panicked => Panics
          end) (world r) (trace r).

(** A program that has no send. *)
Fixpoint sendless {A : Type} (p : Prog A) : Prop :=
  match p with
  | Ret _ => True
  | Panic => True
  | Emit o k =>
      match o with
      | chan_send _ _ => False
      | _ => True
      end /\ sendless k
  | Vis _ k => forall r, sendless (k r)
  end.

(** The reconnect signal that [err] gives rise to, if any, is taken in
    the world [w], and the sender goes on in [w']. *)
Definition signal_taken {W : Type} (rcv : Receiver W) (sc : sftpClient)
    (err : error) (w w' : W) : Prop :=
  match signal err with
  | [] => w' = w
  | _ :: _ => rcv (reconnect sc) true w = Some w'
  end.

(** What [ConnectionLostHandler] is seen to do for an error that asks
    for a reconnect. *)
Definition signalling (sc : sftpClient) : list Obs :=
  [ObsOut (slog_Info "Reconnecting..."); ObsOut (chan_send (reconnect sc) true)].

(** What [ConnectionLostHandler] is seen to do for an error. *)
Definition told (sc : sftpClient) (err : error) : list Obs :=
  match signal err with
  | [] => []
  | _ :: _ => signalling sc
  end.

(** A supervisor that waits at its receive and takes every request. *)
Definition waiting : Receiver unit := fun _ _ w => Some w.

(** A supervisor that takes nothing: it is parked in the send of a
    status that nobody receives (lines 57 and 60). *)
Definition parked : Receiver unit := fun _ _ _ => None.

(** The supervisor when nobody receives its status: it takes one
    reconnect request and is parked in the send of the status from then
    on (lines 57 and 60).  The world says whether it still waits at its
    receive. *)
Definition takes_one : Receiver bool :=
  fun c _ ready =>
    if ready && chan_eqb c ch_reconnect then Some false else None.

(** A scripted server beside any state of the supervisor. *)
Definition serve_beside {S : Type} (s : Script) : Handler S :=
  fun X e w => (fst (serve s X e tt), w).

(** What [GetRecords] logs after the reader and makes of its result, in
    a run with a receiver. *)
Definition reading_log_sync {W : Type} (remoteFile : string)
    (rd : Sync W (list (list string) * error)) : list Obs :=
  match fate rd with
  | Done (_, Some msg) =>
      [ObsOut (slog_Error ("Error reading file " ++ remoteFile ++ ": " ++ msg)%string
                 None)]
  | _ => []
  end.

Definition records_of_sync {W : Type} (rd : Sync W (list (list string) * error))
  : Fate (list (list string) * error) :=
  match fate rd with
  | Done (contents, None) => Done (contents, None)
  | Done (_, Some msg) => Done ([], Some msg)
  | Panics => Panics
  | Blocks => Blocks
  end.

(** * Properties *)

(** ** Strings *)

Lemma prefix_app (a b : string) :
  prefix a b = true <-> exists post, b = (a ++ post)%string.
Proof.
  revert b; induction a as [| c a IH]; intros b.
  - split; [intros _; exists b; reflexivity | now destruct b].
  - destruct b as [| c' b]; simpl.
    + split; [discriminate | intros [post H]; discriminate].
    + destruct (ascii_dec c c') as [-> | Hne].
      * rewrite IH. split; intros [post H]; exists post.
        -- now subst.
        -- now inversion H.
      * split; [discriminate |].
        intros [post H]. inversion H. congruence.
Qed.

Lemma Contains_cons (c : ascii) (s substr : string) :
  Contains (String c s) substr =
  if prefix substr (String c s) then true else Contains s substr.
Proof. reflexivity. Qed.

Lemma Contains_nil (substr : string) : Contains "" substr = prefix substr "".
Proof. unfold Contains. now destruct (prefix substr ""). Qed.

Lemma Contains_spec (s substr : string) :
  Contains s substr = true <->
  exists pre post, s = (pre ++ substr ++ post)%string.
Proof.
  induction s as [| c s IH].
  - rewrite Contains_nil, prefix_app. split.
    + intros [post H]. now exists ""%string, post.
    + intros (pre & post & H). destruct pre; [| discriminate]. now exists post.
  - rewrite Contains_cons.
    destruct (prefix substr (String c s)) eqn:Hp.
    + split; [intros _ | reflexivity].
      apply prefix_app in Hp. destruct Hp as [post H]. now exists ""%string, post.
    + rewrite IH. split.
      * intros (pre & post & H). exists (String c pre), post. now subst.
      * intros (pre & post & H). destruct pre as [| c' pre].
        -- assert (prefix substr (String c s) = true)
             by (apply prefix_app; now exists post).
           congruence.
        -- inversion H. now exists pre, post.
Qed.

(** The examples of the Go documentation of [strings.Contains],
    [strings.Split], [filepath.Dir] and [filepath.Join], and cases of
    the test table of [Clean]. *)
Example Contains_examples :
  Contains "seafood" "foo" = true /\ Contains "seafood" "bar" = false /\
  Contains "seafood" "" = true /\ Contains "" "" = true.
Proof. repeat split. Qed.

Example Split_examples :
  Split "a,b,c" ","%char = ["a"; "b"; "c"]%string /\
  Split "" Separator = [""%string] /\
  Split "/a/b" Separator = [""; "a"; "b"]%string.
Proof. repeat split. Qed.

Example Clean_examples :
  Clean "" = "."%string /\ Clean "abc" = "abc"%string /\
  Clean "a/b/c" = "a/b/c"%string /\ Clean "." = "."%string /\
  Clean ".." = ".."%string /\ Clean "../../abc" = "../../abc"%string /\
  Clean "/" = "/"%string /\ Clean "abc/def/" = "abc/def"%string /\
  Clean "./" = "."%string /\ Clean "../../" = "../.."%string /\
  Clean "abc//def//ghi" = "abc/def/ghi"%string /\
  Clean "///abc" = "/abc"%string /\ Clean "//abc//" = "/abc"%string /\
  Clean "abc/./def" = "abc/def"%string /\
  Clean "/./abc/def" = "/abc/def"%string /\
  Clean "abc/def/ghi/../jkl" = "abc/def/jkl"%string /\
  Clean "abc/def/../.." = "."%string /\
  Clean "/abc/def/../.." = "/"%string /\
  Clean "abc/def/../../.." = ".."%string /\
  Clean "/abc/def/../../.." = "/"%string /\
  Clean "abc/def/../../../ghi/jkl/../../../mno" = "../../mno"%string /\
  Clean "abc/../../././../def" = "../../def"%string.
Proof. repeat split. Qed.

Example Dir_examples :
  Dir "/foo/bar/baz.js" = "/foo/bar"%string /\
  Dir "/foo/bar/baz" = "/foo/bar"%string /\
  Dir "/foo/bar/baz/" = "/foo/bar/baz"%string /\
  Dir "/dirty//path///" = "/dirty/path"%string /\
  Dir "dev.txt" = "."%string /\ Dir "../todo.txt" = ".."%string /\
  Dir ".." = "."%string /\ Dir "." = "."%string /\
  Dir "/" = "/"%string /\ Dir "" = "."%string.
Proof. repeat split. Qed.

Example Join_examples :
  Join ["a"; "b"; "c"]%string = "a/b/c"%string /\
  Join ["a"; "b/c"]%string = "a/b/c"%string /\
  Join ["a/b"; "c"]%string = "a/b/c"%string /\
  Join ["a/b"; "/c"]%string = "a/b/c"%string /\
  Join ["a/b"; "../../../xyz"]%string = "../xyz"%string /\
  Join [""; ""]%string = ""%string /\
  Join ["/"; ""]%string = "/"%string.
Proof. repeat split. Qed.

Lemma chan_eqb_refl (c : chan) : chan_eqb c c = true.
Proof. now destruct c. Qed.

(** ** Runs *)

Lemma exec_bind {W A B : Type} (h : Handler W) (p : Prog A) (f : A -> Prog B) (w : W) :
  exec h (bind p f) w = seq_run (exec h p w) (fun a w' => exec h (f a) w').
Proof.
  revert w; induction p as [a | | o k IH | X e k IH]; intros w; simpl.
  - unfold seq_run; simpl. now destruct (exec h (f a) w).
  - reflexivity.
  - rewrite IH. unfold seq_run, said; simpl.
    now destruct (outcome (exec h k w)).
  - destruct (h X e w) as [x w1]. rewrite IH. unfold seq_run, said; simpl.
    now destruct (outcome (exec h (k x) w1)).
Qed.

Lemma sent_on_app (c : chan) (t1 t2 : list Obs) :
  sent_on c (t1 ++ t2) = sent_on c t1 ++ sent_on c t2.
Proof.
  induction t1 as [| o t1 IH]; simpl; [reflexivity |].
  destruct o as [[] |]; simpl; auto.
  destruct (chan_eqb c c0); simpl; now rewrite IH.
Qed.

(** ** ConnectionLostHandler *)

Lemma ConnectionLostHandler_run {W : Type} (h : Handler W) (w : W)
    (sc : sftpClient) (err : error) :
  exec h (ConnectionLostHandler sc err) w =
  match err with
  | None => mkRun Panicked w []
  | Some msg =>
      if Contains msg "connection lost"
      then mkRun (Returned tt) w
             [ObsOut (slog_Info "Reconnecting...");
              ObsOut (chan_send (reconnect sc) true)]
      else mkRun (Returned tt) w []
  end.
Proof.
  destruct err as [msg |]; [| reflexivity].
  unfold ConnectionLostHandler, Error. cbn [bind].
  now destruct (Contains msg "connection lost").
Qed.

(** C1: for every error value handed to [ConnectionLostHandler], [true]
    is sent on the reconnect channel if and only if the error's message
    contains "connection lost"; for every other error nothing is sent on
    any channel (the run has no effect on the supervisor at all), and on
    every non-nil error the handler returns. *)
Theorem ConnectionLostHandler_forwards_iff_connection_lost :
  forall (W : Type) (h : Handler W) (w : W) (sc : sftpClient) (err : error),
    let r := exec h (ConnectionLostHandler sc err) w in
    (mentions err "connection lost" <-> sent_on (reconnect sc) (trace r) = [true]) /\
    (~ mentions err "connection lost" ->
       trace r = [] /\ forall c, sent_on c (trace r) = []) /\
    (forall msg, err = Some msg -> outcome r = Returned tt).
Proof.
  intros W h w sc err r. subst r. rewrite ConnectionLostHandler_run.
  destruct err as [msg |].
  - destruct (Contains msg "connection lost") eqn:Hc; simpl.
    + rewrite chan_eqb_refl. apply Contains_spec in Hc.
      destruct Hc as (pre & post & Hc).
      assert (Hm : mentions (Some msg) "connection lost")
        by now exists msg, pre, post.
      split; [tauto |]. split; [tauto | reflexivity].
    + assert (Hn : ~ mentions (Some msg) "connection lost").
      { intros (m & pre & post & Hm & Hs). inversion Hm; subst m.
        assert (Contains msg "connection lost" = true)
          by (apply Contains_spec; now exists pre, post).
        congruence. }
      split; [split; [tauto | discriminate] |].
      split; [intros _; split; reflexivity | reflexivity].
  - simpl.
    assert (Hn : ~ mentions None "connection lost")
      by (intros (m & pre & post & Hm & _); discriminate).
    split; [split; [tauto | discriminate] |].
    split; [intros _; split; reflexivity | discriminate].
Qed.

Lemma exec_call {W X : Type} (h : Handler W) (e : Event X) (w : W) :
  exec h (call e) w =
  mkRun (match fst (h X e w) with Some x => Returned x | None => Panicked end)
        (snd (h X e w)) [ObsCall e (fst (h X e w))].
Proof.
  unfold call; simpl. destruct (h X e w) as [[x |] w1]; reflexivity.
Qed.

Lemma exec_emit {W : Type} (h : Handler W) (o : Output) (w : W) :
  exec h (emit o) w = mkRun (Returned tt) w [ObsOut o].
Proof. reflexivity. Qed.

Lemma ConnectionLostHandler_world {W : Type} (h : Handler W) (w : W)
    (sc : sftpClient) (err : error) :
  world (exec h (ConnectionLostHandler sc err) w) = w.
Proof.
  rewrite ConnectionLostHandler_run.
  destruct err as [msg |]; [destruct (Contains msg _) |]; reflexivity.
Qed.

Lemma ConnectionLostHandler_outcome {W : Type} (h : Handler W) (w : W)
    (sc : sftpClient) (err : error) :
  outcome (exec h (ConnectionLostHandler sc err) w) =
  match err with Some _ => Returned tt | None => Panicked end.
Proof.
  rewrite ConnectionLostHandler_run.
  destruct err as [msg |]; [destruct (Contains msg _) |]; reflexivity.
Qed.

(** ** MoveFile and RemoveFile *)

Lemma report_outcome {W : Type} (h : Handler W) (w : W) (sc : sftpClient)
    (err : error) :
  outcome (exec h (report sc err) w) =
  match err with Some _ => Returned err | None => Panicked end.
Proof.
  unfold report. rewrite exec_bind. unfold seq_run.
  rewrite ConnectionLostHandler_outcome. now destruct err.
Qed.

Lemma MoveFile_outcome {W : Type} (h : Handler W) (w : W) (sc : sftpClient)
    (sourcePath destPath : string) :
  outcome (exec h (MoveFile sc sourcePath destPath) w) =
  match fst (h _ (Client_Rename (Client sc) sourcePath destPath) w) with
  | Some (Some msg) => Returned (Some msg)
  | Some None => Panicked
  | None => Panicked
  end.
Proof.
  unfold MoveFile. rewrite exec_bind, exec_call. unfold seq_run; simpl.
  destruct (fst (h _ (Client_Rename (Client sc) sourcePath destPath) w))
    as [err |]; [| reflexivity].
  simpl. fold (report sc err). rewrite report_outcome. now destruct err.
Qed.

Lemma RemoveFile_outcome {W : Type} (h : Handler W) (w : W) (sc : sftpClient)
    (dirPath : string) :
  outcome (exec h (RemoveFile sc dirPath) w) =
  match fst (h _ (Client_Remove (Client sc) dirPath) w) with
  | Some (Some msg) => Returned (Some msg)
  | Some None => Panicked
  | None => Panicked
  end.
Proof.
  unfold RemoveFile. rewrite exec_bind, exec_call. unfold seq_run; simpl.
  destruct (fst (h _ (Client_Remove (Client sc) dirPath) w))
    as [err |]; [| reflexivity].
  simpl. fold (report sc err). rewrite report_outcome. now destruct err.
Qed.

(** The sibling [OpenFile] only hands a non-nil error to the handler, and
    returns the open file when the library call succeeds. *)
Lemma OpenFile_success {W : Type} (h : Handler W) (w w1 : W) (sc : sftpClient)
    (remoteFile : string) (file : option sftp_File) :
  h _ (Client_Open (Client sc) remoteFile) w = (Some (file, None), w1) ->
  outcome (exec h (OpenFile sc remoteFile) w) = Returned (file, None).
Proof.
  intros H. unfold OpenFile. rewrite exec_bind, exec_call, H. reflexivity.
Qed.

(** C3: on a healthy server, where [Rename] and [Remove] succeed and
    return a nil error, [MoveFile] and [RemoveFile] do not return to
    their caller: both panic, in [ConnectionLostHandler] on the nil
    error; the rename and the removal themselves were carried out. *)
Theorem MoveFile_RemoveFile_panic_on_success :
  exec (serve healthy) (MoveFile connected "/in/a.csv" "/done/a.csv") tt =
    mkRun Panicked tt
      [ObsCall (Client_Rename (Some 1) "/in/a.csv" "/done/a.csv") (Some None)] /\
  exec (serve healthy) (RemoveFile connected "/in/a.csv") tt =
    mkRun Panicked tt [ObsCall (Client_Remove (Some 1) "/in/a.csv") (Some None)].
Proof. split; reflexivity. Qed.

(** ** The supervisor *)

Lemma supervisor_turn_run {W : Type} (h : Handler W) (w w1 : W)
    (conn : SftpConn) (ftpConn : sftpClient) (res : bool) :
  h _ (chan_recv (reconnect ftpConn)) w = (Some res, w1) ->
  exec h (supervisor_turn conn ftpConn) w =
  said (ObsCall (chan_recv (reconnect ftpConn)) (Some res))
    (if res then
       seq_run (exec h (Connect conn) w1)
         (fun '(newConn, e) w2 =>
            if is_nil e
            then mkRun (Returned (with_Client ftpConn newConn)) w2
                   [ObsOut (chan_send (ReconnectStatus ftpConn) true);
                    ObsOut (slog_Info "Reconnected")]
            else mkRun (Returned ftpConn) w2
                   [ObsOut (chan_send (ReconnectStatus ftpConn) false);
                    ObsOut (slog_Error "Reconnect failure" e)])
     else mkRun (Returned ftpConn) w1 []).
Proof.
  intros H. unfold supervisor_turn. rewrite exec_bind, exec_call, H.
  cbn [fst snd]. unfold seq_run at 1. cbn [outcome world trace app].
  destruct res; [| reflexivity].
  rewrite exec_bind. unfold said, seq_run.
  destruct (exec h (Connect conn) w1) as [[[newConn e] |] w2 t];
    [| reflexivity].
  now destruct e.
Qed.

Lemma supervisor_turn_ignores_false {W : Type} (h : Handler W) (w w1 : W)
    (conn : SftpConn) (ftpConn : sftpClient) :
  h _ (chan_recv (reconnect ftpConn)) w = (Some false, w1) ->
  exec h (supervisor_turn conn ftpConn) w =
  mkRun (Returned ftpConn) w1
    [ObsCall (chan_recv (reconnect ftpConn)) (Some false)].
Proof.
  intros H. now rewrite (supervisor_turn_run h w w1 conn ftpConn false H).
Qed.

Lemma supervisor_unfold (n : nat) (conn : SftpConn) (ftpConn : sftpClient) :
  supervisor (S n) conn ftpConn =
  (ftpConn' <- supervisor_turn conn ftpConn ;; supervisor n conn ftpConn').
Proof. reflexivity. Qed.

(** C2: a turn of the supervisor loop that receives a reconnect request
    and whose [Connect] returns [(newConn, e)]: when [e] is nil the
    shared struct holds [newConn] afterwards and [true] is published;
    otherwise the struct is the one before and [false] is published.
    Exactly one value is published, after [Connect], and it says whether
    [Connect] succeeded. *)
Theorem supervisor_turn_publishes_connect_result :
  forall (W : Type) (h : Handler W) (w w1 w2 : W) (conn : SftpConn)
         (ftpConn : sftpClient) (newConn : option sftp_Client) (e : error)
         (t : list Obs),
    h _ (chan_recv (reconnect ftpConn)) w = (Some true, w1) ->
    exec h (Connect conn) w1 = mkRun (Returned (newConn, e)) w2 t ->
    let r := exec h (supervisor_turn conn ftpConn) w in
    outcome r =
      Returned (if is_nil e then with_Client ftpConn newConn else ftpConn) /\
    trace r =
      ObsCall (chan_recv (reconnect ftpConn)) (Some true) :: t ++
      [ObsOut (chan_send (ReconnectStatus ftpConn) (is_nil e));
       ObsOut (if is_nil e then slog_Info "Reconnected"
               else slog_Error "Reconnect failure" e)] /\
    world r = w2.
Proof.
  intros W h w w1 w2 conn ftpConn newConn e t Hrecv Hconn r. subst r.
  rewrite (supervisor_turn_run h w w1 conn ftpConn true Hrecv), Hconn.
  unfold seq_run, said; simpl.
  destruct e as [msg |]; simpl; repeat split.
Qed.

(** A reconnect against a server that is gone: the struct keeps its
    session and [false] is published. *)
Lemma supervisor_turn_publishes_connect_result_witness :
  let conn := NewSftpConn quote_plain example_config in
  let r := exec (serve unreachable) (supervisor_turn conn connected) tt in
  outcome r = Returned connected /\
  sent_on ch_status (trace r) = [false].
Proof.
  intros conn r.
  destruct (supervisor_turn_publishes_connect_result
              unit (serve unreachable) tt tt tt conn connected
              None (Some "dial tcp: connection refused")
              (trace (exec (serve unreachable) (Connect conn) tt))
              eq_refl eq_refl) as (Ho & Ht & _).
  split; [exact Ho | fold r in Ht; rewrite Ht; reflexivity].
Defined.

(** A reconnect against a healthy server: the struct holds the new
    session and [true] is published. *)
Example supervisor_turn_reconnects :
  let conn := NewSftpConn quote_plain example_config in
  let stale := {| Client := Some 7; reconnect := ch_reconnect;
                  ReconnectStatus := ch_status |} in
  let r := exec (serve healthy) (supervisor_turn conn stale) tt in
  outcome r = Returned connected /\ sent_on ch_status (trace r) = [true].
Proof. split; reflexivity. Qed.

(** ** NewClient *)

Lemma sftpConn_Connect_run {W : Type} (Quote : string -> string) (h : Handler W)
    (w : W) (s : Config) :
  let config := {|
    User := Username s;
    Auth := [Password s];
    HostKeyCallback :=
      if negb (SSHTrustedKey s =? "")%string
      then trustedHostKeyCallback Quote (SSHTrustedKey s)
      else InsecureIgnoreHostKey;
    Timeout := 30 * 1000000000 |} in
  let addr := (Host s ++ ":" ++ NilZero.string_of_int (Z.to_int (Port s)))%string in
  let dial := ssh_Dial "tcp" addr config in
  exec h (sftpConn_Connect Quote s) w =
  said (ObsCall dial (fst (h _ dial w)))
    match fst (h _ dial w) with
    | None => mkRun Panicked (snd (h _ dial w)) []
    | Some (conn, Some msg) =>
        mkRun (Returned (None, Some msg)) (snd (h _ dial w))
          [ObsOut (slog_Error "Connect fail:" (Some msg))]
    | Some (conn, None) =>
        let w1 := snd (h _ dial w) in
        let new := sftp_NewClient conn in
        said (ObsCall new (fst (h _ new w1)))
          match fst (h _ new w1) with
          | None => mkRun Panicked (snd (h _ new w1)) []
          | Some (client, Some msg) =>
              mkRun (Returned (None, Some msg)) (snd (h _ new w1))
                [ObsOut (slog_Error "New client fail:" (Some msg))]
          | Some (client, None) =>
              mkRun (Returned (client, None)) (snd (h _ new w1)) []
          end
    end.
Proof.
  intros config addr dial. unfold sftpConn_Connect.
  fold config. fold addr. fold dial.
  rewrite exec_bind, exec_call. unfold seq_run, said. cbn [outcome world trace].
  destruct (fst (h _ dial w)) as [[conn [msg |]] |]; try reflexivity.
  cbn [app]. rewrite exec_bind, exec_call. unfold seq_run. cbn [outcome world trace].
  destruct (fst (h _ (sftp_NewClient conn) (snd (h _ dial w))))
    as [[client [msg |]] |]; reflexivity.
Qed.

(** When the factory reports an error it hands back no session. *)
Lemma sftpConn_Connect_error_nil {W : Type} (Quote : string -> string)
    (h : Handler W) (w : W) (s : Config) (client : option sftp_Client)
    (err : error) :
  outcome (exec h (sftpConn_Connect Quote s) w) = Returned (client, err) ->
  err <> None -> client = None.
Proof.
  rewrite sftpConn_Connect_run. cbv zeta. unfold said. cbn [outcome].
  destruct (fst (h _ _ w)) as [[conn [msg |]] |]; cbn [outcome].
  - intros H _. now inversion H.
  - destruct (fst (h _ (sftp_NewClient conn) _)) as [[cl [msg |]] |];
      cbn [outcome]; intros H Hne; inversion H; subst; congruence.
  - discriminate.
Qed.

Lemma NewClient_run {W : Type} (h : Handler W) (w : W) (conn : SftpConn) :
  exec h (NewClient conn) w =
  seq_run (exec h (Connect conn) w)
    (fun '(client, err) w1 =>
       let ftpConn := {| Client := client; reconnect := ch_reconnect;
                         ReconnectStatus := ch_status |} in
       mkRun (Returned (Some ftpConn, err)) w1
         [ObsOut (go (reconnect_supervisor ftpConn))]).
Proof.
  unfold NewClient. rewrite exec_bind. unfold seq_run.
  now destruct (outcome (exec h (Connect conn) w)) as [[client err] |].
Qed.

(** C10: whatever the first [Connect] of the session factory returns,
    [NewClient] returns a non-nil facade around the session it was given
    together with the error of [Connect], and has started the supervisor
    goroutine on that facade; when [Connect] failed, the session the
    facade holds is nil. *)
Theorem NewClient_returns_facade_and_error :
  forall (Quote : string -> string) (W : Type) (h : Handler W) (w w1 : W)
         (s : Config) (client : option sftp_Client) (err : error)
         (t : list Obs),
    exec h (Connect (NewSftpConn Quote s)) w =
      mkRun (Returned (client, err)) w1 t ->
    let r := exec h (NewClient (NewSftpConn Quote s)) w in
    let ftpConn := {| Client := client; reconnect := ch_reconnect;
                      ReconnectStatus := ch_status |} in
    outcome r = Returned (Some ftpConn, err) /\
    trace r = t ++ [ObsOut (go (reconnect_supervisor ftpConn))] /\
    (err <> None -> Client ftpConn = None).
Proof.
  intros Quote W h w w1 s client err t Hc r ftpConn. subst r.
  rewrite NewClient_run, Hc. unfold seq_run; cbn [outcome world trace].
  repeat split. intros Hne.
  apply (sftpConn_Connect_error_nil Quote h w s client err); [| exact Hne].
  change (sftpConn_Connect Quote s) with (Connect (NewSftpConn Quote s)).
  now rewrite Hc.
Qed.

(** [NewClient] against a server that refuses the connection. *)
Lemma NewClient_returns_facade_and_error_witness :
  let err := Some "dial tcp: connection refused"%string in
  let ftpConn := {| Client := None; reconnect := ch_reconnect;
                    ReconnectStatus := ch_status |} in
  let r := exec (serve unreachable)
             (NewClient (NewSftpConn quote_plain example_config)) tt in
  outcome r = Returned (Some ftpConn, err) /\
  In (ObsOut (go (reconnect_supervisor ftpConn))) (trace r).
Proof.
  intros err ftpConn r.
  destruct (NewClient_returns_facade_and_error
              quote_plain unit (serve unreachable) tt tt example_config
              None err
              (trace (exec (serve unreachable)
                        (Connect (NewSftpConn quote_plain example_config)) tt))
              eq_refl) as (Ho & Ht & _).
  split; [exact Ho |].
  fold r in Ht. rewrite Ht. apply in_or_app. right. now left.
Defined.


(** ** WalkFiles *)

Lemma collected_cons (w : Walker) (ws : list Walker) :
  collected (w :: ws) =
  (if negb (IsDir (Stat w)) then [Path w] else []) ++ collected ws.
Proof. reflexivity. Qed.

(** While the walker shows entries without error the loop goes on,
    keeping the paths of those that are not directories. *)
Lemma WalkFiles_loop_visits (sc : sftpClient) (w last : Walker)
    (ws : list Walker) :
  visits w ws last ->
  Forall (fun x => Err x = None) ws ->
  forall (k : nat) (files : list string),
    WalkFiles_loop (length ws + k) sc w files =
    WalkFiles_loop k sc last (files ++ collected ws).
Proof.
  induction 1 as [w | w w1 last ws Hstep Hvis IH]; intros Hok k files.
  - simpl. now rewrite app_nil_r.
  - inversion Hok as [| x xs Herr Hrest]; subst.
    cbn [length Nat.add WalkFiles_loop]. rewrite Hstep, Herr.
    rewrite IH by assumption. rewrite collected_cons.
    destruct (negb (IsDir (Stat w1))); cbn [app].
    + now rewrite <- app_assoc.
    + reflexivity.
Qed.

Lemma WalkFiles_loop_end (sc : sftpClient) (w : Walker) (k : nat)
    (files : list string) :
  fst (Step w) = false ->
  WalkFiles_loop (S k) sc w files = Ret (Some (files, None)).
Proof.
  intros H. cbn [WalkFiles_loop]. destruct (Step w) as [more w']. simpl in H.
  now subst more.
Qed.

Lemma WalkFiles_loop_error (sc : sftpClient) (w bad : Walker) (k : nat)
    (files : list string) (e : string) :
  Step w = (true, bad) -> Err bad = Some e ->
  WalkFiles_loop (S k) sc w files =
  (ConnectionLostHandler sc (Some e) ;; Ret (Some (files, Some e))).
Proof.
  intros Hs He. cbn [WalkFiles_loop]. now rewrite Hs, He.
Qed.

Lemma WalkFiles_run {W : Type} (h : Handler W) (w w1 : W) (sc : sftpClient)
    (remoteDir : string) (walker : Walker) (fuel : nat) :
  h _ (Client_Walk (Client sc) remoteDir) w = (Some walker, w1) ->
  exec h (WalkFiles fuel sc remoteDir) w =
  said (ObsCall (Client_Walk (Client sc) remoteDir) (Some walker))
       (exec h (WalkFiles_loop fuel sc walker []) w1).
Proof.
  intros H. unfold WalkFiles. rewrite exec_bind, exec_call, H.
  unfold seq_run, said. reflexivity.
Qed.


(** A walk that ends without error returns the paths of all entries
    shown that are not directories. *)
Lemma WalkFiles_without_error {W : Type} (h : Handler W) (w w1 : W)
    (sc : sftpClient) (remoteDir : string) (walker last : Walker)
    (ws : list Walker) (fuel : nat) :
  h _ (Client_Walk (Client sc) remoteDir) w = (Some walker, w1) ->
  visits walker ws last ->
  Forall (fun x => Err x = None) ws ->
  fst (Step last) = false ->
  length ws < fuel ->
  exec h (WalkFiles fuel sc remoteDir) w =
  mkRun (Returned (Some (collected ws, None))) w1
    [ObsCall (Client_Walk (Client sc) remoteDir) (Some walker)].
Proof.
  intros Hwalk Hvis Hok Hend Hfuel.
  rewrite (WalkFiles_run h w w1 sc remoteDir walker fuel Hwalk).
  replace fuel with (length ws + S (fuel - S (length ws))) by lia.
  rewrite (WalkFiles_loop_visits sc walker last ws Hvis Hok).
  now rewrite (WalkFiles_loop_end sc last _ _ Hend).
Qed.

(** ** The walk of a tree *)

Lemma RemoteNode_nested_ind (P : RemoteNode -> Prop) :
  (forall name, P (RemoteFile name)) ->
  (forall name entries, Forall P entries -> P (RemoteDir name entries)) ->
  forall n, P n.
Proof.
  intros Hfile Hdir. fix IH 1. intros [name | name entries].
  - apply Hfile.
  - apply Hdir. induction entries as [| e es IHes]; constructor.
    + apply IH.
    + exact IHes.
Qed.

Lemma walk_order_children (it : Item) :
  walk_order_of it = it :: flat_map walk_order_of (children it).
Proof.
  destruct it as [path n]. unfold walk_order_of, children; simpl.
  destruct n as [name | name entries]; simpl; [reflexivity |].
  f_equal. induction entries as [| c cs IH]; simpl; [reflexivity |].
  now rewrite IH.
Qed.

Lemma file_paths_app (a b : list Item) :
  file_paths (a ++ b) = file_paths a ++ file_paths b.
Proof. unfold file_paths. now rewrite filter_app, map_app. Qed.

Lemma tree_Step_pending (s : TreeWalk) (it : Item) (rest : list Item) :
  pending s = it :: rest ->
  Step (tree_walker_at s) =
  (true, tree_walker_at {| cur := Some it; stack := rest; descend := true |}).
Proof.
  intros H. unfold Step, tree_walker_at; simpl. unfold tree_Step. now rewrite H.
Qed.

Lemma tree_Step_finished (s : TreeWalk) :
  pending s = [] -> fst (Step (tree_walker_at s)) = false.
Proof.
  intros H. unfold Step, tree_walker_at; simpl. unfold tree_Step. now rewrite H.
Qed.

(** The walker shows what is pending, every entry before its children
    and these before the rest, and then stops. *)
Lemma tree_walker_visits (n : nat) :
  forall s : TreeWalk,
    length (flat_map walk_order_of (pending s)) = n ->
    exists (ws : list Walker) (last : Walker),
      visits (tree_walker_at s) ws last /\
      fst (Step last) = false /\
      Forall (fun x => Err x = None) ws /\
      collected ws = file_paths (flat_map walk_order_of (pending s)) /\
      length ws = n.
Proof.
  induction n as [| n IH]; intros s Hlen.
  - assert (Hp : pending s = []).
    { destruct (pending s) as [| it rest]; [reflexivity |].
      simpl in Hlen. rewrite walk_order_children in Hlen. discriminate. }
    exists [], (tree_walker_at s). rewrite Hp.
    repeat split; try constructor. now apply tree_Step_finished.
  - destruct (pending s) as [| it rest] eqn:Hp; [discriminate |].
    set (s' := {| cur := Some it; stack := rest; descend := true |}).
    assert (Hnext : flat_map walk_order_of (it :: rest) =
                    it :: flat_map walk_order_of (pending s')).
    { simpl. rewrite walk_order_children. unfold pending, s'; simpl.
      now rewrite flat_map_app. }
    rewrite Hnext in Hlen. simpl in Hlen. injection Hlen as Hlen.
    destruct (IH s' Hlen) as (ws & last & Hvis & Hend & Hok & Hcol & Hl).
    exists (tree_walker_at s' :: ws), last. repeat split.
    + apply visits_step; [now apply tree_Step_pending | exact Hvis].
    + exact Hend.
    + constructor; [reflexivity | exact Hok].
    + rewrite collected_cons, Hcol, Hnext. unfold file_paths at 2. simpl.
      now destruct (node_isDir (item_node it)).
    + simpl. now rewrite Hl.
Qed.

Lemma list_sum_cons (a : nat) (l : list nat) :
  list_sum (a :: l) = a + list_sum l.
Proof. reflexivity. Qed.

Lemma length_flat_map_sum {A B : Type} (keep : list B -> list string)
    (f : A -> list B) (g : A -> nat) (l : list A) :
  (forall a b, keep (a ++ b) = keep a ++ keep b) ->
  Forall (fun a => length (keep (f a)) = g a) l ->
  length (keep (flat_map f l)) = list_sum (map g l) + length (keep []).
Proof.
  intros Happ. induction 1 as [| a l Ha Hl IH]; simpl; [reflexivity |].
  rewrite Happ, length_app, Ha, IH. lia.
Qed.

Lemma count_files_walk_order (t : RemoteNode) :
  forall path, length (file_paths (walk_order path t)) = count_files t.
Proof.
  induction t as [name | name entries IH] using RemoteNode_nested_ind;
    intros path; [reflexivity |].
  cbn [walk_order count_files].
  change (file_paths ({| item_path := path; item_node := RemoteDir name entries |} ::
            flat_map (fun c => walk_order (Join [path; node_name c]) c) entries))
    with (file_paths
            (flat_map (fun c => walk_order (Join [path; node_name c]) c) entries)).
  rewrite (length_flat_map_sum file_paths _ count_files entries file_paths_app).
  - simpl. lia.
  - eapply Forall_impl; [| exact IH]. intros c Hc. apply Hc.
Qed.

Lemma count_all_walk_order (t : RemoteNode) :
  forall path, length (walk_order path t) = count_files t + count_dirs t.
Proof.
  induction t as [name | name entries IH] using RemoteNode_nested_ind;
    intros path; [reflexivity |].
  cbn [walk_order count_files count_dirs length].
  rewrite Nat.add_succ_r. f_equal.
  induction IH as [| c cs Hc Hcs IHcs]; [reflexivity |].
  cbn [flat_map map]. rewrite !list_sum_cons, length_app, Hc, IHcs. lia.
Qed.

(** C5: on a remote tree [t] with [N] files and [M] directories, with
    a walker that reports no error, [WalkFiles] ends as soon as its loop
    is given more than [N + M] turns, and returns, without error, the
    paths of the entries that are not directories, in the walker's
    order: [N] paths out of the [N + M] entries shown. *)
Theorem WalkFiles_returns_the_files_of_a_tree :
  forall (W : Type) (h : Handler W) (w w1 : W) (sc : sftpClient)
         (remoteDir : string) (t : RemoteNode) (N M fuel : nat),
    h _ (Client_Walk (Client sc) remoteDir) w =
      (Some (tree_walker remoteDir t), w1) ->
    count_files t = N ->
    count_dirs t = M ->
    N + M < fuel ->
    let r := exec h (WalkFiles fuel sc remoteDir) w in
    outcome r = Returned (Some (file_paths (walk_order remoteDir t), None)) /\
    length (file_paths (walk_order remoteDir t)) = N /\
    length (walk_order remoteDir t) = N + M /\
    trace r =
      [ObsCall (Client_Walk (Client sc) remoteDir)
               (Some (tree_walker remoteDir t))].
Proof.
  intros W h w w1 sc remoteDir t N M fuel Hwalk HN HM Hfuel r. subst r.
  set (s0 := {| cur := None;
                stack := [{| item_path := remoteDir; item_node := t |}];
                descend := false |}).
  assert (Hpend : flat_map walk_order_of (pending s0) = walk_order remoteDir t).
  { unfold pending, s0, walk_order_of; simpl. now rewrite app_nil_r. }
  assert (Hlen : length (flat_map walk_order_of (pending s0)) = N + M).
  { rewrite Hpend, count_all_walk_order. now subst. }
  destruct (tree_walker_visits (N + M) s0 Hlen)
    as (ws & last & Hvis & Hend & Hok & Hcol & Hl).
  rewrite Hpend in Hcol.
  assert (Hrun : exec h (WalkFiles fuel sc remoteDir) w =
                 mkRun (Returned (Some (file_paths (walk_order remoteDir t), None)))
                   w1 [ObsCall (Client_Walk (Client sc) remoteDir)
                         (Some (tree_walker remoteDir t))]).
  { rewrite <- Hcol.
    apply (WalkFiles_without_error h w w1 sc remoteDir _ last ws fuel Hwalk);
      try assumption. lia. }
  rewrite Hrun. cbn [outcome trace].
  split; [reflexivity |]. split; [| split; [| reflexivity]].
  - rewrite count_files_walk_order. exact HN.
  - rewrite count_all_walk_order. now subst.
Qed.

(** The walk example of section 8: [WalkFiles("/reports")] on a tree
    with [a.txt], [sub/] and [sub/b.txt]. *)
Lemma WalkFiles_returns_the_files_of_a_tree_witness :
  let server := {|
    on_Dial := on_Dial healthy; on_NewClient := on_NewClient healthy;
    on_Rename := None; on_Remove := None; on_Mkdir := fun _ => None;
    on_Create := on_Create healthy; on_Open := on_Open healthy;
    on_ReadDir := ([], None);
    on_Walk := tree_walker "/reports" reports;
    on_Copy := on_Copy healthy; on_osOpen := on_osOpen healthy;
    on_recv := true |} in
  outcome (exec (serve server) (WalkFiles 5 connected "/reports") tt) =
  Returned (Some (["/reports/a.txt"; "/reports/sub/b.txt"], None)).
Proof.
  intros server.
  exact (proj1 (WalkFiles_returns_the_files_of_a_tree
                  unit (serve server) tt tt connected "/reports" reports
                  2 2 5 eq_refl eq_refl eq_refl
                  ltac:(repeat constructor))).
Defined.


(** ** Uploads *)

Lemma exec_call_bind {W X A : Type} (h : Handler W) (e : Event X)
    (f : X -> Prog A) (w : W) :
  exec h (x <- call e ;; f x) w =
  said (ObsCall e (fst (h _ e w)))
    match fst (h _ e w) with
    | Some x => exec h (f x) (snd (h _ e w))
    | None => mkRun Panicked (snd (h _ e w)) []
    end.
Proof.
  unfold call. cbn [bind exec]. destruct (h X e w) as [[x |] w1]; reflexivity.
Qed.

Lemma exec_emit_bind {W A : Type} (h : Handler W) (o : Output) (p : Prog A)
    (w : W) :
  exec h (emit o ;; p) w = said (ObsOut o) (exec h p w).
Proof. reflexivity. Qed.

Lemma answered_app (t1 t2 : list Obs) :
  forallb answered (t1 ++ t2) = forallb answered t1 && forallb answered t2.
Proof. apply forallb_app. Qed.

Lemma mkdir_calls_app (t1 t2 : list Obs) :
  mkdir_calls (t1 ++ t2) = mkdir_calls t1 ++ mkdir_calls t2.
Proof.
  induction t1 as [| o t1 IH]; [reflexivity |].
  destruct o as [o | X e r]; cbn [app mkdir_calls]; [exact IH |].
  destruct e; cbn [app]; now rewrite IH.
Qed.

(** The loop over the segments: as long as [Mkdir] is answered, with an
    error or without, the next segment is tried. *)
Lemma mkdir_each_run {W : Type} (h : Handler W) (sc : sftpClient)
    (dirs : list string) :
  forall (path : string) (w : W),
    let r := exec h (mkdir_each sc path dirs) w in
    forallb answered (trace r) = true ->
    outcome r = Returned tt /\
    mkdir_calls (trace r) = joined path dirs /\
    length (trace r) = length dirs.
Proof.
  induction dirs as [| dir dirs IH]; intros path w r; subst r.
  - intros _. repeat split.
  - cbn [mkdir_each]. rewrite exec_call_bind.
    destruct (fst (h _ (Client_Mkdir (Client sc) (Join [path; dir])) w))
      as [e |]; unfold said; cbn [outcome trace forallb answered andb];
      [| discriminate].
    intros Hans. destruct (IH _ _ Hans) as (Ho & Hc & Hl).
    cbn [mkdir_calls joined length]. now rewrite Ho, Hc, Hl.
Qed.

Lemma PutString_unfold (sc : sftpClient) (text remoteFile : string) :
  PutString sc text remoteFile =
  (make_remote_directories sc remoteFile ;; PutString_write sc text remoteFile).
Proof. reflexivity. Qed.

(** How [PutString] ends once the remote file was asked for: whatever
    [Create] answered, the copy into the handle it gave is tried and the
    handle is closed. *)
Lemma PutString_write_run {W : Type} (h : Handler W) (w : W) (sc : sftpClient)
    (text remoteFile : string) :
  let create := Client_Create (Client sc) remoteFile in
  exec h (PutString_write sc text remoteFile) w =
  said (ObsCall create (fst (h _ create w)))
    match fst (h _ create w) with
    | None => mkRun Panicked (snd (h _ create w)) []
    | Some (dstFile, err) =>
        let w2 := snd (h _ create w) in
        let told :=
          match err with
          | Some _ =>
              ObsOut (slog_Error "Open a file on the remote:" err) ::
              trace (exec h (ConnectionLostHandler sc err) w2)
          | None => []
          end in
        let copy := io_Copy dstFile (StringReader text) in
        let c := fst (h _ copy w2) in
        let x := fst (h _ (File_Close dstFile) (snd (h _ copy w2))) in
        mkRun (match c, x with
               | Some _, Some _ => Returned None
               | _, _ => Panicked
               end)
              (snd (h _ (File_Close dstFile) (snd (h _ copy w2))))
              (told ++ ObsCall copy c :: copy_log c ++
               [ObsCall (File_Close dstFile) x])
    end.
Proof.
  intros create. unfold PutString_write. fold create. rewrite exec_call_bind.
  f_equal.
  destruct (fst (h _ create w)) as [[dstFile err] |]; [| reflexivity].
  cbv zeta. set (w2 := snd (h _ create w)).
  assert (Hend : forall w', exec h
            (defer (call (File_Close dstFile) ;; Ret tt)
               ('(_, err0) <- call (io_Copy dstFile (StringReader text)) ;;
                match err0 with
                | Some _ => emit (slog_Error "Copy a text to remote:" err0)
                | None => Ret tt
                end ;; Ret None)) w' =
          let copy := io_Copy dstFile (StringReader text) in
          let c := fst (h _ copy w') in
          let x := fst (h _ (File_Close dstFile) (snd (h _ copy w'))) in
          mkRun (match c, x with
                 | Some _, Some _ => Returned (None : error)
                 | _, _ => Panicked
                 end)
                (snd (h _ (File_Close dstFile) (snd (h _ copy w'))))
                (ObsCall copy c :: copy_log c ++ [ObsCall (File_Close dstFile) x])).
  { intros w'. unfold call, emit. cbn [bind defer exec].
    destruct (h _ (io_Copy dstFile (StringReader text)) w') as [[[n [e |]] |] w3];
      cbn [bind defer exec fst snd];
      destruct (h _ (File_Close dstFile) w3) as [[y |] w4]; reflexivity. }
  destruct err as [msg |].
  - rewrite exec_bind, exec_emit_bind. unfold seq_run, said.
    cbn [outcome world trace].
    rewrite ConnectionLostHandler_outcome, ConnectionLostHandler_world.
    rewrite Hend. cbv zeta. cbn [outcome world trace]. reflexivity.
  - cbn [bind]. rewrite Hend. reflexivity.
Qed.

Lemma make_remote_directories_run {W : Type} (h : Handler W) (w : W)
    (sc : sftpClient) (remoteFile : string) :
  let m := exec h (make_remote_directories sc remoteFile) w in
  forallb answered (trace m) = true ->
  outcome m = Returned tt /\
  mkdir_calls (trace m) = mkdir_paths remoteFile /\
  length (trace m) = length (Split (Dir remoteFile) Separator).
Proof. apply mkdir_each_run. Qed.

Lemma PutString_write_returns_nil {W : Type} (h : Handler W) (w : W)
    (sc : sftpClient) (text remoteFile : string) :
  let r := exec h (PutString_write sc text remoteFile) w in
  forallb answered (trace r) = true -> outcome r = Returned None.
Proof.
  intros r; subst r. rewrite PutString_write_run. cbv zeta.
  destruct (fst (h _ (Client_Create (Client sc) remoteFile) w))
    as [[dstFile err] |]; unfold said; cbn [outcome trace];
    [| discriminate].
  cbn [forallb answered andb]. rewrite answered_app.
  cbn [forallb]. rewrite answered_app. cbn [forallb].
  destruct (fst (h _ (io_Copy dstFile (StringReader text)) _)) as [c |];
    cbn [answered]; [| now rewrite andb_false_r].
  destruct (fst (h _ (File_Close dstFile) _)) as [x |];
    cbn [answered]; [reflexivity |].
  now rewrite !andb_false_r.
Qed.

(** No run of [PutString] returns an error: it returns nil or, when a
    library call panics, not at all. *)
Lemma PutString_never_returns_error {W : Type} (h : Handler W) (w : W)
    (sc : sftpClient) (text remoteFile : string) :
  let r := exec h (PutString sc text remoteFile) w in
  outcome r = Returned None \/ outcome r = Panicked.
Proof.
  intros r; subst r. rewrite PutString_unfold, exec_bind. unfold seq_run.
  destruct (outcome (exec h (make_remote_directories sc remoteFile) w))
    as [[] |]; cbn [outcome]; [| now right].
  rewrite PutString_write_run. cbv zeta. unfold said. cbn [outcome].
  destruct (fst (h _ (Client_Create (Client sc) remoteFile) _))
    as [[dstFile err] |]; cbn [outcome]; [| now right].
  destruct (fst (h _ (io_Copy dstFile (StringReader text)) _));
    [| now right].
  destruct (fst (h _ (File_Close dstFile) _)); [now left | now right].
Qed.

(** C6: whatever the text and the remote path, and whatever the copy
    into the remote file reports, a run of [PutString] in which every
    call into the libraries is answered returns nil. *)
Theorem PutString_returns_nil :
  forall (W : Type) (h : Handler W) (w : W) (sc : sftpClient)
         (text remoteFile : string),
    forallb answered (trace (exec h (PutString sc text remoteFile) w)) = true ->
    outcome (exec h (PutString sc text remoteFile) w) = Returned None.
Proof.
  intros W h w sc text remoteFile. rewrite PutString_unfold, exec_bind.
  unfold seq_run.
  destruct (outcome (exec h (make_remote_directories sc remoteFile) w))
    as [[] |] eqn:Hm; cbn [outcome trace].
  - rewrite answered_app. intros Hans.
    apply andb_prop in Hans. destruct Hans as [_ Hans].
    now apply PutString_write_returns_nil.
  - intros Hans.
    destruct (make_remote_directories_run h w sc remoteFile Hans) as (Ho & _).
    congruence.
Qed.

(** A copy that breaks off after three bytes: the error is logged and
    [PutString] returns nil. *)
Lemma PutString_returns_nil_witness :
  let r := exec (serve short_write) (PutString connected "hello" "/a/b/c.txt") tt in
  outcome r = Returned None /\
  trace r =
    [ObsCall (Client_Mkdir (Some 1) "/") (Some (Some "file exists"));
     ObsCall (Client_Mkdir (Some 1) "/a") (Some (Some "file exists"));
     ObsCall (Client_Mkdir (Some 1) "/a/b") (Some (Some "file exists"));
     ObsCall (Client_Create (Some 1) "/a/b/c.txt") (Some (Some 1, None));
     ObsCall (io_Copy (Some 1) (StringReader "hello"))
             (Some (3%Z, Some "short write"));
     ObsOut (slog_Error "Copy a text to remote:" (Some "short write"));
     ObsCall (File_Close (Some 1)) (Some None)].
Proof.
  intros r. split; [| reflexivity].
  exact (PutString_returns_nil unit (serve short_write) tt connected
           "hello" "/a/b/c.txt" eq_refl).
Defined.


(** ** Host keys *)

(** The test vectors of RFC 4648, section 10. *)
Example EncodeToString_rfc4648 :
  EncodeToString [] = ""%string /\
  EncodeToString [Byte.x66] = "Zg=="%string /\
  EncodeToString [Byte.x66; Byte.x6f] = "Zm8="%string /\
  EncodeToString [Byte.x66; Byte.x6f; Byte.x6f] = "Zm9v"%string /\
  EncodeToString [Byte.x66; Byte.x6f; Byte.x6f; Byte.x62] = "Zm9vYg=="%string /\
  EncodeToString [Byte.x66; Byte.x6f; Byte.x6f; Byte.x62; Byte.x61]
    = "Zm9vYmE="%string /\
  EncodeToString [Byte.x66; Byte.x6f; Byte.x6f; Byte.x62; Byte.x61; Byte.x72]
    = "Zm9vYmFy"%string.
Proof. repeat split. Qed.

Lemma trustedHostKeyCallback_accepts_iff_fingerprint_aux
    (Quote : string -> string) (trustedKey : string) (k : PublicKey) :
  trustedKey <> ""%string ->
  (snd (trustedHostKeyCallback Quote trustedKey k) = None <->
   trustedKey = keyString k) /\
  (trustedKey <> keyString k ->
   snd (trustedHostKeyCallback Quote trustedKey k) =
   Some ("SSH-key verification: expected " ++ Quote trustedKey
           ++ " but got " ++ Quote (keyString k))%string).
Proof.
  intros Hne. unfold trustedHostKeyCallback.
  destruct (String.eqb_spec trustedKey "") as [He | _]; [congruence |].
  destruct (String.eqb_spec trustedKey (keyString k)) as [Heq | Hdiff];
    cbn [negb snd].
  - split; [tauto | congruence].
  - split; [split; [discriminate | congruence] | reflexivity].
Qed.

(** C8: the verifier built from the empty string accepts every key.
    The verifier built from a non-empty string accepts a key exactly
    when the string is the key's fingerprint, its type, a space and the
    base64 of its marshalled form; for any other key it returns an error
    that names the string expected and the fingerprint it got. *)
Theorem trustedHostKeyCallback_accepts_iff_fingerprint :
  forall (Quote : string -> string) (trustedKey : string) (k : PublicKey),
    let verdict := snd (trustedHostKeyCallback Quote trustedKey k) in
    keyString k = (Type_ k ++ " " ++ EncodeToString (Marshal k))%string /\
    (trustedKey = ""%string -> verdict = None) /\
    (trustedKey <> ""%string ->
       (verdict = None <-> trustedKey = keyString k) /\
       (trustedKey <> keyString k ->
          verdict = Some ("SSH-key verification: expected " ++ Quote trustedKey
                            ++ " but got " ++ Quote (keyString k))%string)).
Proof.
  intros Quote trustedKey k verdict. subst verdict.
  split; [reflexivity |]. split.
  - intros ->. reflexivity.
  - apply trustedHostKeyCallback_accepts_iff_fingerprint_aux.
Qed.

(** The callback the session factory installs: without a trusted key
    every host key passes, with one only the key with that fingerprint. *)
Lemma sftpConn_host_key_policy (Quote : string -> string) (s : Config)
    (k : PublicKey) :
  let callback :=
    if negb (SSHTrustedKey s =? "")%string
    then trustedHostKeyCallback Quote (SSHTrustedKey s)
    else InsecureIgnoreHostKey in
  snd (callback k) = None <->
  SSHTrustedKey s = ""%string \/ SSHTrustedKey s = keyString k.
Proof.
  cbv zeta. destruct (String.eqb_spec (SSHTrustedKey s) "") as [He | Hne];
    cbn [negb].
  - split; [now left | reflexivity].
  - destruct (trustedHostKeyCallback_accepts_iff_fingerprint_aux Quote
                (SSHTrustedKey s) k Hne) as [H _].
    rewrite H. tauto.
Qed.

Lemma exec_defer {W A : Type} (h : Handler W) (d : Prog unit) (body : Prog A)
    (w : W) :
  exec h (defer d body) w =
  let r := exec h body w in
  let rd := exec h d (world r) in
  mkRun (match outcome rd with
         | Returned _ => outcome r
         | Panicked => Panicked
         end)
        (world rd) (trace r ++ trace rd).
Proof.
  revert w; induction body as [a | | o k IH | X e k IH]; intros w;
    cbn [defer exec].
  - rewrite exec_bind. unfold seq_run. cbn [outcome world trace app].
    destruct (outcome (exec h d w)); [now rewrite app_nil_r | reflexivity].
  - rewrite exec_bind. unfold seq_run. cbn [outcome world trace app].
    destruct (outcome (exec h d w)); [now rewrite app_nil_r | reflexivity].
  - rewrite IH. reflexivity.
  - destruct (h X e w) as [x w1]. rewrite IH. reflexivity.
Qed.

Lemma no_Mkdir_exec {W A : Type} (h : Handler W) (p : Prog A) :
  no_Mkdir p -> forall w, mkdir_calls (trace (exec h p w)) = [].
Proof.
  induction p as [a | | o k IH | X e k IH]; cbn [no_Mkdir exec];
    intros Hq w; try reflexivity.
  - cbn [said trace mkdir_calls]. now apply IH.
  - destruct Hq as [He Hk]. destruct (h X e w) as [x w1].
    cbn [said trace mkdir_calls].
    destruct e; try (now apply IH). contradiction.
Qed.

Lemma no_Mkdir_bind {A B : Type} (p : Prog A) (f : A -> Prog B) :
  no_Mkdir p -> (forall a, no_Mkdir (f a)) -> no_Mkdir (bind p f).
Proof.
  induction p as [a | | o k IH | X e k IH]; cbn [no_Mkdir bind];
    intros Hp Hf; auto.
  destruct Hp as [He Hk]. split; [exact He |]. intros r. now apply IH.
Qed.

Lemma no_Mkdir_defer {A : Type} (d : Prog unit) (body : Prog A) :
  no_Mkdir d -> no_Mkdir body -> no_Mkdir (defer d body).
Proof.
  intros Hd. induction body as [a | | o k IH | X e k IH];
    cbn [no_Mkdir defer]; intros Hb.
  - now apply no_Mkdir_bind.
  - now apply no_Mkdir_bind.
  - now apply IH.
  - destruct Hb as [He Hk]. split; [exact He |]. intros r. now apply IH.
Qed.

Lemma no_Mkdir_call {X : Type} (e : Event X) :
  match e with Client_Mkdir _ _ => False | _ => True end ->
  no_Mkdir (call e).
Proof.
  intros He. split; [exact He |]. now intros [x |].
Qed.

Lemma no_Mkdir_ConnectionLostHandler (sc : sftpClient) (err : error) :
  no_Mkdir (ConnectionLostHandler sc err).
Proof.
  destruct err as [msg |]; [| exact I].
  unfold ConnectionLostHandler, Error. cbn [bind].
  now destruct (Contains msg "connection lost").
Qed.

Lemma no_Mkdir_PutString_write (sc : sftpClient) (text remoteFile : string) :
  no_Mkdir (PutString_write sc text remoteFile).
Proof.
  unfold PutString_write.
  apply no_Mkdir_bind; [now apply no_Mkdir_call |]. intros [dstFile err].
  apply no_Mkdir_bind.
  - destruct err; [| exact I].
    apply no_Mkdir_bind; [exact I |]. intros _.
    apply no_Mkdir_ConnectionLostHandler.
  - intros _. apply no_Mkdir_defer.
    + apply no_Mkdir_bind; [now apply no_Mkdir_call | now intros].
    + apply no_Mkdir_bind; [now apply no_Mkdir_call |]. intros [n e].
      apply no_Mkdir_bind; [now destruct e | now intros].
Qed.

Lemma no_Mkdir_PutFile_write (sc : sftpClient) (srcFile : option os_File)
    (remoteFile : string) :
  no_Mkdir (PutFile_write sc srcFile remoteFile).
Proof.
  unfold PutFile_write.
  apply no_Mkdir_bind; [now apply no_Mkdir_call |]. intros [dstFile err].
  destruct err as [msg |].
  - apply no_Mkdir_bind; [exact I |]. intros _.
    apply no_Mkdir_bind; [apply no_Mkdir_ConnectionLostHandler | now intros].
  - apply no_Mkdir_defer.
    + apply no_Mkdir_bind; [now apply no_Mkdir_call | now intros].
    + apply no_Mkdir_bind; [now apply no_Mkdir_call |]. now intros [n e].
Qed.

(** [PutFile] once the local file is open. *)
Lemma PutFile_run {W : Type} (h : Handler W) (w w1 : W) (sc : sftpClient)
    (localFile remoteFile : string) (srcFile : option os_File) :
  h _ (os_Open localFile) w = (Some (srcFile, None), w1) ->
  exec h (PutFile sc localFile remoteFile) w =
  said (ObsCall (os_Open localFile) (Some (srcFile, None)))
    (exec h
       (defer (call (os_File_Close srcFile) ;; Ret tt)
          (make_remote_directories sc remoteFile ;;
           PutFile_write sc srcFile remoteFile)) w1).
Proof.
  intros H. unfold PutFile. rewrite exec_call_bind, H. reflexivity.
Qed.

(** Both uploads call [Mkdir] in their directory block only. *)
Lemma PutString_mkdir_calls {W : Type} (h : Handler W) (w : W)
    (sc : sftpClient) (text remoteFile : string) :
  mkdir_calls (trace (exec h (PutString sc text remoteFile) w)) =
  mkdir_calls (trace (exec h (make_remote_directories sc remoteFile) w)).
Proof.
  rewrite PutString_unfold, exec_bind. unfold seq_run.
  destruct (outcome (exec h (make_remote_directories sc remoteFile) w));
    cbn [trace]; [| reflexivity].
  rewrite mkdir_calls_app.
  rewrite (no_Mkdir_exec h (PutString_write sc text remoteFile))
    by apply no_Mkdir_PutString_write.
  apply app_nil_r.
Qed.

Lemma PutFile_mkdir_calls {W : Type} (h : Handler W) (w w1 : W)
    (sc : sftpClient) (localFile remoteFile : string)
    (srcFile : option os_File) :
  h _ (os_Open localFile) w = (Some (srcFile, None), w1) ->
  mkdir_calls (trace (exec h (PutFile sc localFile remoteFile) w)) =
  mkdir_calls (trace (exec h (make_remote_directories sc remoteFile) w1)).
Proof.
  intros H. rewrite (PutFile_run h w w1 sc localFile remoteFile srcFile H).
  unfold said. cbn [trace mkdir_calls]. rewrite exec_defer. cbv zeta.
  cbn [trace]. rewrite mkdir_calls_app.
  rewrite (no_Mkdir_exec h (call (os_File_Close srcFile) ;; Ret tt))
    by (apply no_Mkdir_bind; [now apply no_Mkdir_call | now intros]).
  rewrite app_nil_r, exec_bind. unfold seq_run.
  destruct (outcome (exec h (make_remote_directories sc remoteFile) w1));
    cbn [trace]; [| reflexivity].
  rewrite mkdir_calls_app.
  rewrite (no_Mkdir_exec h (PutFile_write sc srcFile remoteFile))
    by apply no_Mkdir_PutFile_write.
  apply app_nil_r.
Qed.

(** ** Paths *)

Lemma Split_not_nil (s : string) (sep : ascii) : Split s sep <> [].
Proof.
  destruct s as [| c s]; cbn [Split]; [discriminate |].
  destruct (Ascii.eqb c sep); [discriminate |].
  destruct (Split s sep); discriminate.
Qed.

Lemma Split_separator (s : string) (sep : ascii) :
  Split (String sep s) sep = EmptyString :: Split s sep.
Proof. cbn [Split]. now rewrite Ascii.eqb_refl. Qed.

Lemma Split_app (a b : string) (sep : ascii) :
  Split (a ++ String sep b) sep = Split a sep ++ Split b sep.
Proof.
  induction a as [| c a IH].
  - apply Split_separator.
  - change (String c a ++ String sep b)%string
      with (String c (a ++ String sep b)).
    cbn [Split]. rewrite IH.
    destruct (Ascii.eqb c sep); [reflexivity |].
    destruct (Split a sep) as [| x xs] eqn:Ha; [| reflexivity].
    now destruct (Split_not_nil a sep).
Qed.

Lemma concat_cons (sep e e' : string) (rest : list string) :
  String.concat sep (e :: e' :: rest) =
  (e ++ sep ++ String.concat sep (e' :: rest))%string.
Proof. reflexivity. Qed.

Lemma Split_concat (elems : list string) :
  elems <> [] ->
  Forall (fun e => Split e Separator = [e]) elems ->
  Split (String.concat "/" elems) Separator = elems.
Proof.
  intros Hne Hfree. induction Hfree as [| e rest He Hrest IH]; [congruence |].
  destruct rest as [| e' rest]; [exact He |].
  rewrite concat_cons.
  change ("/" ++ String.concat "/" (e' :: rest))%string
    with (String Separator (String.concat "/" (e' :: rest))).
  rewrite Split_app, He, IH by discriminate. reflexivity.
Qed.

Lemma clean_elems_plain (rooted : bool) (e : string) (rest out : list string) :
  plain e ->
  clean_elems rooted (e :: rest) out = clean_elems rooted rest (e :: out).
Proof.
  intros (He & Hdot & Hdots & _). cbn [clean_elems].
  apply String.eqb_neq in He, Hdot, Hdots. now rewrite He, Hdot, Hdots.
Qed.

Lemma clean_elems_plain_app (rooted : bool) (segs rest : list string) :
  Forall plain segs ->
  forall out,
    clean_elems rooted (segs ++ rest) out =
    clean_elems rooted rest (rev segs ++ out).
Proof.
  induction 1 as [| e segs He Hsegs IH]; intros out; [reflexivity |].
  cbn [app rev]. rewrite clean_elems_plain, IH by assumption.
  now rewrite <- app_assoc.
Qed.

(** What [Clean] keeps of a rooted path whose elements are plain, apart
    from one empty element in front or at the end. *)
Lemma clean_elems_rooted (lead segs trail : list string) :
  Forall plain segs ->
  Forall (fun e => e = EmptyString) lead ->
  Forall (fun e => e = EmptyString) trail ->
  clean_elems true (lead ++ segs ++ trail) [] = segs.
Proof.
  intros Hsegs Hlead Htrail.
  assert (Hempty : forall l out, Forall (fun e => e = EmptyString) l ->
            forall rest, clean_elems true (l ++ rest) out =
                         clean_elems true rest out).
  { intros l out Hl. induction Hl as [| e l -> Hl IH]; intros rest;
      [reflexivity | apply IH]. }
  rewrite Hempty by assumption.
  rewrite clean_elems_plain_app by assumption.
  rewrite <- (app_nil_r trail), Hempty by assumption.
  cbn [clean_elems]. now rewrite app_nil_r, rev_involutive.
Qed.

Lemma Split_plain (segs : list string) :
  Forall plain segs -> Forall (fun e => Split e Separator = [e]) segs.
Proof.
  intros H. eapply Forall_impl; [| exact H]. now intros e (_ & _ & _ & He).
Qed.

(** The elements of an absolute path of plain elements: an empty one
    for the root, then the elements, or a second empty one when there
    are none. *)
Lemma Split_absolute (segs : list string) :
  Forall plain segs ->
  Split (absolute segs) Separator =
  EmptyString :: match segs with [] => [EmptyString] | _ => segs end.
Proof.
  intros H. unfold absolute. rewrite Split_separator. f_equal.
  destruct segs as [| e segs]; [reflexivity |].
  apply Split_concat; [discriminate | now apply Split_plain].
Qed.

Lemma Clean_rooted (rest : string) :
  Clean (String Separator rest) =
  String Separator
    (String.concat "/"
       (clean_elems true (Split (String Separator rest) Separator) [])).
Proof. unfold Clean. now rewrite Ascii.eqb_refl. Qed.

Lemma Clean_absolute_more (segs : list string) (e : string) :
  Forall plain segs ->
  (e = EmptyString \/ plain e) ->
  Clean (absolute segs ++ String Separator e) =
  absolute (segs ++ if (e =? "")%string then [] else [e]).
Proof.
  intros Hsegs He. unfold absolute at 1.
  change (String Separator (String.concat "/" segs) ++ String Separator e)%string
    with (String Separator (String.concat "/" segs ++ String Separator e)).
  rewrite Clean_rooted. unfold absolute. do 2 f_equal.
  change (String Separator (String.concat "/" segs ++ String Separator e))
    with (absolute segs ++ String Separator e)%string.
  rewrite Split_app, Split_absolute by assumption.
  destruct He as [-> | He].
  - cbn [String.eqb Split]. rewrite app_nil_r.
    destruct segs as [| s segs].
    + reflexivity.
    + apply (clean_elems_rooted [EmptyString] (s :: segs) [EmptyString]);
        auto.
  - assert (Hne : (e =? "")%string = false)
      by (apply String.eqb_neq; apply He).
    rewrite Hne. destruct He as (H1 & H2 & H3 & Hfree). rewrite Hfree.
    assert (Hp : plain e) by (repeat split; assumption).
    destruct segs as [| s segs].
    + apply (clean_elems_rooted [EmptyString; EmptyString] [e] []); auto.
    + replace ((EmptyString :: s :: segs) ++ [e])
        with ([EmptyString] ++ ((s :: segs) ++ [e]) ++ [])
        by (now rewrite app_nil_r).
      apply (clean_elems_rooted [EmptyString] ((s :: segs) ++ [e]) []); auto.
      apply Forall_app. split; [assumption | auto].
Qed.

Lemma upto_last_separator_free (f : string) :
  Split f Separator = [f] -> upto_last_separator f = EmptyString.
Proof.
  induction f as [| c f IH]; [reflexivity |].
  cbn [Split upto_last_separator].
  destruct (Ascii.eqb c Separator); [discriminate |].
  destruct (Split f Separator) as [| x xs] eqn:Hf;
    [now destruct (Split_not_nil f Separator) |].
  intros H. injection H as Hx Hxs. subst x xs.
  now rewrite IH.
Qed.

Lemma upto_last_separator_app (a f : string) :
  Split f Separator = [f] ->
  upto_last_separator (a ++ String Separator f) =
  (a ++ String Separator EmptyString)%string.
Proof.
  intros Hf. induction a as [| c a IH].
  - cbn [append upto_last_separator].
    now rewrite (upto_last_separator_free f Hf), Ascii.eqb_refl.
  - change (String c a ++ String Separator f)%string
      with (String c (a ++ String Separator f)).
    change (String c a ++ String Separator "")%string
      with (String c (a ++ String Separator "")).
    cbn [upto_last_separator]. rewrite IH.
    destruct (a ++ String Separator "")%string eqn:Ha.
    + now destruct a.
    + simpl. now rewrite orb_true_r.
Qed.

Lemma Dir_absolute (segs : list string) (f : string) :
  Forall plain segs ->
  Split f Separator = [f] ->
  Dir (absolute segs ++ String Separator f) = absolute segs.
Proof.
  intros Hsegs Hf. unfold Dir. rewrite upto_last_separator_app by assumption.
  rewrite Clean_absolute_more by auto. cbn [String.eqb].
  now rewrite app_nil_r.
Qed.

Lemma Join_absolute (above : list string) (e : string) :
  Forall plain above ->
  (e = EmptyString \/ plain e) ->
  Join [absolute above; e] =
  absolute (above ++ if (e =? "")%string then [] else [e]).
Proof.
  intros Ha He. unfold absolute at 1. cbn [Join String.eqb].
  now apply Clean_absolute_more.
Qed.

Lemma joined_absolute (segs : list string) :
  Forall plain segs ->
  forall above, Forall plain above ->
    joined (absolute above) segs = ancestors above segs.
Proof.
  induction 1 as [| e segs He Hsegs IH]; intros above Habove; [reflexivity |].
  cbn [joined ancestors].
  assert (Hne : (e =? "")%string = false)
    by (apply String.eqb_neq; apply He).
  rewrite Join_absolute by auto. rewrite Hne. f_equal.
  apply IH. apply Forall_app. split; [assumption | auto].
Qed.

(** For an absolute remote file [/s1/.../sN/f] the directories tried are
    the root and then [/s1], [/s1/s2], ..., [/s1/.../sN]; the root is
    tried twice when the file lies directly in it. *)
Lemma mkdir_paths_absolute (segs : list string) (f : string) :
  Forall plain segs ->
  Split f Separator = [f] ->
  mkdir_paths (absolute segs ++ String Separator f) =
  absolute [] ::
  match segs with
  | [] => [absolute []]
  | _ => ancestors [] segs
  end.
Proof.
  intros Hsegs Hf. unfold mkdir_paths.
  rewrite Dir_absolute, Split_absolute by assumption.
  change (String Separator "") with (absolute []).
  cbn [joined].
  rewrite (Join_absolute [] EmptyString) by auto.
  cbn [String.eqb app]. f_equal.
  destruct segs as [| s segs].
  - cbn [joined]. rewrite (Join_absolute [] EmptyString) by auto. reflexivity.
  - now apply joined_absolute.
Qed.

(** ** The directories of an upload *)

Lemma joined_length (dirs : list string) :
  forall path, length (joined path dirs) = length dirs.
Proof.
  induction dirs as [| d dirs IH]; intros path; [reflexivity |].
  cbn [joined length]. now rewrite IH.
Qed.

(** C7, as stated, fails for a relative remote file: for [a/c.txt] the
    one directory [PutString] and [PutFile] try to create is [/a], which
    is not a prefix of the remote path. *)
Lemma Mkdir_not_on_prefix_of_relative_path :
  ~ (Forall (fun p => prefix p "a/c.txt" = true)
       (mkdir_calls
          (trace (exec (serve healthy)
                    (PutString connected "hello" "a/c.txt") tt))) /\
     Forall (fun p => prefix p "a/c.txt" = true)
       (mkdir_calls
          (trace (exec (serve healthy)
                    (PutFile connected "local.txt" "a/c.txt") tt)))).
Proof.
  intros [H _]. inversion H as [| p l Hp Hl]. discriminate Hp.
Qed.


(** The same directories are tried for the relative [a/b/c.txt] as for
    [/a/b/c.txt], and only the root for a file without directory. *)
Example mkdir_paths_examples :
  mkdir_paths "/a/b/c.txt" = ["/"; "/a"; "/a/b"]%string /\
  mkdir_paths "a/b/c.txt" = ["/a"; "/a/b"]%string /\
  mkdir_paths "c.txt" = ["/"]%string /\
  mkdir_paths "/c.txt" = ["/"; "/"]%string /\
  mkdir_paths "../x/c.txt" = ["/"; "/x"]%string.
Proof. repeat split. Qed.

(** * More of the package *)

Lemma signal_sent {W : Type} (h : Handler W) (w : W) (sc : sftpClient)
    (err : error) :
  sent_on (reconnect sc) (trace (exec h (ConnectionLostHandler sc err) w)) =
  signal err.
Proof.
  rewrite ConnectionLostHandler_run. unfold signal.
  destruct err as [msg |]; [| reflexivity].
  destruct (Contains msg "connection lost"); cbn [trace sent_on];
    [now rewrite chan_eqb_refl | reflexivity].
Qed.

(** ** GetRecords *)

Lemma GetRecords_read_run {W : Type} (h : Handler W) (w : W)
    (remoteFile : string)
    (reader : Prog (list (list string) * error)) :
  exec h
    ('(contents, err) <- reader ;;
     match err with
     | Some msg =>
         emit (slog_Error ("Error reading file " ++ remoteFile ++ ": " ++ msg)%string
                 None) ;;
         Ret ([], err)
     | None => Ret (contents, None)
     end) w =
  mkRun (records_of (exec h reader w)) (world (exec h reader w))
    (trace (exec h reader w) ++ reading_log remoteFile (exec h reader w)).
Proof.
  rewrite exec_bind. unfold seq_run, records_of, reading_log.
  destruct (outcome (exec h reader w)) as [[contents [msg |]] |];
    cbn [exec bind emit said outcome world trace];
    try reflexivity.
  all: now rewrite app_nil_r.
Qed.

Lemma OpenFile_run {W : Type} (h : Handler W) (w w1 : W) (sc : sftpClient)
    (remoteFile : string) (file : option sftp_File) (err : error) :
  h _ (Client_Open (Client sc) remoteFile) w = (Some (file, err), w1) ->
  exec h (OpenFile sc remoteFile) w =
  said (ObsCall (Client_Open (Client sc) remoteFile) (Some (file, err)))
    match err with
    | Some msg =>
        mkRun (Returned (None, err)) w1
          (ObsOut (slog_Error ("Error opening file " ++ remoteFile ++ ": " ++ msg)%string
                     None) ::
           trace (exec h (ConnectionLostHandler sc err) w1))
    | None => mkRun (Returned (file, None)) w1 []
    end.
Proof.
  intros H. unfold OpenFile. rewrite exec_call_bind, H. cbn [fst snd].
  destruct err as [msg |]; [| reflexivity].
  rewrite exec_emit_bind, exec_bind. unfold seq_run, said.
  rewrite ConnectionLostHandler_outcome, ConnectionLostHandler_world.
  cbn [outcome world trace exec]. now rewrite app_nil_r.
Qed.

(** X5: once [Open] succeeded, [GetRecords] runs the reader on the
    open file and closes the file exactly once, after the reader, also
    when the reader fails or panics.  A reader error is logged and comes
    back with an empty list of records instead of what the reader
    returned; the error of the close is dropped. *)
Theorem GetRecords_closes_the_file_after_reading :
  forall (W : Type) (h : Handler W) (w w1 : W) (sc : sftpClient)
         (remoteFile : string)
         (onReader : option sftp_File -> Prog (list (list string) * error))
         (file : option sftp_File),
    h _ (Client_Open (Client sc) remoteFile) w = (Some (file, None), w1) ->
    let rd := exec h (onReader file) w1 in
    let x := fst (h _ (File_Close file) (world rd)) in
    let r := exec h (GetRecords sc remoteFile onReader) w in
    trace r =
      ObsCall (Client_Open (Client sc) remoteFile) (Some (file, None)) ::
      trace rd ++ reading_log remoteFile rd ++ [ObsCall (File_Close file) x] /\
    outcome r = match x with
                | Some _ => records_of rd
                | None => Panicked
                end.
Proof.
  intros W h w w1 sc remoteFile onReader file H rd x r. subst r.
  unfold GetRecords. rewrite exec_bind.
  rewrite (OpenFile_run h w w1 sc remoteFile file None H).
  unfold seq_run, said. cbn [outcome world trace app].
  rewrite exec_defer. cbv zeta. rewrite GetRecords_read_run.
  fold rd. cbn [outcome world trace].
  rewrite exec_bind, exec_call. unfold seq_run. cbn [outcome world trace].
  fold x. rewrite <- app_assoc.
  destruct x as [e |]; cbn [exec outcome trace app]; split; reflexivity.
Qed.

(** Reading the rows of a file that opens: the file is closed after the
    reader and the rows come back. *)
Lemma GetRecords_closes_the_file_after_reading_witness :
  let r := exec (serve healthy) (GetRecords connected "/in/a.csv" read_rows) tt in
  trace r =
    [ObsCall (Client_Open (Some 1) "/in/a.csv") (Some (Some 1, None));
     ObsCall (File_Close (Some 1)) (Some None)] /\
  outcome r = Returned ([["id"; "name"]; ["1"; "ann"]]%string, None).
Proof.
  intros r.
  destruct (GetRecords_closes_the_file_after_reading unit (serve healthy) tt tt
              connected "/in/a.csv" read_rows (Some 1) eq_refl) as (Ht & Ho).
  split; [exact Ht | exact Ho].
Defined.


(** ** PutFile *)

Lemma PutFile_write_run {W : Type} (h : Handler W) (w : W) (sc : sftpClient)
    (srcFile : option os_File) (remoteFile : string) :
  let create := Client_Create (Client sc) remoteFile in
  exec h (PutFile_write sc srcFile remoteFile) w =
  said (ObsCall create (fst (h _ create w)))
    match fst (h _ create w) with
    | None => mkRun Panicked (snd (h _ create w)) []
    | Some (dstFile, Some msg) =>
        let w2 := snd (h _ create w) in
        mkRun (Returned (Some msg)) w2
          (ObsOut (slog_Error "Create remote file" (Some msg)) ::
           trace (exec h (ConnectionLostHandler sc (Some msg)) w2))
    | Some (dstFile, None) =>
        let w2 := snd (h _ create w) in
        let copy := io_Copy dstFile (FileReader srcFile) in
        let c := fst (h _ copy w2) in
        let x := fst (h _ (File_Close dstFile) (snd (h _ copy w2))) in
        mkRun (match c, x with
               | Some (_, err), Some _ => Returned err
               | _, _ => Panicked
               end)
              (snd (h _ (File_Close dstFile) (snd (h _ copy w2))))
              [ObsCall copy c; ObsCall (File_Close dstFile) x]
    end.
Proof.
  intros create. unfold PutFile_write. fold create. rewrite exec_call_bind.
  f_equal.
  destruct (fst (h _ create w)) as [[dstFile [msg |]] |]; [| | reflexivity].
  - rewrite exec_emit_bind, exec_bind. unfold seq_run, said.
    rewrite ConnectionLostHandler_outcome, ConnectionLostHandler_world.
    cbn [outcome world trace exec]. now rewrite app_nil_r.
  - cbv zeta. unfold call. cbn [bind defer exec].
    destruct (h _ (io_Copy dstFile (FileReader srcFile)) (snd (h _ create w)))
      as [[[n e] |] w3]; cbn [bind defer exec fst snd];
      destruct (h _ (File_Close dstFile) w3) as [[y |] w4]; reflexivity.
Qed.

(** X9: an upload that gets as far as the copy returns the error of
    [io.Copy], nil or not, unlike [PutString]; the remote file is closed
    before the local one, and the errors of [Mkdir] and of both closes
    are dropped. *)
Theorem PutFile_returns_the_error_of_the_copy :
  forall (W : Type) (h : Handler W) (w w1 w2 w3 w4 w5 : W) (sc : sftpClient)
         (localFile remoteFile : string) (srcFile : option os_File)
         (dstFile : option sftp_File) (n : Z) (err e1 e2 : error),
    h _ (os_Open localFile) w = (Some (srcFile, None), w1) ->
    let m := exec h (make_remote_directories sc remoteFile) w1 in
    outcome m = Returned tt ->
    h _ (Client_Create (Client sc) remoteFile) (world m) =
      (Some (dstFile, None), w2) ->
    h _ (io_Copy dstFile (FileReader srcFile)) w2 = (Some (n, err), w3) ->
    h _ (File_Close dstFile) w3 = (Some e1, w4) ->
    h _ (os_File_Close srcFile) w4 = (Some e2, w5) ->
    exec h (PutFile sc localFile remoteFile) w =
    mkRun (Returned err) w5
      (ObsCall (os_Open localFile) (Some (srcFile, None)) ::
       trace m ++
       [ObsCall (Client_Create (Client sc) remoteFile) (Some (dstFile, None));
        ObsCall (io_Copy dstFile (FileReader srcFile)) (Some (n, err));
        ObsCall (File_Close dstFile) (Some e1);
        ObsCall (os_File_Close srcFile) (Some e2)]).
Proof.
  intros W h w w1 w2 w3 w4 w5 sc localFile remoteFile srcFile dstFile n err
         e1 e2 Hopen m Hm Hcreate Hcopy Hclose Hsrc.
  assert (Hbody : exec h (make_remote_directories sc remoteFile ;;
                          PutFile_write sc srcFile remoteFile) w1 =
                  mkRun (Returned err) w4
                    (trace m ++
                     [ObsCall (Client_Create (Client sc) remoteFile)
                        (Some (dstFile, None));
                      ObsCall (io_Copy dstFile (FileReader srcFile))
                        (Some (n, err));
                      ObsCall (File_Close dstFile) (Some e1)])).
  { rewrite exec_bind. unfold seq_run. fold m. rewrite Hm.
    rewrite PutFile_write_run. cbv zeta. rewrite Hcreate. cbn [fst snd].
    rewrite Hcopy. cbn [fst snd]. rewrite Hclose. reflexivity. }
  rewrite (PutFile_run h w w1 sc localFile remoteFile srcFile Hopen).
  rewrite exec_defer. cbv zeta. rewrite Hbody. cbn [outcome world trace].
  rewrite exec_bind, exec_call, Hsrc. unfold seq_run, said.
  cbn [fst snd outcome world trace exec app].
  now rewrite <- !app_assoc.
Qed.

(** The upload of a file whose copy breaks off: [PutFile] returns the
    error that [PutString] only logs. *)
Lemma PutFile_returns_the_error_of_the_copy_witness :
  outcome (exec (serve short_write) (PutFile connected "local.txt" "/a/b/c.txt") tt) =
    Returned (Some "short write"%string) /\
  outcome (exec (serve short_write) (PutString connected "hello" "/a/b/c.txt") tt) =
    Returned None.
Proof.
  split; [| reflexivity].
  rewrite (PutFile_returns_the_error_of_the_copy
             unit (serve short_write) tt tt tt tt tt tt connected
             "local.txt" "/a/b/c.txt" (Some 1) (Some 1) 3%Z
             (Some "short write"%string) None None
             eq_refl eq_refl eq_refl eq_refl eq_refl eq_refl).
  reflexivity.
Defined.


(** ** The session factory *)

Lemma sftpConn_Connect_silent {W : Type} (Quote : string -> string)
    (h : Handler W) (w : W) (s : Config) (c : chan) :
  sent_on c (trace (exec h (sftpConn_Connect Quote s) w)) = [].
Proof.
  rewrite sftpConn_Connect_run. cbv zeta. unfold said.
  destruct (fst (h _ _ w)) as [[conn [msg |]] |]; try reflexivity.
  cbn [trace sent_on].
  destruct (fst (h _ (sftp_NewClient conn) _)) as [[client [msg |]] |];
    reflexivity.
Qed.

(** X11: [Connect] always starts by dialling [tcp] to [Host:Port],
    with the user, the password and a timeout of thirty seconds.  The
    host-key callback it dials with never logs anything, and accepts a
    key exactly when no trusted key is configured or the trusted key is
    the key's fingerprint: with an empty trusted key the warning of
    [trustedHostKeyCallback] is never reached. *)
Theorem sftpConn_Connect_dials_with_the_configured_policy :
  forall (Quote : string -> string) (W : Type) (h : Handler W) (w : W)
         (s : Config),
    let dial := ssh_Dial "tcp" (dial_address s) (dial_config Quote s) in
    (exists rest,
       trace (exec h (sftpConn_Connect Quote s) w) =
       ObsCall dial (fst (h _ dial w)) :: rest) /\
    User (dial_config Quote s) = Username s /\
    Auth (dial_config Quote s) = [Password s] /\
    Timeout (dial_config Quote s) = 30000000000%Z /\
    forall k : PublicKey,
      fst (HostKeyCallback (dial_config Quote s) k) = [] /\
      (snd (HostKeyCallback (dial_config Quote s) k) = None <->
       SSHTrustedKey s = ""%string \/ SSHTrustedKey s = keyString k).
Proof.
  intros Quote W h w s dial. split; [| repeat split].
  - rewrite sftpConn_Connect_run. cbv zeta. unfold said.
    cbn [trace]. eexists. reflexivity.
  - unfold dial_config. cbn [HostKeyCallback].
    destruct (String.eqb_spec (SSHTrustedKey s) "") as [He | Hne];
      cbn [negb]; [reflexivity |].
    unfold trustedHostKeyCallback.
    destruct (String.eqb_spec (SSHTrustedKey s) "") as [He | _];
      [congruence |].
    now destruct (negb (SSHTrustedKey s =? keyString k)%string).
  - apply (sftpConn_host_key_policy Quote s k).
  - apply (sftpConn_host_key_policy Quote s k).
Qed.

(** X12: when the dial fails, [Connect] logs the error once and
    returns it with a nil session: the sftp negotiation is not started,
    whatever connection came with the error. *)
Theorem sftpConn_Connect_stops_at_a_failed_dial :
  forall (Quote : string -> string) (W : Type) (h : Handler W) (w w1 : W)
         (s : Config) (conn : option ssh_Client) (msg : string),
    let dial := ssh_Dial "tcp" (dial_address s) (dial_config Quote s) in
    h _ dial w = (Some (conn, Some msg), w1) ->
    exec h (sftpConn_Connect Quote s) w =
    mkRun (Returned (None, Some msg)) w1
      [ObsCall dial (Some (conn, Some msg));
       ObsOut (slog_Error "Connect fail:" (Some msg))].
Proof.
  intros Quote W h w w1 s conn msg dial H.
  rewrite sftpConn_Connect_run. cbv zeta.
  change (ssh_Dial "tcp"
            (Host s ++ ":" ++ NilZero.string_of_int (Z.to_int (Port s)))%string _)
    with dial.
  now rewrite H.
Qed.

(** A dial that is refused. *)
Lemma sftpConn_Connect_stops_at_a_failed_dial_witness :
  outcome (exec (serve unreachable)
             (sftpConn_Connect quote_plain example_config) tt) =
  Returned (None, Some "dial tcp: connection refused"%string).
Proof.
  rewrite (sftpConn_Connect_stops_at_a_failed_dial quote_plain unit
             (serve unreachable) tt tt example_config None
             "dial tcp: connection refused" eq_refl).
  reflexivity.
Defined.

(** X13: when the dial succeeds, [Connect] negotiates sftp over the
    connection it got.  If that fails the error is logged once and
    returned with a nil session, whatever client came with the error;
    otherwise the client is returned with a nil error. *)
Theorem sftpConn_Connect_negotiates_over_the_dialled_connection :
  forall (Quote : string -> string) (W : Type) (h : Handler W) (w w1 w2 : W)
         (s : Config) (conn : option ssh_Client)
         (client : option sftp_Client) (err : error),
    let dial := ssh_Dial "tcp" (dial_address s) (dial_config Quote s) in
    h _ dial w = (Some (conn, None), w1) ->
    h _ (sftp_NewClient conn) w1 = (Some (client, err), w2) ->
    exec h (sftpConn_Connect Quote s) w =
    mkRun (Returned (if is_nil err then client else None, err)) w2
      (ObsCall dial (Some (conn, None)) ::
       ObsCall (sftp_NewClient conn) (Some (client, err)) ::
       match err with
       | Some _ => [ObsOut (slog_Error "New client fail:" err)]
       | None => []
       end).
Proof.
  intros Quote W h w w1 w2 s conn client err dial H Hnew.
  rewrite sftpConn_Connect_run. cbv zeta.
  change (ssh_Dial "tcp"
            (Host s ++ ":" ++ NilZero.string_of_int (Z.to_int (Port s)))%string _)
    with dial.
  rewrite H. cbn [fst snd]. rewrite Hnew. cbn [fst snd].
  now destruct err.
Qed.

(** A connect to a healthy server. *)
Lemma sftpConn_Connect_negotiates_over_the_dialled_connection_witness :
  outcome (exec (serve healthy)
             (sftpConn_Connect quote_plain example_config) tt) =
  Returned (Some 1, None).
Proof.
  rewrite (sftpConn_Connect_negotiates_over_the_dialled_connection
             quote_plain unit (serve healthy) tt tt tt example_config
             (Some 1) (Some 1) None eq_refl eq_refl).
  reflexivity.
Defined.

(** ** The supervisor loop *)

(** One turn, whatever is received: at most one value is sent, the
    channels of the struct stay, and the session is another one only
    when [true] was published. *)
Lemma supervisor_turn_invariant {W : Type} (Quote : string -> string)
    (h : Handler W) (w : W) (s : Config) (ftpConn : sftpClient) (c : chan) :
  let r := exec h (supervisor_turn (NewSftpConn Quote s) ftpConn) w in
  length (sent_on c (trace r)) <= 1 /\
  forall ftpConn',
    outcome r = Returned ftpConn' ->
    reconnect ftpConn' = reconnect ftpConn /\
    ReconnectStatus ftpConn' = ReconnectStatus ftpConn /\
    (~ In true (sent_on (ReconnectStatus ftpConn) (trace r)) ->
     Client ftpConn' = Client ftpConn).
Proof.
  intros r. subst r.
  destruct (h _ (chan_recv (reconnect ftpConn)) w) as [[res |] w1] eqn:Hrecv.
  - rewrite (supervisor_turn_run h w w1 _ ftpConn res Hrecv).
    destruct res; unfold said; cbn [outcome trace sent_on].
    + unfold seq_run. cbn [Connect NewSftpConn].
      pose proof (sftpConn_Connect_silent Quote h w1 s c) as Hc.
      pose proof (sftpConn_Connect_silent Quote h w1 s (ReconnectStatus ftpConn))
        as Hs.
      destruct (exec h (sftpConn_Connect Quote s) w1)
        as [[[newConn [msg |]] |] w2 t]; cbn [outcome world trace] in *.
      * cbn [is_nil outcome trace]. rewrite !sent_on_app, Hc, Hs.
        cbn [app sent_on]. split.
        -- destruct (chan_eqb c (ReconnectStatus ftpConn)); cbn; lia.
        -- intros f' Hf. injection Hf as <-. auto.
      * cbn [is_nil outcome trace]. rewrite !sent_on_app, Hc, Hs.
        cbn [app sent_on]. rewrite chan_eqb_refl. split.
        -- destruct (chan_eqb c (ReconnectStatus ftpConn)); cbn; lia.
        -- intros f' Hf. injection Hf as <-. cbn. repeat split.
           intros Hn. exfalso. apply Hn. now left.
      * rewrite Hc. split; [cbn; lia | discriminate].
    + split; [cbn; lia |]. intros f' Hf. injection Hf as <-. auto.
  - unfold supervisor_turn. rewrite exec_call_bind, Hrecv. unfold said.
    cbn [fst snd outcome trace sent_on]. split; [cbn; lia | discriminate].
Qed.

(** X14: over any number of turns of the supervisor loop of a client
    of the session factory, whatever requests arrive and however the
    connects end: at most one value per turn is sent on any channel, the
    struct keeps its two channels, and it keeps its session unless
    [true] was published. *)
Theorem supervisor_keeps_the_session_unless_it_publishes_true :
  forall (Quote : string -> string) (W : Type) (h : Handler W) (s : Config)
         (n : nat) (w : W) (ftpConn : sftpClient) (c : chan),
    let r := exec h (supervisor n (NewSftpConn Quote s) ftpConn) w in
    length (sent_on c (trace r)) <= n /\
    forall ftpConn',
      outcome r = Returned ftpConn' ->
      reconnect ftpConn' = reconnect ftpConn /\
      ReconnectStatus ftpConn' = ReconnectStatus ftpConn /\
      (~ In true (sent_on (ReconnectStatus ftpConn) (trace r)) ->
       Client ftpConn' = Client ftpConn).
Proof.
  intros Quote W h s n. induction n as [| n IH]; intros w ftpConn c r; subst r.
  - cbn. split; [lia |]. intros f' Hf. injection Hf as <-. auto.
  - rewrite supervisor_unfold, exec_bind. unfold seq_run.
    destruct (supervisor_turn_invariant Quote h w s ftpConn c) as [Hlen _].
    destruct (supervisor_turn_invariant Quote h w s ftpConn
                (ReconnectStatus ftpConn)) as [_ Hturn].
    cbv zeta in Hlen, Hturn.
    destruct (outcome (exec h (supervisor_turn (NewSftpConn Quote s) ftpConn) w))
      as [f1 |]; cbn [outcome trace].
    + destruct (Hturn f1 eq_refl) as (Hr1 & Hs1 & Hc1).
      destruct (IH (world (exec h (supervisor_turn (NewSftpConn Quote s) ftpConn) w))
                  f1 c) as [Hlen2 _].
      destruct (IH (world (exec h (supervisor_turn (NewSftpConn Quote s) ftpConn) w))
                  f1 (ReconnectStatus ftpConn)) as [_ Hrest].
      cbv zeta in Hlen2, Hrest. rewrite !sent_on_app, length_app.
      split; [lia |]. intros f' Hf.
      destruct (Hrest f' Hf) as (Hr2 & Hs2 & Hc2).
      split; [congruence |]. split; [congruence |].
      intros Hn. rewrite Hc2, Hc1.
      * reflexivity.
      * intros Hin. apply Hn. apply in_or_app. now left.
      * rewrite Hs1. intros Hin. apply Hn. apply in_or_app. now right.
    + split; [lia | discriminate].
Qed.

(** X15: requests that carry [false] are dropped: as long as only
    [false] is received, the loop calls nothing but the receive, for any
    session factory; no connect is tried, nothing is sent, and the
    struct is the one it started with. *)
Theorem supervisor_drops_false_requests :
  forall (W : Type) (h : Handler W) (conn : SftpConn) (ftpConn : sftpClient)
         (n : nat) (w : W),
    (forall w', fst (h _ (chan_recv (reconnect ftpConn)) w') = Some false) ->
    let r := exec h (supervisor n conn ftpConn) w in
    outcome r = Returned ftpConn /\
    trace r = repeat (ObsCall (chan_recv (reconnect ftpConn)) (Some false)) n.
Proof.
  intros W h conn ftpConn n. induction n as [| n IH]; intros w Hrecv r; subst r.
  - split; reflexivity.
  - rewrite supervisor_unfold, exec_bind.
    assert (Hturn : exec h (supervisor_turn conn ftpConn) w =
                    mkRun (Returned ftpConn)
                      (snd (h _ (chan_recv (reconnect ftpConn)) w))
                      [ObsCall (chan_recv (reconnect ftpConn)) (Some false)]).
    { apply supervisor_turn_ignores_false.
      specialize (Hrecv w).
      destruct (h _ (chan_recv (reconnect ftpConn)) w) as [x w1].
      cbn [fst snd] in *. now subst x. }
    rewrite Hturn. unfold seq_run. cbn [outcome world trace].
    destruct (IH (snd (h _ (chan_recv (reconnect ftpConn)) w)) Hrecv)
      as [Ho Ht].
    cbv zeta in Ho, Ht. rewrite Ho, Ht. split; reflexivity.
Qed.

(** Three turns on requests that all carry [false]. *)
Lemma supervisor_drops_false_requests_witness :
  let r := exec (serve idle_requests)
             (supervisor 3 (NewSftpConn quote_plain example_config) connected) tt in
  outcome r = Returned connected /\
  trace r =
    [ObsCall (chan_recv ch_reconnect) (Some false);
     ObsCall (chan_recv ch_reconnect) (Some false);
     ObsCall (chan_recv ch_reconnect) (Some false)].
Proof.
  intros r.
  destruct (supervisor_drops_false_requests unit (serve idle_requests)
              (NewSftpConn quote_plain example_config) connected 3 tt
              (fun _ => eq_refl)) as [Ho Ht].
  split; [exact Ho | exact Ht].
Defined.

(** X16: a client made while the server was down is repaired by the
    first reconnect that succeeds: [NewClient] returns the facade with
    the error of the first connect, and a turn of the supervisor on that
    facade whose connect succeeds leaves it with the new session and
    publishes [true]. *)
Theorem supervisor_repairs_a_client_made_offline :
  forall (W : Type) (h : Handler W) (w w1 w2 w3 : W) (conn : SftpConn)
         (client0 client1 : option sftp_Client) (err0 : error)
         (t1 t2 : list Obs),
    exec h (Connect conn) w = mkRun (Returned (client0, err0)) w1 t1 ->
    h _ (chan_recv ch_reconnect) w1 = (Some true, w2) ->
    exec h (Connect conn) w2 = mkRun (Returned (client1, None)) w3 t2 ->
    let made := exec h (NewClient conn) w in
    let ftpConn := {| Client := client0; reconnect := ch_reconnect;
                      ReconnectStatus := ch_status |} in
    let turn := exec h (supervisor_turn conn ftpConn) (world made) in
    outcome made = Returned (Some ftpConn, err0) /\
    outcome turn = Returned {| Client := client1; reconnect := ch_reconnect;
                               ReconnectStatus := ch_status |} /\
    sent_on ch_status (trace turn) = sent_on ch_status t2 ++ [true].
Proof.
  intros W h w w1 w2 w3 conn client0 client1 err0 t1 t2 Hc0 Hrecv Hc1
         made ftpConn turn.
  assert (Hmade : made = mkRun (Returned (Some ftpConn, err0)) w1
                           (t1 ++ [ObsOut (go (reconnect_supervisor ftpConn))])).
  { unfold made. rewrite NewClient_run, Hc0. reflexivity. }
  split; [now rewrite Hmade |].
  unfold turn. rewrite Hmade. cbn [world].
  rewrite (supervisor_turn_run h w1 w2 conn ftpConn true Hrecv), Hc1.
  unfold seq_run, said. cbn [is_nil outcome world trace sent_on].
  split; [reflexivity |]. now rewrite sent_on_app.
Qed.

(** A server that refuses the first dial and is back for the
    reconnect. *)
Lemma supervisor_repairs_a_client_made_offline_witness :
  let conn := NewSftpConn quote_plain example_config in
  let made := exec (serve_until 1) (NewClient conn) 0 in
  let offline := {| Client := None; reconnect := ch_reconnect;
                    ReconnectStatus := ch_status |} in
  outcome made = Returned (Some offline, Some "dial tcp: connection refused"%string) /\
  outcome (exec (serve_until 1) (supervisor_turn conn offline) (world made)) =
    Returned connected.
Proof.
  intros conn made offline.
  destruct (supervisor_repairs_a_client_made_offline
              nat (serve_until 1) 0 1 2 4 conn None (Some 1)
              (Some "dial tcp: connection refused"%string)
              (trace (exec (serve_until 1) (Connect conn) 0))
              (trace (exec (serve_until 1) (Connect conn) 2))
              eq_refl eq_refl eq_refl) as (Hm & Ht & _).
  split; [exact Hm | exact Ht].
Defined.

(** ** The directories of an upload, on every path *)

Lemma Join_rooted (path dir : string) : rooted path -> rooted (Join [path; dir]).
Proof.
  intros [rest ->]. cbn [Join String.eqb].
  change (String.concat (String Separator "") [String Separator rest; dir])
    with (String Separator (rest ++ String Separator "" ++ dir))%string.
  rewrite Clean_rooted. eexists. reflexivity.
Qed.

Lemma mkdir_each_calls_rooted {W : Type} (h : Handler W) (sc : sftpClient)
    (dirs : list string) :
  forall (path : string) (w : W),
    rooted path ->
    Forall rooted (mkdir_calls (trace (exec h (mkdir_each sc path dirs) w))) /\
    (dirs <> [] ->
     mkdir_calls (trace (exec h (mkdir_each sc path dirs) w)) <> []).
Proof.
  induction dirs as [| dir dirs IH]; intros path w Hpath.
  - split; [constructor | congruence].
  - cbn [mkdir_each]. rewrite exec_call_bind. unfold said.
    cbn [trace mkdir_calls]. split; [| discriminate].
    constructor; [now apply Join_rooted |].
    destruct (fst (h _ (Client_Mkdir (Client sc) (Join [path; dir])) w));
      [| constructor].
    apply IH. now apply Join_rooted.
Qed.

(** X17: whatever the remote path, relative or absolute, and whatever
    the server answers, every directory [PutString] and [PutFile] try to
    create starts at the root, and at least one [Mkdir] is tried before
    the remote file is created, also for a file without directory. *)
Theorem uploads_try_rooted_directories :
  forall (W : Type) (h : Handler W) (sc : sftpClient) (remoteFile : string),
    (forall (text : string) (w : W),
       let calls := mkdir_calls (trace (exec h (PutString sc text remoteFile) w)) in
       calls <> [] /\ Forall rooted calls) /\
    (forall (localFile : string) (srcFile : option os_File) (w w1 : W),
       h _ (os_Open localFile) w = (Some (srcFile, None), w1) ->
       let calls := mkdir_calls
                      (trace (exec h (PutFile sc localFile remoteFile) w)) in
       calls <> [] /\ Forall rooted calls).
Proof.
  intros W h sc remoteFile.
  assert (Hblock : forall w,
            mkdir_calls (trace (exec h (make_remote_directories sc remoteFile) w))
              <> [] /\
            Forall rooted
              (mkdir_calls (trace (exec h (make_remote_directories sc remoteFile) w)))).
  { intros w. unfold make_remote_directories.
    destruct (mkdir_each_calls_rooted h sc
                (Split (Dir remoteFile) Separator)
                (String Separator EmptyString) w) as [Hall Hsome].
    - now exists EmptyString.
    - split; [apply Hsome; apply Split_not_nil | exact Hall]. }
  split.
  - intros text w calls. subst calls. rewrite PutString_mkdir_calls.
    apply Hblock.
  - intros localFile srcFile w w1 Hopen calls. subst calls.
    rewrite (PutFile_mkdir_calls h w w1 sc localFile remoteFile srcFile Hopen).
    apply Hblock.
Qed.

(** ** The demonstration wiring *)

(** X18: [New] dials port 2022 of the host named by the environment
    and accepts every host key.  It hands out the facade only when the
    first connect succeeded: on a failure it panics, after the
    supervisor goroutine has been started, so that no caller of [New]
    sees a facade without session. *)
Theorem New_panics_unless_connected :
  forall (Quote getenv : string -> string) (W : Type) (h : Handler W)
         (w w1 : W) (client : option sftp_Client) (err : error) (t : list Obs),
    exec h (sftpConn_Connect Quote (demo_config getenv)) w =
      mkRun (Returned (client, err)) w1 t ->
    let ftpConn := {| Client := client; reconnect := ch_reconnect;
                      ReconnectStatus := ch_status |} in
    exec h (New Quote getenv) w =
      mkRun (if is_nil err then Returned (Some ftpConn) else Panicked) w1
        (t ++ [ObsOut (go (reconnect_supervisor ftpConn))]) /\
    dial_address (demo_config getenv) = (getenv "HOST" ++ ":2022")%string /\
    forall k, snd (HostKeyCallback (dial_config Quote (demo_config getenv)) k) = None.
Proof.
  intros Quote getenv W h w w1 client err t Hc ftpConn.
  split; [| split; [reflexivity | reflexivity]].
  unfold New. fold (demo_config getenv). rewrite exec_bind, NewClient_run.
  cbn [Connect NewSftpConn]. rewrite Hc. unfold seq_run.
  cbn [outcome world trace]. fold ftpConn.
  destruct err as [msg |]; cbn [is_nil Error bind exec outcome world trace];
    now rewrite app_nil_r.
Qed.

(** The demonstration against a server that refuses the connection. *)
Lemma New_panics_unless_connected_witness :
  outcome (exec (serve unreachable) (New quote_plain (fun _ => "h"%string)) tt) =
  Panicked.
Proof.
  destruct (New_panics_unless_connected quote_plain (fun _ => "h"%string) unit
              (serve unreachable) tt tt None
              (Some "dial tcp: connection refused"%string)
              (trace (exec (serve unreachable)
                        (sftpConn_Connect quote_plain
                           (demo_config (fun _ => "h"%string))) tt))
              eq_refl) as (Hrun & _).
  now rewrite Hrun.
Defined.

(** ** WalkFiles on any walker *)

Lemma collected_In (ws : list Walker) (p : string) :
  In p (collected ws) <->
  exists x, In x ws /\ IsDir (Stat x) = false /\ Path x = p.
Proof.
  unfold collected. rewrite in_flat_map. split.
  - intros (x & Hx & Hp). exists x. split; [exact Hx |].
    destruct (IsDir (Stat x)); cbn in Hp; [contradiction |].
    destruct Hp as [Hp | []]. now split.
  - intros (x & Hx & Hd & Hp). exists x. split; [exact Hx |].
    rewrite Hd. now left.
Qed.

Lemma collected_length (ws : list Walker) : length (collected ws) <= length ws.
Proof.
  induction ws as [| x ws IH]; [apply le_n |].
  rewrite collected_cons, length_app.
  destruct (negb (IsDir (Stat x))); cbn [length]; lia.
Qed.

(** X19: for any walker that shows entries without error and then
    stops, [WalkFiles] calls [Walk] and nothing else, asks for no
    reconnect, and returns with a nil error exactly the paths of the
    entries shown that are not directories: a path is returned if and
    only if the walker showed it on a non-directory. *)
Theorem WalkFiles_returns_the_files_of_any_walk :
  forall (W : Type) (h : Handler W) (w w1 : W) (sc : sftpClient)
         (remoteDir : string) (walker last : Walker) (ws : list Walker)
         (fuel : nat),
    h _ (Client_Walk (Client sc) remoteDir) w = (Some walker, w1) ->
    visits walker ws last ->
    Forall (fun x => Err x = None) ws ->
    fst (Step last) = false ->
    length ws < fuel ->
    exec h (WalkFiles fuel sc remoteDir) w =
      mkRun (Returned (Some (collected ws, None))) w1
        [ObsCall (Client_Walk (Client sc) remoteDir) (Some walker)] /\
    length (collected ws) <= length ws /\
    forall p, In p (collected ws) <->
              exists x, In x ws /\ IsDir (Stat x) = false /\ Path x = p.
Proof.
  intros W h w w1 sc remoteDir walker last ws fuel Hwalk Hvis Hok Hend Hfuel.
  split; [| split].
  - now apply (WalkFiles_without_error h w w1 sc remoteDir walker last ws fuel).
  - apply collected_length.
  - apply collected_In.
Qed.

(** A walk of a directory with one file. *)
Lemma WalkFiles_returns_the_files_of_any_walk_witness :
  exec (serve (walking (list_walker short_walk)))
    (WalkFiles 3 connected "/reports") tt =
  mkRun (Returned (Some (["/reports/a.txt"%string], None))) tt
    [ObsCall (Client_Walk (Some 1) "/reports") (Some (list_walker short_walk))].
Proof.
  pose (e1 := {| entry_path := "/reports"; entry_isDir := true;
                 entry_err := None |}).
  pose (e2 := {| entry_path := "/reports/a.txt"; entry_isDir := false;
                 entry_err := None |}).
  pose (wA := list_walker_at (e1, [e2])).
  pose (wB := list_walker_at (e2, [])).
  assert (Hvis : visits (list_walker short_walk) [wA; wB] wB).
  { apply visits_step; [reflexivity |].
    apply visits_step; [reflexivity |]. apply visits_done. }
  assert (Hok : Forall (fun x => Err x = None) [wA; wB])
    by (repeat constructor).
  destruct (WalkFiles_returns_the_files_of_any_walk
              unit (serve (walking (list_walker short_walk))) tt tt connected
              "/reports" (list_walker short_walk) wB [wA; wB] 3
              eq_refl Hvis Hok eq_refl ltac:(simpl; lia))
    as (Hrun & _).
  rewrite Hrun. reflexivity.
Defined.

(** ** What the facade sends *)

Lemma chan_eqb_eq (a b : chan) : chan_eqb a b = true <-> a = b.
Proof. destruct a, b; cbn; split; congruence. Qed.

Lemma only_signals_Ret {A : Type} (sc : sftpClient) (a : A) :
  only_signals sc (Ret a).
Proof. intros W h w c. split; [constructor | reflexivity]. Qed.

Lemma only_signals_call {X : Type} (sc : sftpClient) (e : Event X) :
  only_signals sc (call e).
Proof.
  intros W h w c. rewrite exec_call. split; [constructor | reflexivity].
Qed.

Lemma only_signals_log (sc : sftpClient) (o : Output) :
  match o with chan_send _ _ => False | _ => True end ->
  only_signals sc (emit o).
Proof.
  intros Ho W h w c. rewrite exec_emit. cbn [trace sent_on].
  destruct o; try contradiction; split; try constructor; reflexivity.
Qed.

Lemma only_signals_bind {A B : Type} (sc : sftpClient) (p : Prog A)
    (f : A -> Prog B) :
  only_signals sc p -> (forall a, only_signals sc (f a)) ->
  only_signals sc (bind p f).
Proof.
  intros Hp Hf W h w c. rewrite exec_bind. unfold seq_run.
  destruct (Hp W h w c) as [Hp1 Hp2].
  destruct (outcome (exec h p w)) as [a |]; cbn [trace]; [| now split].
  destruct (Hf a W h (world (exec h p w)) c) as [Hf1 Hf2].
  rewrite sent_on_app. split.
  - apply Forall_app. now split.
  - intros Hc. now rewrite Hp2, Hf2.
Qed.

Lemma only_signals_defer {A : Type} (sc : sftpClient) (d : Prog unit)
    (body : Prog A) :
  only_signals sc d -> only_signals sc body -> only_signals sc (defer d body).
Proof.
  intros Hd Hb W h w c. rewrite exec_defer. cbv zeta. cbn [trace].
  destruct (Hb W h w c) as [Hb1 Hb2].
  destruct (Hd W h (world (exec h body w)) c) as [Hd1 Hd2].
  rewrite sent_on_app. split.
  - apply Forall_app. now split.
  - intros Hc. now rewrite Hb2, Hd2.
Qed.

Lemma only_signals_ConnectionLostHandler (sc : sftpClient) (err : error) :
  only_signals sc (ConnectionLostHandler sc err).
Proof.
  intros W h w c. rewrite ConnectionLostHandler_run.
  destruct err as [msg |]; [| split; [constructor | reflexivity]].
  destruct (Contains msg "connection lost"); cbn [trace sent_on];
    [| split; [constructor | reflexivity]].
  destruct (chan_eqb c (reconnect sc)) eqn:Hc.
  - apply chan_eqb_eq in Hc. split; [repeat constructor | congruence].
  - split; [constructor | reflexivity].
Qed.

Lemma only_signals_close {X : Type} (sc : sftpClient) (e : Event X) :
  only_signals sc (call e ;; Ret tt).
Proof.
  apply only_signals_bind; [apply only_signals_call |].
  intros _. apply only_signals_Ret.
Qed.

Lemma only_signals_mkdir_each (sc : sftpClient) (dirs : list string) :
  forall path, only_signals sc (mkdir_each sc path dirs).
Proof.
  induction dirs as [| dir dirs IH]; intros path; cbn [mkdir_each].
  - apply only_signals_Ret.
  - apply only_signals_bind; [apply only_signals_call | intros _; apply IH].
Qed.

Lemma only_signals_WalkFiles_loop (sc : sftpClient) (fuel : nat) :
  forall walker files, only_signals sc (WalkFiles_loop fuel sc walker files).
Proof.
  induction fuel as [| fuel IH]; intros walker files; cbn [WalkFiles_loop].
  - apply only_signals_Ret.
  - destruct (Step walker) as [[|] walker']; [| apply only_signals_Ret].
    destruct (Err walker') as [e |]; [| apply IH].
    apply only_signals_bind;
      [apply only_signals_ConnectionLostHandler | intros _; apply only_signals_Ret].
Qed.

Ltac only_signals_step :=
  first
    [ apply only_signals_Ret
    | apply only_signals_call
    | apply only_signals_ConnectionLostHandler
    | apply only_signals_close
    | apply only_signals_mkdir_each
    | apply only_signals_WalkFiles_loop
    | apply only_signals_log; exact I
    | apply only_signals_defer
    | apply only_signals_bind; [| intros ? ] ].

(** X20: whatever the server answers, the operations of the facade
    send nothing but [true], and only on the reconnect channel of their
    client: none of them publishes on the status channel, and the
    supervisor's test of the request never fails on a request of the
    package itself.  [GetRecords] does so as long as its reader does. *)
Theorem facade_sends_only_reconnect_requests :
  forall sc : sftpClient,
    (forall sourcePath destPath, only_signals sc (MoveFile sc sourcePath destPath)) /\
    (forall dirPath, only_signals sc (RemoveFile sc dirPath)) /\
    (forall remoteFile, only_signals sc (OpenFile sc remoteFile)) /\
    (forall remoteDir, only_signals sc (Files sc remoteDir)) /\
    (forall fuel remoteDir, only_signals sc (WalkFiles fuel sc remoteDir)) /\
    (forall localFile remoteFile, only_signals sc (PutFile sc localFile remoteFile)) /\
    (forall text remoteFile, only_signals sc (PutString sc text remoteFile)) /\
    only_signals sc (Close sc) /\
    (forall remoteFile onReader,
       (forall file, only_signals sc (onReader file)) ->
       only_signals sc (GetRecords sc remoteFile onReader)).
Proof.
  intros sc.
  assert (Hopen : forall remoteFile, only_signals sc (OpenFile sc remoteFile)).
  { intros remoteFile. unfold OpenFile.
    only_signals_step; [only_signals_step |]. destruct a as [file [msg |]];
      repeat only_signals_step. }
  split.
  { intros sourcePath destPath. unfold MoveFile. repeat only_signals_step. }
  split.
  { intros dirPath. unfold RemoveFile. repeat only_signals_step. }
  split; [exact Hopen |].
  split.
  { intros remoteDir. unfold Files.
    only_signals_step; [only_signals_step |]. destruct a as [entries [msg |]];
      repeat only_signals_step. }
  split.
  { intros fuel remoteDir. unfold WalkFiles. repeat only_signals_step. }
  split.
  { intros localFile remoteFile. unfold PutFile.
    only_signals_step; [only_signals_step |]. destruct a as [srcFile [msg |]];
      [repeat only_signals_step |].
    only_signals_step; [only_signals_step |].
    only_signals_step; [unfold make_remote_directories; only_signals_step |].
    only_signals_step; [only_signals_step |]. destruct a0 as [dstFile [msg |]];
      [repeat only_signals_step |].
    only_signals_step; [only_signals_step |].
    only_signals_step; [only_signals_step |]. destruct a0 as [n e].
    only_signals_step. }
  split.
  { intros text remoteFile. unfold PutString.
    only_signals_step; [unfold make_remote_directories; only_signals_step |].
    only_signals_step; [only_signals_step |]. destruct a0 as [dstFile err].
    only_signals_step; [destruct err; repeat only_signals_step |].
    only_signals_step; [only_signals_step |].
    only_signals_step; [only_signals_step |]. destruct a1 as [n e].
    only_signals_step; [destruct e; repeat only_signals_step |].
    only_signals_step. }
  split.
  { unfold Close. only_signals_step. }
  intros remoteFile onReader Hreader. unfold GetRecords.
  only_signals_step; [apply Hopen |]. destruct a as [file err].
  assert (Hread : only_signals sc
            ('(contents, err0) <- onReader file ;;
             match err0 with
             | Some msg =>
                 emit (slog_Error
                         ("Error reading file " ++ remoteFile ++ ": " ++ msg)%string
                         None) ;;
                 Ret ([], err0)
             | None => Ret (contents, None)
             end)).
  { only_signals_step; [apply Hreader |]. destruct a as [contents [msg |]];
      repeat only_signals_step. }
  destruct err as [msg |].
  - only_signals_step; [only_signals_step | exact Hread].
  - only_signals_step; [only_signals_step | exact Hread].
Qed.

(** * Runs with a receiver *)

Lemma run_bind {W A B : Type} (h : Handler W) (rcv : Receiver W) (p : Prog A)
    (f : A -> Prog B) (w : W) :
  run h rcv (bind p f) w =
  seq_sync (run h rcv p w) (fun a w' => run h rcv (f a) w').
Proof.
  revert w; induction p as [a | | o k IH | X e k IH]; intros w;
    cbn [bind run].
  - unfold seq_sync; cbn [fate after seen app]. now destruct (run h rcv (f a) w).
  - reflexivity.
  - destruct o as [msg | msg err | c v | g];
      try (rewrite IH; unfold seq_sync, heard; cbn [fate after seen];
           now destruct (fate (run h rcv k w))).
    destruct (rcv c v w) as [w' |]; [| reflexivity].
    rewrite IH. unfold seq_sync, heard; cbn [fate after seen].
    now destruct (fate (run h rcv k w')).
  - destruct (h X e w) as [x w1]. rewrite IH.
    unfold seq_sync, heard; cbn [fate after seen].
    now destruct (fate (run h rcv (k x) w1)).
Qed.

(** Without a send a run does not depend on the receiver. *)
Lemma run_sendless {W A : Type} (h : Handler W) (rcv : Receiver W) (p : Prog A) :
  sendless p -> forall w, run h rcv p w = as_sync (exec h p w).
Proof.
  induction p as [a | | o k IH | X e k IH]; cbn [sendless run exec];
    intros Hp w; try reflexivity.
  - destruct Hp as [Ho Hk]. destruct o; try contradiction;
      rewrite (IH Hk); reflexivity.
  - destruct (h X e w) as [x w1]. rewrite (IH x (Hp x)). reflexivity.
Qed.

Lemma sendless_bind {A B : Type} (p : Prog A) (f : A -> Prog B) :
  sendless p -> (forall a, sendless (f a)) -> sendless (bind p f).
Proof.
  induction p as [a | | o k IH | X e k IH]; cbn [sendless bind];
    intros Hp Hf.
  - apply Hf.
  - exact I.
  - destruct Hp as [Ho Hk]. split; [exact Ho | now apply IH].
  - intros r. now apply IH.
Qed.

Lemma sendless_defer {A : Type} (d : Prog unit) (body : Prog A) :
  sendless d -> sendless body -> sendless (defer d body).
Proof.
  intros Hd. induction body as [a | | o k IH | X e k IH];
    cbn [sendless defer]; intros Hb.
  - now apply sendless_bind.
  - now apply sendless_bind.
  - destruct Hb as [Ho Hk]. split; [exact Ho | now apply IH].
  - intros r. now apply IH.
Qed.

Lemma sendless_call {X : Type} (e : Event X) : sendless (call e).
Proof. now intros [x |]. Qed.

Lemma sendless_close {X : Type} (e : Event X) : sendless (call e ;; Ret tt).
Proof. apply sendless_bind; [apply sendless_call | now intros]. Qed.

Lemma sendless_make_remote_directories (sc : sftpClient) (remoteFile : string) :
  sendless (make_remote_directories sc remoteFile).
Proof.
  unfold make_remote_directories.
  generalize (String Separator EmptyString) as path.
  induction (Split (Dir remoteFile) Separator) as [| dir dirs IH];
    intros path; cbn [mkdir_each]; [exact I |].
  apply sendless_bind; [apply sendless_call | intros _; apply IH].
Qed.

Lemma run_call_bind {W X A : Type} (h : Handler W) (rcv : Receiver W)
    (e : Event X) (f : X -> Prog A) (w : W) :
  run h rcv (x <- call e ;; f x) w =
  heard (ObsCall e (fst (h _ e w)))
    match fst (h _ e w) with
    | Some x => run h rcv (f x) (snd (h _ e w))
    | None => mkSync Panics (snd (h _ e w)) []
    end.
Proof.
  unfold call. cbn [bind run]. destruct (h X e w) as [[x |] w1]; reflexivity.
Qed.

Lemma run_log_bind {W A : Type} (h : Handler W) (rcv : Receiver W)
    (msg : string) (err : error) (p : Prog A) (w : W) :
  run h rcv (emit (slog_Error msg err) ;; p) w =
  heard (ObsOut (slog_Error msg err)) (run h rcv p w).
Proof. reflexivity. Qed.

Lemma run_close {W X : Type} (h : Handler W) (rcv : Receiver W) (e : Event X)
    (w : W) :
  run h rcv (call e ;; Ret tt) w =
  mkSync (match fst (h _ e w) with Some _ => Done tt | None => Panics end)
         (snd (h _ e w)) [ObsCall e (fst (h _ e w))].
Proof.
  unfold call. cbn [bind run]. destruct (h X e w) as [[x |] w1]; reflexivity.
Qed.

(** A deferred call runs when the body returned or panicked, and does
    not run when the body is blocked. *)
Lemma run_defer {W A : Type} (h : Handler W) (rcv : Receiver W) (d : Prog unit)
    (body : Prog A) (w : W) :
  run h rcv (defer d body) w =
  let r := run h rcv body w in
  match fate r with
  | Blocks => mkSync Blocks (after r) (seen r)
  | _ =>
      let rd := run h rcv d (after r) in
      mkSync (match fate rd with
              | Done _ => fate r
              | Panics => Panics
              | Blocks => Blocks
              end)
             (after rd) (seen r ++ seen rd)
  end.
Proof.
  revert w; induction body as [a | | o k IH | X e k IH]; intros w;
    cbn [defer run].
  - rewrite run_bind. unfold seq_sync. cbn [fate after seen app].
    destruct (fate (run h rcv d w)); try reflexivity. now rewrite app_nil_r.
  - rewrite run_bind. unfold seq_sync. cbn [fate after seen app].
    destruct (fate (run h rcv d w)); try reflexivity. now rewrite app_nil_r.
  - destruct o as [msg | msg err | c v | g];
      try (rewrite IH; cbv zeta; unfold heard; cbn [fate after seen];
           now destruct (fate (run h rcv k w))).
    destruct (rcv c v w) as [w' |]; [| reflexivity].
    rewrite IH. cbv zeta. unfold heard; cbn [fate after seen].
    now destruct (fate (run h rcv k w')).
  - destruct (h X e w) as [x w1]. rewrite IH. cbv zeta.
    unfold heard; cbn [fate after seen].
    now destruct (fate (run h rcv (k x) w1)).
Qed.

(** ** ConnectionLostHandler with a receiver *)

Lemma told_trace {W : Type} (h : Handler W) (w : W) (sc : sftpClient)
    (err : error) :
  trace (exec h (ConnectionLostHandler sc err) w) = told sc err.
Proof.
  rewrite ConnectionLostHandler_run. unfold told, signal.
  destruct err as [msg |]; [| reflexivity].
  now destruct (Contains msg "connection lost").
Qed.

(** The handler returns once its signal is taken, and is blocked in
    the send as long as it is not. *)
Lemma run_ConnectionLostHandler {W : Type} (h : Handler W) (rcv : Receiver W)
    (w : W) (sc : sftpClient) (err : error) :
  run h rcv (ConnectionLostHandler sc err) w =
  match err with
  | None => mkSync Panics w []
  | Some msg =>
      if Contains msg "connection lost"
      then match rcv (reconnect sc) true w with
           | Some w' => mkSync (Done tt) w' (signalling sc)
           | None => mkSync Blocks w (signalling sc)
           end
      else mkSync (Done tt) w []
  end.
Proof.
  destruct err as [msg |]; [| reflexivity].
  unfold ConnectionLostHandler, Error. cbn [bind].
  destruct (Contains msg "connection lost"); [| reflexivity].
  cbn [emit bind run]. now destruct (rcv (reconnect sc) true w).
Qed.

Lemma run_handler_taken {W : Type} (h : Handler W) (rcv : Receiver W)
    (w w' : W) (sc : sftpClient) (msg : string) :
  signal_taken rcv sc (Some msg) w w' ->
  run h rcv (ConnectionLostHandler sc (Some msg)) w =
  mkSync (Done tt) w' (told sc (Some msg)).
Proof.
  unfold signal_taken, told, signal. rewrite run_ConnectionLostHandler.
  destruct (Contains msg "connection lost"); intros H.
  - now rewrite H.
  - now subst w'.
Qed.

Lemma run_handler_then_return {W A : Type} (h : Handler W) (rcv : Receiver W)
    (w w' : W) (sc : sftpClient) (msg : string) (v : A) :
  signal_taken rcv sc (Some msg) w w' ->
  run h rcv (ConnectionLostHandler sc (Some msg) ;; Ret v) w =
  mkSync (Done v) w' (told sc (Some msg)).
Proof.
  intros H. rewrite run_bind, (run_handler_taken h rcv w w' sc msg H).
  unfold seq_sync. cbn [fate after seen run]. now rewrite app_nil_r.
Qed.

(** With a supervisor that takes every request where it stands, a run
    is the run without receiver. *)
Lemma run_all_taken {W A : Type} (h : Handler W) (p : Prog A) (w : W) :
  run h (fun _ _ w' => Some w') p w = as_sync (exec h p w).
Proof.
  revert w; induction p as [a | | o k IH | X e k IH]; intros w;
    cbn [run exec]; try reflexivity.
  - destruct o; rewrite IH; reflexivity.
  - destruct (h X e w) as [x w1]. rewrite IH. reflexivity.
Qed.

(** ** WalkFiles at the first error *)

Lemma run_WalkFiles {W : Type} (h : Handler W) (rcv : Receiver W) (w w1 : W)
    (sc : sftpClient) (remoteDir : string) (walker : Walker) (fuel : nat) :
  h _ (Client_Walk (Client sc) remoteDir) w = (Some walker, w1) ->
  run h rcv (WalkFiles fuel sc remoteDir) w =
  heard (ObsCall (Client_Walk (Client sc) remoteDir) (Some walker))
        (run h rcv (WalkFiles_loop fuel sc walker []) w1).
Proof.
  intros H. unfold WalkFiles. rewrite run_call_bind, H. reflexivity.
Qed.

(** C4: when the walker shows the entries [ws] without error and its
    next step reports the error [e], [WalkFiles] hands [e] to
    [ConnectionLostHandler] and, once the reconnect signal that [e] may
    give rise to is taken, returns the paths of the entries of [ws] that
    are not directories, together with [e]; the walker is not stepped
    again, and whatever it would show after the failing step plays no
    part. *)
Theorem WalkFiles_stops_at_first_error :
  forall (W : Type) (h : Handler W) (rcv : Receiver W) (w w1 w2 : W)
         (sc : sftpClient) (remoteDir : string) (walker last bad : Walker)
         (ws : list Walker) (e : string) (fuel : nat),
    h _ (Client_Walk (Client sc) remoteDir) w = (Some walker, w1) ->
    visits walker ws last ->
    Forall (fun x => Err x = None) ws ->
    Step last = (true, bad) ->
    Err bad = Some e ->
    length ws < fuel ->
    signal_taken rcv sc (Some e) w1 w2 ->
    run h rcv (WalkFiles fuel sc remoteDir) w =
    mkSync (Done (Some (collected ws, Some e))) w2
      (ObsCall (Client_Walk (Client sc) remoteDir) (Some walker) ::
       told sc (Some e)).
Proof.
  intros W h rcv w w1 w2 sc remoteDir walker last bad ws e fuel
         Hwalk Hvis Hok Hstep Herr Hfuel Htaken.
  rewrite (run_WalkFiles h rcv w w1 sc remoteDir walker fuel Hwalk).
  replace fuel with (length ws + S (fuel - S (length ws))) by lia.
  rewrite (WalkFiles_loop_visits sc walker last ws Hvis Hok).
  rewrite (WalkFiles_loop_error sc last bad _ _ e Hstep Herr).
  rewrite (run_handler_then_return h rcv w1 w2 sc e _ Htaken).
  reflexivity.
Qed.

(** A walk of [/reports] that loses the connection at its third entry,
    beside a supervisor that takes the reconnect request: the one file
    seen before is returned with the error, the file after is not. *)
Lemma WalkFiles_stops_at_first_error_witness :
  run (serve (walking (list_walker broken_walk))) waiting
    (WalkFiles 10 connected "/reports") tt =
  mkSync (Done (Some (["/reports/a.txt"%string], Some "connection lost"%string))) tt
    [ObsCall (Client_Walk (Some 1) "/reports") (Some (list_walker broken_walk));
     ObsOut (slog_Info "Reconnecting...");
     ObsOut (chan_send ch_reconnect true)].
Proof.
  pose (e1 := {| entry_path := "/reports"; entry_isDir := true;
                 entry_err := None |}).
  pose (e2 := {| entry_path := "/reports/a.txt"; entry_isDir := false;
                 entry_err := None |}).
  pose (e3 := {| entry_path := "/reports/sub"; entry_isDir := true;
                 entry_err := Some "connection lost"%string |}).
  pose (e4 := {| entry_path := "/reports/sub/b.txt"; entry_isDir := false;
                 entry_err := None |}).
  pose (wA := list_walker_at (e1, [e2; e3; e4])).
  pose (wB := list_walker_at (e2, [e3; e4])).
  assert (Hvis : visits (list_walker broken_walk) [wA; wB] wB).
  { apply visits_step; [reflexivity |].
    apply visits_step; [reflexivity |]. apply visits_done. }
  assert (Hok : Forall (fun x => Err x = None) [wA; wB])
    by (repeat constructor).
  exact (WalkFiles_stops_at_first_error
           unit (serve (walking (list_walker broken_walk))) waiting tt tt tt
           connected "/reports" (list_walker broken_walk) wB
           (list_walker_at (e3, [e4])) [wA; wB] "connection lost" 10
           eq_refl Hvis Hok eq_refl eq_refl ltac:(simpl; lia) eq_refl).
Defined.

(** The same walk beside a supervisor that takes nothing: the walk is
    blocked in the reconnect signal and returns nothing. *)
Lemma WalkFiles_blocks_while_the_signal_is_not_taken {W : Type}
    (h : Handler W) (rcv : Receiver W) (w w1 : W) (sc : sftpClient)
    (remoteDir : string) (walker last bad : Walker) (ws : list Walker)
    (e : string) (fuel : nat) :
  h _ (Client_Walk (Client sc) remoteDir) w = (Some walker, w1) ->
  visits walker ws last ->
  Forall (fun x => Err x = None) ws ->
  Step last = (true, bad) ->
  Err bad = Some e ->
  length ws < fuel ->
  Contains e "connection lost" = true ->
  rcv (reconnect sc) true w1 = None ->
  run h rcv (WalkFiles fuel sc remoteDir) w =
  mkSync Blocks w1
    (ObsCall (Client_Walk (Client sc) remoteDir) (Some walker) :: signalling sc).
Proof.
  intros Hwalk Hvis Hok Hstep Herr Hfuel Hlost Hnone.
  rewrite (run_WalkFiles h rcv w w1 sc remoteDir walker fuel Hwalk).
  replace fuel with (length ws + S (fuel - S (length ws))) by lia.
  rewrite (WalkFiles_loop_visits sc walker last ws Hvis Hok).
  rewrite (WalkFiles_loop_error sc last bad _ _ e Hstep Herr).
  rewrite run_bind, run_ConnectionLostHandler, Hlost, Hnone. reflexivity.
Qed.

(** ** OpenFile, Files, MoveFile and RemoveFile on a failure *)

(** X1: when [Open] answers, [OpenFile] returns the library's error
    as it is.  With an error it logs, hands the error to
    [ConnectionLostHandler] and, once the reconnect signal the error may
    give rise to is taken, returns a nil file, whatever handle the
    library gave; without error it returns the handle and says
    nothing. *)
Theorem OpenFile_returns_file_or_error :
  forall (W : Type) (h : Handler W) (rcv : Receiver W) (w w1 w2 : W)
         (sc : sftpClient) (remoteFile : string) (file : option sftp_File)
         (err : error),
    h _ (Client_Open (Client sc) remoteFile) w = (Some (file, err), w1) ->
    signal_taken rcv sc err w1 w2 ->
    run h rcv (OpenFile sc remoteFile) w =
    mkSync (Done (if is_nil err then file else None, err)) w2
      (ObsCall (Client_Open (Client sc) remoteFile) (Some (file, err)) ::
       match err with
       | Some msg =>
           ObsOut (slog_Error
                     ("Error opening file " ++ remoteFile ++ ": " ++ msg)%string
                     None) :: told sc err
       | None => []
       end).
Proof.
  intros W h rcv w w1 w2 sc remoteFile file err H Htaken.
  unfold OpenFile. rewrite run_call_bind, H. cbn [fst snd].
  destruct err as [msg |].
  - rewrite run_log_bind.
    rewrite (run_handler_then_return h rcv w1 w2 sc msg _ Htaken).
    reflexivity.
  - unfold signal_taken in Htaken. cbn in Htaken. now subst w2.
Qed.

(** Opening a file that is missing: the error comes back with a nil
    file and no reconnect is asked for, whatever the supervisor does. *)
Lemma OpenFile_returns_file_or_error_witness :
  run (serve not_found) parked (OpenFile connected "/in/a.csv") tt =
  mkSync (Done (None, Some "file does not exist"%string)) tt
    [ObsCall (Client_Open (Some 1) "/in/a.csv")
       (Some (None, Some "file does not exist"%string));
     ObsOut (slog_Error "Error opening file /in/a.csv: file does not exist" None)].
Proof.
  exact (OpenFile_returns_file_or_error unit (serve not_found) parked tt tt tt
           connected "/in/a.csv" None (Some "file does not exist"%string)
           eq_refl eq_refl).
Defined.

(** X2: [Files] never reports a failure.  When [ReadDir] answers with
    an error, the error is logged and handed to [ConnectionLostHandler],
    and once the reconnect signal it may give rise to is taken the
    result is the empty list, whatever entries came with the error;
    without error the result is the listing. *)
Theorem Files_swallows_the_error :
  forall (W : Type) (h : Handler W) (rcv : Receiver W) (w w1 w2 : W)
         (sc : sftpClient) (remoteDir : string) (entries : list FileInfo)
         (err : error),
    h _ (Client_ReadDir (Client sc) remoteDir) w = (Some (entries, err), w1) ->
    signal_taken rcv sc err w1 w2 ->
    run h rcv (Files sc remoteDir) w =
    mkSync (Done (if is_nil err then entries else [])) w2
      (ObsCall (Client_ReadDir (Client sc) remoteDir) (Some (entries, err)) ::
       match err with
       | Some _ => ObsOut (slog_Error "Failed to read directory:" err) :: told sc err
       | None => []
       end).
Proof.
  intros W h rcv w w1 w2 sc remoteDir entries err H Htaken.
  unfold Files. rewrite run_call_bind, H. cbn [fst snd].
  destruct err as [msg |].
  - rewrite run_log_bind.
    rewrite (run_handler_then_return h rcv w1 w2 sc msg _ Htaken).
    reflexivity.
  - unfold signal_taken in Htaken. cbn in Htaken. now subst w2.
Qed.

(** Listing a directory over a lost connection, beside a supervisor
    that takes the request: an empty listing. *)
Lemma Files_swallows_the_error_witness :
  run (serve unreachable) waiting (Files connected "/in") tt =
  mkSync (Done []) tt
    [ObsCall (Client_ReadDir (Some 1) "/in") (Some ([], Some "connection lost"%string));
     ObsOut (slog_Error "Failed to read directory:" (Some "connection lost"%string));
     ObsOut (slog_Info "Reconnecting...");
     ObsOut (chan_send ch_reconnect true)].
Proof.
  exact (Files_swallows_the_error unit (serve unreachable) waiting tt tt tt
           connected "/in" [] (Some "connection lost"%string) eq_refl eq_refl).
Defined.

(** X3: when [Rename] fails, [MoveFile] hands the error to
    [ConnectionLostHandler] and, once the reconnect signal it may give
    rise to is taken, returns the very error of [Rename]; nothing else
    is called. *)
Theorem MoveFile_returns_the_error_of_Rename :
  forall (W : Type) (h : Handler W) (rcv : Receiver W) (w w1 w2 : W)
         (sc : sftpClient) (sourcePath destPath msg : string),
    h _ (Client_Rename (Client sc) sourcePath destPath) w = (Some (Some msg), w1) ->
    signal_taken rcv sc (Some msg) w1 w2 ->
    run h rcv (MoveFile sc sourcePath destPath) w =
    mkSync (Done (Some msg)) w2
      (ObsCall (Client_Rename (Client sc) sourcePath destPath) (Some (Some msg)) ::
       told sc (Some msg)).
Proof.
  intros W h rcv w w1 w2 sc sourcePath destPath msg H Htaken.
  unfold MoveFile. rewrite run_call_bind, H. cbn [fst snd].
  rewrite (run_handler_then_return h rcv w1 w2 sc msg _ Htaken).
  reflexivity.
Qed.

(** Moving a file over a lost connection, beside a supervisor that
    takes the request. *)
Lemma MoveFile_returns_the_error_of_Rename_witness :
  run (serve unreachable) waiting (MoveFile connected "/in/a.csv" "/done/a.csv") tt =
  mkSync (Done (Some "connection lost"%string)) tt
    [ObsCall (Client_Rename (Some 1) "/in/a.csv" "/done/a.csv")
       (Some (Some "connection lost"%string));
     ObsOut (slog_Info "Reconnecting...");
     ObsOut (chan_send ch_reconnect true)].
Proof.
  exact (MoveFile_returns_the_error_of_Rename unit (serve unreachable) waiting
           tt tt tt connected "/in/a.csv" "/done/a.csv" "connection lost"
           eq_refl eq_refl).
Defined.

(** X4: when [Remove] fails, [RemoveFile] hands the error to
    [ConnectionLostHandler] and, once the reconnect signal it may give
    rise to is taken, returns the very error of [Remove]; nothing else
    is called. *)
Theorem RemoveFile_returns_the_error_of_Remove :
  forall (W : Type) (h : Handler W) (rcv : Receiver W) (w w1 w2 : W)
         (sc : sftpClient) (dirPath msg : string),
    h _ (Client_Remove (Client sc) dirPath) w = (Some (Some msg), w1) ->
    signal_taken rcv sc (Some msg) w1 w2 ->
    run h rcv (RemoveFile sc dirPath) w =
    mkSync (Done (Some msg)) w2
      (ObsCall (Client_Remove (Client sc) dirPath) (Some (Some msg)) ::
       told sc (Some msg)).
Proof.
  intros W h rcv w w1 w2 sc dirPath msg H Htaken.
  unfold RemoveFile. rewrite run_call_bind, H. cbn [fst snd].
  rewrite (run_handler_then_return h rcv w1 w2 sc msg _ Htaken).
  reflexivity.
Qed.

(** Removing a file that is missing: the error comes back and no
    reconnect is asked for, whatever the supervisor does. *)
Lemma RemoveFile_returns_the_error_of_Remove_witness :
  run (serve not_found) parked (RemoveFile connected "/in/a.csv") tt =
  mkSync (Done (Some "file does not exist"%string)) tt
    [ObsCall (Client_Remove (Some 1) "/in/a.csv")
       (Some (Some "file does not exist"%string))].
Proof.
  exact (RemoveFile_returns_the_error_of_Remove unit (serve not_found) parked
           tt tt tt connected "/in/a.csv" "file does not exist" eq_refl eq_refl).
Defined.

(** Callers of an operation that signals are blocked while the signal
    is not taken: two moves over a lost connection beside a supervisor
    whose status nobody receives, which takes one request. *)
Example second_signal_blocks :
  run (serve_beside unreachable) takes_one
    (MoveFile connected "/in/a.csv" "/done/a.csv" ;;
     MoveFile connected "/in/b.csv" "/done/b.csv") true =
  mkSync Blocks false
    [ObsCall (Client_Rename (Some 1) "/in/a.csv" "/done/a.csv")
       (Some (Some "connection lost"%string));
     ObsOut (slog_Info "Reconnecting...");
     ObsOut (chan_send ch_reconnect true);
     ObsCall (Client_Rename (Some 1) "/in/b.csv" "/done/b.csv")
       (Some (Some "connection lost"%string));
     ObsOut (slog_Info "Reconnecting...");
     ObsOut (chan_send ch_reconnect true)].
Proof. reflexivity. Qed.

(** ** PutFile with a receiver *)

(** X7: when the local file cannot be opened, [PutFile] logs the
    error of [os.Open], hands it to [ConnectionLostHandler] and, once
    the reconnect signal it may give rise to is taken, returns it: no
    directory is tried, no remote file is created and nothing is
    closed. *)
Theorem PutFile_stops_when_the_local_file_does_not_open :
  forall (W : Type) (h : Handler W) (rcv : Receiver W) (w w1 w2 : W)
         (sc : sftpClient) (localFile remoteFile msg : string)
         (srcFile : option os_File),
    h _ (os_Open localFile) w = (Some (srcFile, Some msg), w1) ->
    signal_taken rcv sc (Some msg) w1 w2 ->
    run h rcv (PutFile sc localFile remoteFile) w =
    mkSync (Done (Some msg)) w2
      (ObsCall (os_Open localFile) (Some (srcFile, Some msg)) ::
       ObsOut (slog_Error "Open file" (Some msg)) ::
       told sc (Some msg)).
Proof.
  intros W h rcv w w1 w2 sc localFile remoteFile msg srcFile H Htaken.
  unfold PutFile. rewrite run_call_bind, H. cbn [fst snd].
  rewrite run_log_bind.
  rewrite (run_handler_then_return h rcv w1 w2 sc msg _ Htaken).
  reflexivity.
Qed.

(** Uploading a local file that does not exist, whatever the
    supervisor does. *)
Lemma PutFile_stops_when_the_local_file_does_not_open_witness :
  run (serve not_found) parked (PutFile connected "local.txt" "/a/b/c.txt") tt =
  mkSync (Done (Some "open local.txt: no such file or directory"%string)) tt
    [ObsCall (os_Open "local.txt")
       (Some (None, Some "open local.txt: no such file or directory"%string));
     ObsOut (slog_Error "Open file"
               (Some "open local.txt: no such file or directory"%string))].
Proof.
  exact (PutFile_stops_when_the_local_file_does_not_open
           unit (serve not_found) parked tt tt tt connected "local.txt"
           "/a/b/c.txt" "open local.txt: no such file or directory" None
           eq_refl eq_refl).
Defined.

Lemma run_PutFile {W : Type} (h : Handler W) (rcv : Receiver W) (w w1 : W)
    (sc : sftpClient) (localFile remoteFile : string)
    (srcFile : option os_File) :
  h _ (os_Open localFile) w = (Some (srcFile, None), w1) ->
  run h rcv (PutFile sc localFile remoteFile) w =
  heard (ObsCall (os_Open localFile) (Some (srcFile, None)))
    (run h rcv
       (defer (call (os_File_Close srcFile) ;; Ret tt)
          (make_remote_directories sc remoteFile ;;
           PutFile_write sc srcFile remoteFile)) w1).
Proof.
  intros H. unfold PutFile. rewrite run_call_bind, H. reflexivity.
Qed.

(** X8: once the local file is open, [PutFile] closes it as its last
    call on every path on which it is not blocked, also when a call to
    the server panics, and the error of that close is dropped: the
    upload ends as its remote part does.  When the remote part is
    blocked in a reconnect signal that is not taken, the upload is
    blocked with it and the local file is not closed. *)
Theorem PutFile_closes_the_local_file_last :
  forall (W : Type) (h : Handler W) (rcv : Receiver W) (w w1 : W)
         (sc : sftpClient) (localFile remoteFile : string)
         (srcFile : option os_File),
    h _ (os_Open localFile) w = (Some (srcFile, None), w1) ->
    let body := run h rcv (make_remote_directories sc remoteFile ;;
                           PutFile_write sc srcFile remoteFile) w1 in
    let x := fst (h _ (os_File_Close srcFile) (after body)) in
    let r := run h rcv (PutFile sc localFile remoteFile) w in
    seen r =
      ObsCall (os_Open localFile) (Some (srcFile, None)) ::
      seen body ++
      match fate body with
      | Blocks => []
      | _ => [ObsCall (os_File_Close srcFile) x]
      end /\
    fate r = match fate body with
             | Blocks => Blocks
             | f => match x with
                    | Some _ => f
                    | None => Panics
                    end
             end.
Proof.
  intros W h rcv w w1 sc localFile remoteFile srcFile H body x r. subst r.
  rewrite (run_PutFile h rcv w w1 sc localFile remoteFile srcFile H).
  rewrite run_defer. cbv zeta. fold body. rewrite run_close. fold x.
  unfold heard.
  destruct (fate body) as [a | |]; cbn [fate seen];
    try (split; [now rewrite ?app_nil_r | reflexivity]);
    destruct x; split; reflexivity.
Qed.

(** An upload over a lost connection beside a supervisor that takes
    the request: [Create] fails, nothing is copied, the local file is
    closed last and the error comes back. *)
Lemma PutFile_closes_the_local_file_last_witness :
  let r := run (serve unreachable) waiting
             (PutFile connected "local.txt" "/c.txt") tt in
  seen r =
    [ObsCall (os_Open "local.txt") (Some (Some 1, None));
     ObsCall (Client_Mkdir (Some 1) "/") (Some (Some "connection lost"%string));
     ObsCall (Client_Mkdir (Some 1) "/") (Some (Some "connection lost"%string));
     ObsCall (Client_Create (Some 1) "/c.txt")
       (Some (None, Some "connection lost"%string));
     ObsOut (slog_Error "Create remote file" (Some "connection lost"%string));
     ObsOut (slog_Info "Reconnecting...");
     ObsOut (chan_send ch_reconnect true);
     ObsCall (os_File_Close (Some 1)) (Some None)] /\
  fate r = Done (Some "connection lost"%string).
Proof.
  exact (PutFile_closes_the_local_file_last unit (serve unreachable) waiting
           tt tt connected "local.txt" "/c.txt" (Some 1) eq_refl).
Defined.

(** The same upload beside a supervisor that takes nothing: it is
    blocked in the signal, and the local file stays open. *)
Example PutFile_blocked_leaves_the_local_file_open :
  run (serve unreachable) parked (PutFile connected "local.txt" "/c.txt") tt =
  mkSync Blocks tt
    [ObsCall (os_Open "local.txt") (Some (Some 1, None));
     ObsCall (Client_Mkdir (Some 1) "/") (Some (Some "connection lost"%string));
     ObsCall (Client_Mkdir (Some 1) "/") (Some (Some "connection lost"%string));
     ObsCall (Client_Create (Some 1) "/c.txt")
       (Some (None, Some "connection lost"%string));
     ObsOut (slog_Error "Create remote file" (Some "connection lost"%string));
     ObsOut (slog_Info "Reconnecting...");
     ObsOut (chan_send ch_reconnect true)].
Proof. reflexivity. Qed.

(** X10: when the remote file cannot be created, [PutFile] logs the
    error of [Create], hands it to [ConnectionLostHandler] and, once the
    reconnect signal it may give rise to is taken, returns it; nothing
    is copied, the handle that came with the error is not closed, and
    the local file is. *)
Theorem PutFile_stops_when_the_remote_file_is_not_created :
  forall (W : Type) (h : Handler W) (rcv : Receiver W) (w w1 w2 w3 w4 : W)
         (sc : sftpClient) (localFile remoteFile msg : string)
         (srcFile : option os_File) (dstFile : option sftp_File) (e2 : error),
    h _ (os_Open localFile) w = (Some (srcFile, None), w1) ->
    let m := exec h (make_remote_directories sc remoteFile) w1 in
    outcome m = Returned tt ->
    h _ (Client_Create (Client sc) remoteFile) (world m) =
      (Some (dstFile, Some msg), w2) ->
    signal_taken rcv sc (Some msg) w2 w3 ->
    h _ (os_File_Close srcFile) w3 = (Some e2, w4) ->
    run h rcv (PutFile sc localFile remoteFile) w =
    mkSync (Done (Some msg)) w4
      (ObsCall (os_Open localFile) (Some (srcFile, None)) ::
       trace m ++
       ObsCall (Client_Create (Client sc) remoteFile) (Some (dstFile, Some msg)) ::
       ObsOut (slog_Error "Create remote file" (Some msg)) ::
       told sc (Some msg) ++
       [ObsCall (os_File_Close srcFile) (Some e2)]).
Proof.
  intros W h rcv w w1 w2 w3 w4 sc localFile remoteFile msg srcFile dstFile e2
         Hopen m Hm Hcreate Htaken Hsrc.
  assert (Hbody : run h rcv (make_remote_directories sc remoteFile ;;
                             PutFile_write sc srcFile remoteFile) w1 =
                  mkSync (Done (Some msg)) w3
                    (trace m ++
                     ObsCall (Client_Create (Client sc) remoteFile)
                       (Some (dstFile, Some msg)) ::
                     ObsOut (slog_Error "Create remote file" (Some msg)) ::
                     told sc (Some msg))).
  { rewrite run_bind.
    rewrite (run_sendless h rcv _ (sendless_make_remote_directories sc remoteFile)).
    fold m. unfold seq_sync, as_sync. cbn [fate after seen]. rewrite Hm.
    unfold PutFile_write. rewrite run_call_bind, Hcreate. cbn [fst snd].
    rewrite run_log_bind.
    rewrite (run_handler_then_return h rcv w2 w3 sc msg _ Htaken).
    reflexivity. }
  rewrite (run_PutFile h rcv w w1 sc localFile remoteFile srcFile Hopen).
  rewrite run_defer. cbv zeta. rewrite Hbody. cbn [fate after seen].
  rewrite run_close, Hsrc. unfold heard. cbn [fst snd fate after seen].
  f_equal. f_equal. rewrite <- app_assoc. reflexivity.
Qed.

(** An upload over a lost connection, beside a supervisor that takes
    the request. *)
Lemma PutFile_stops_when_the_remote_file_is_not_created_witness :
  run (serve unreachable) waiting (PutFile connected "local.txt" "/c.txt") tt =
  mkSync (Done (Some "connection lost"%string)) tt
    [ObsCall (os_Open "local.txt") (Some (Some 1, None));
     ObsCall (Client_Mkdir (Some 1) "/") (Some (Some "connection lost"%string));
     ObsCall (Client_Mkdir (Some 1) "/") (Some (Some "connection lost"%string));
     ObsCall (Client_Create (Some 1) "/c.txt")
       (Some (None, Some "connection lost"%string));
     ObsOut (slog_Error "Create remote file" (Some "connection lost"%string));
     ObsOut (slog_Info "Reconnecting...");
     ObsOut (chan_send ch_reconnect true);
     ObsCall (os_File_Close (Some 1)) (Some None)].
Proof.
  exact (PutFile_stops_when_the_remote_file_is_not_created
           unit (serve unreachable) waiting tt tt tt tt tt connected
           "local.txt" "/c.txt" "connection lost" (Some 1) None None
           eq_refl eq_refl eq_refl eq_refl eq_refl).
Defined.

(** ** PutString with a receiver *)

(** The copy of the text and the deferred close that end [PutString]. *)
Lemma run_PutString_copy {W : Type} (h : Handler W) (rcv : Receiver W)
    (dstFile : option sftp_File) (text : string) (w : W) :
  let copy := io_Copy dstFile (StringReader text) in
  let c := fst (h _ copy w) in
  let x := fst (h _ (File_Close dstFile) (snd (h _ copy w))) in
  run h rcv
    (defer (call (File_Close dstFile) ;; Ret tt)
       ('(_, err) <- call (io_Copy dstFile (StringReader text)) ;;
        match err with
        | Some _ => emit (slog_Error "Copy a text to remote:" err)
        | None => Ret tt
        end ;; Ret None)) w =
  mkSync (match c, x with
          | Some _, Some _ => Done (None : error)
          | _, _ => Panics
          end)
         (snd (h _ (File_Close dstFile) (snd (h _ copy w))))
         (ObsCall copy c :: copy_log c ++ [ObsCall (File_Close dstFile) x]).
Proof.
  cbv zeta. unfold call, emit. cbn [bind defer run].
  destruct (h _ (io_Copy dstFile (StringReader text)) w) as [[[n [e |]] |] w3];
    cbn [bind defer run fst snd];
    destruct (h _ (File_Close dstFile) w3) as [[y |] w4]; reflexivity.
Qed.

(** C9: when the directories were tried and [Create] answers with an
    error, [PutString] does not return: it logs the error, hands it to
    [ConnectionLostHandler] and, once the reconnect signal the error may
    give rise to is taken, goes on: the text is copied into the handle
    [Create] gave back (nil, when the library reports the error), and
    that handle is closed, whatever the copy did. *)
Theorem PutString_goes_on_after_Create_error :
  forall (W : Type) (h : Handler W) (rcv : Receiver W) (w w3 : W)
         (sc : sftpClient) (text remoteFile : string)
         (dstFile : option sftp_File) (msg : string),
    let m := exec h (make_remote_directories sc remoteFile) w in
    let create := Client_Create (Client sc) remoteFile in
    outcome m = Returned tt ->
    fst (h _ create (world m)) = Some (dstFile, Some msg) ->
    signal_taken rcv sc (Some msg) (snd (h _ create (world m))) w3 ->
    let copy := io_Copy dstFile (StringReader text) in
    let c := fst (h _ copy w3) in
    let x := fst (h _ (File_Close dstFile) (snd (h _ copy w3))) in
    run h rcv (PutString sc text remoteFile) w =
    mkSync (match c, x with
            | Some _, Some _ => Done None
            | _, _ => Panics
            end)
           (snd (h _ (File_Close dstFile) (snd (h _ copy w3))))
           (trace m ++
            [ObsCall create (Some (dstFile, Some msg));
             ObsOut (slog_Error "Open a file on the remote:" (Some msg))] ++
            told sc (Some msg) ++
            ObsCall copy c :: copy_log c ++ [ObsCall (File_Close dstFile) x]).
Proof.
  intros W h rcv w w3 sc text remoteFile dstFile msg m create Hm Hcreate
         Htaken copy c x.
  rewrite PutString_unfold, run_bind.
  rewrite (run_sendless h rcv _ (sendless_make_remote_directories sc remoteFile)).
  fold m. unfold seq_sync, as_sync. cbn [fate after seen]. rewrite Hm.
  unfold PutString_write. rewrite run_call_bind. fold create.
  rewrite Hcreate. rewrite run_bind.
  change (run h rcv (emit (slog_Error "Open a file on the remote:" (Some msg)) ;;
                     ConnectionLostHandler sc (Some msg))
            (snd (h _ create (world m))))
    with (heard (ObsOut (slog_Error "Open a file on the remote:" (Some msg)))
            (run h rcv (ConnectionLostHandler sc (Some msg))
               (snd (h _ create (world m))))).
  rewrite (run_handler_taken h rcv _ w3 sc msg Htaken).
  unfold seq_sync, heard. cbn [fate after seen].
  rewrite run_PutString_copy. cbv zeta. fold copy c x.
  cbn [fate after seen app]. reflexivity.
Qed.

(** [PutString] on a server that lost the connection, beside a
    supervisor that takes the request: [Create] fails with a nil handle,
    the copy and the close are called on it. *)
Lemma PutString_goes_on_after_Create_error_witness :
  seen (run (serve unreachable) waiting
          (PutString connected "hello" "/a/b/c.txt") tt) =
    [ObsCall (Client_Mkdir (Some 1) "/") (Some (Some "connection lost"%string));
     ObsCall (Client_Mkdir (Some 1) "/a") (Some (Some "connection lost"%string));
     ObsCall (Client_Mkdir (Some 1) "/a/b") (Some (Some "connection lost"%string));
     ObsCall (Client_Create (Some 1) "/a/b/c.txt")
             (Some (None, Some "connection lost"%string));
     ObsOut (slog_Error "Open a file on the remote:" (Some "connection lost"%string));
     ObsOut (slog_Info "Reconnecting...");
     ObsOut (chan_send ch_reconnect true);
     ObsCall (io_Copy None (StringReader "hello")) None;
     ObsCall (File_Close None) None].
Proof.
  exact (f_equal seen
           (PutString_goes_on_after_Create_error unit (serve unreachable)
              waiting tt tt connected "hello" "/a/b/c.txt" None
              "connection lost" eq_refl eq_refl eq_refl)).
Defined.

(** While the signal is not taken [PutString] is blocked in it: neither
    the copy nor the close is reached. *)
Lemma PutString_blocks_while_the_signal_is_not_taken {W : Type}
    (h : Handler W) (rcv : Receiver W) (w : W) (sc : sftpClient)
    (text remoteFile : string) (dstFile : option sftp_File) (msg : string) :
  let m := exec h (make_remote_directories sc remoteFile) w in
  let create := Client_Create (Client sc) remoteFile in
  outcome m = Returned tt ->
  fst (h _ create (world m)) = Some (dstFile, Some msg) ->
  Contains msg "connection lost" = true ->
  rcv (reconnect sc) true (snd (h _ create (world m))) = None ->
  run h rcv (PutString sc text remoteFile) w =
  mkSync Blocks (snd (h _ create (world m)))
    (trace m ++
     [ObsCall create (Some (dstFile, Some msg));
      ObsOut (slog_Error "Open a file on the remote:" (Some msg))] ++
     signalling sc).
Proof.
  intros m create Hm Hcreate Hlost Hnone.
  rewrite PutString_unfold, run_bind.
  rewrite (run_sendless h rcv _ (sendless_make_remote_directories sc remoteFile)).
  fold m. unfold seq_sync, as_sync. cbn [fate after seen]. rewrite Hm.
  unfold PutString_write. rewrite run_call_bind. fold create.
  rewrite Hcreate. rewrite run_bind.
  change (run h rcv (emit (slog_Error "Open a file on the remote:" (Some msg)) ;;
                     ConnectionLostHandler sc (Some msg))
            (snd (h _ create (world m))))
    with (heard (ObsOut (slog_Error "Open a file on the remote:" (Some msg)))
            (run h rcv (ConnectionLostHandler sc (Some msg))
               (snd (h _ create (world m))))).
  rewrite run_ConnectionLostHandler, Hlost, Hnone.
  reflexivity.
Qed.

(** ** GetRecords with a receiver *)

Lemma run_GetRecords_read {W : Type} (h : Handler W) (rcv : Receiver W) (w : W)
    (remoteFile : string)
    (reader : Prog (list (list string) * error)) :
  run h rcv
    ('(contents, err) <- reader ;;
     match err with
     | Some msg =>
         emit (slog_Error ("Error reading file " ++ remoteFile ++ ": " ++ msg)%string
                 None) ;;
         Ret ([], err)
     | None => Ret (contents, None)
     end) w =
  mkSync (records_of_sync (run h rcv reader w)) (after (run h rcv reader w))
    (seen (run h rcv reader w) ++ reading_log_sync remoteFile (run h rcv reader w)).
Proof.
  rewrite run_bind. unfold seq_sync, records_of_sync, reading_log_sync.
  destruct (fate (run h rcv reader w)) as [[contents [msg |]] | |];
    cbn [run bind emit heard fate after seen];
    try reflexivity.
  all: now rewrite app_nil_r.
Qed.

(** X6: when [Open] fails, [GetRecords] hands the error to
    [ConnectionLostHandler] twice before it reads, once in [OpenFile]
    and once itself.  For an error that does not ask for a reconnect the
    reader is run at once, on a nil file, nothing is closed, and what
    comes back is what the reader makes of the nil file.  For a
    "connection lost" error the two calls are two reconnect signals:
    [GetRecords] is blocked in the first as long as it is not taken, in
    the second as long as that is not taken, and the reader is run only
    when both were. *)
Theorem GetRecords_reads_a_nil_file_after_an_open_error :
  forall (W : Type) (h : Handler W) (rcv : Receiver W) (w w1 : W)
         (sc : sftpClient) (remoteFile : string)
         (onReader : option sftp_File -> Prog (list (list string) * error))
         (file : option sftp_File) (msg : string),
    h _ (Client_Open (Client sc) remoteFile) w = (Some (file, Some msg), w1) ->
    let opened :=
      [ObsCall (Client_Open (Client sc) remoteFile) (Some (file, Some msg));
       ObsOut (slog_Error ("Error opening file " ++ remoteFile ++ ": " ++ msg)%string
                 None)] in
    let reads := fun (w' : W) (signals : list Obs) =>
      let rd := run h rcv (onReader None) w' in
      mkSync (records_of_sync rd) (after rd)
        (opened ++ signals ++ seen rd ++ reading_log_sync remoteFile rd) in
    run h rcv (GetRecords sc remoteFile onReader) w =
    if Contains msg "connection lost"
    then match rcv (reconnect sc) true w1 with
         | None => mkSync Blocks w1 (opened ++ signalling sc)
         | Some w2 =>
             match rcv (reconnect sc) true w2 with
             | None => mkSync Blocks w2 (opened ++ signalling sc ++ signalling sc)
             | Some w3 => reads w3 (signalling sc ++ signalling sc)
             end
         end
    else reads w1 [].
Proof.
  intros W h rcv w w1 sc remoteFile onReader file msg H opened reads.
  unfold GetRecords. rewrite run_bind.
  unfold OpenFile at 1. rewrite run_call_bind, H. cbn [fst snd].
  rewrite run_log_bind, run_bind, run_ConnectionLostHandler.
  destruct (Contains msg "connection lost") eqn:Hlost.
  - destruct (rcv (reconnect sc) true w1) as [w2 |] eqn:H1;
      [| reflexivity].
    unfold seq_sync, heard. cbn [fate after seen run app].
    rewrite run_bind, run_ConnectionLostHandler, Hlost.
    destruct (rcv (reconnect sc) true w2) as [w3 |] eqn:H2;
      [| reflexivity].
    unfold seq_sync. cbn [fate after seen].
    rewrite run_GetRecords_read. cbn [fate after seen].
    reflexivity.
  - unfold seq_sync, heard. cbn [fate after seen run app].
    rewrite run_bind, run_ConnectionLostHandler, Hlost.
    unfold seq_sync. cbn [fate after seen].
    rewrite run_GetRecords_read. cbn [fate after seen].
    reflexivity.
Qed.

(** Reading a file over a lost connection, beside a supervisor whose
    status nobody receives and which so takes one request:
    [GetRecords] is blocked in its own signal and the reader is not
    reached. *)
Lemma GetRecords_reads_a_nil_file_after_an_open_error_witness :
  run (serve_beside unreachable) takes_one
    (GetRecords connected "/in/a.csv" read_rows) true =
  mkSync Blocks false
    [ObsCall (Client_Open (Some 1) "/in/a.csv")
       (Some (None, Some "connection lost"%string));
     ObsOut (slog_Error "Error opening file /in/a.csv: connection lost" None);
     ObsOut (slog_Info "Reconnecting...");
     ObsOut (chan_send ch_reconnect true);
     ObsOut (slog_Info "Reconnecting...");
     ObsOut (chan_send ch_reconnect true)].
Proof.
  exact (GetRecords_reads_a_nil_file_after_an_open_error
           bool (serve_beside unreachable) takes_one true true connected
           "/in/a.csv" read_rows None "connection lost" eq_refl).
Defined.

(** The same read of a file that is missing: no signal, and the
    reader's error on the nil file comes back with no records. *)
Example GetRecords_reads_a_nil_file_when_the_file_is_missing :
  run (serve not_found) parked (GetRecords connected "/in/a.csv" read_rows) tt =
  mkSync (Done ([], Some "invalid argument"%string)) tt
    [ObsCall (Client_Open (Some 1) "/in/a.csv")
       (Some (None, Some "file does not exist"%string));
     ObsOut (slog_Error "Error opening file /in/a.csv: file does not exist" None);
     ObsOut (slog_Error "Error reading file /in/a.csv: invalid argument" None)].
Proof. reflexivity. Qed.

(** ** The directories of an upload, in closed form *)

Lemma joined_rooted (dirs : list string) :
  forall path, rooted path -> Forall rooted (joined path dirs).
Proof.
  induction dirs as [| d dirs IH]; intros path Hp; cbn [joined]; constructor.
  - now apply Join_rooted.
  - apply IH. now apply Join_rooted.
Qed.

Lemma mkdir_paths_rooted (remoteFile : string) :
  Forall rooted (mkdir_paths remoteFile).
Proof. apply joined_rooted. now exists EmptyString. Qed.

Lemma append_nil_r (s : string) : (s ++ "")%string = s.
Proof. induction s as [| c s IH]; [reflexivity |]. cbn [append]. now rewrite IH. Qed.

Lemma append_assoc (a b c : string) :
  (a ++ (b ++ c))%string = ((a ++ b) ++ c)%string.
Proof.
  induction a as [| x a IH]; [reflexivity |]. cbn [append]. now rewrite IH.
Qed.

Lemma concat_more (a : string) (l : list string) :
  l <> [] ->
  String.concat "/" (a :: l) = (a ++ "/" ++ String.concat "/" l)%string.
Proof. destruct l; [congruence | reflexivity]. Qed.

(** A plain element starts with a byte that is not the separator. *)
Lemma plain_head (e : string) :
  plain e ->
  exists c e', e = String c e' /\ Ascii.eqb c Separator = false.
Proof.
  intros (Hne & _ & _ & Hfree). destruct e as [| c e']; [congruence |].
  exists c, e'. split; [reflexivity |].
  cbn [Split] in Hfree.
  destruct (Ascii.eqb c Separator); [discriminate | reflexivity].
Qed.

Lemma relative_head (segs : list string) :
  segs <> [] -> Forall plain segs ->
  exists c t,
    String.concat "/" segs = String c t /\ Ascii.eqb c Separator = false.
Proof.
  intros Hne Hplain. destruct Hplain as [| e rest He Hrest]; [congruence |].
  destruct (plain_head e He) as (c & e' & -> & Hc).
  exists c. destruct rest as [| e2 rest]; eexists; split; try exact Hc;
    reflexivity.
Qed.

Lemma rooted_not_prefix (p : string) (c : ascii) (s : string) :
  rooted p -> Ascii.eqb c Separator = false -> prefix p (String c s) = false.
Proof.
  intros [r ->] Hc. cbn [prefix].
  destruct (ascii_dec Separator c) as [<- |]; [| reflexivity].
  now rewrite Ascii.eqb_refl in Hc.
Qed.

Lemma Clean_unrooted (c : ascii) (rest : string) :
  Ascii.eqb c Separator = false ->
  Clean (String c rest) =
  let out := String.concat "/"
               (clean_elems false (Split (String c rest) Separator) []) in
  if (out =? "")%string then "."%string else out.
Proof. intros H. unfold Clean. now rewrite H. Qed.

(** [Clean] leaves a relative path of plain elements as it is, apart
    from the separator at its end. *)
Lemma Clean_relative (segs : list string) :
  segs <> [] -> Forall plain segs ->
  Clean (String.concat "/" segs ++ String Separator "") =
  String.concat "/" segs.
Proof.
  intros Hne Hplain.
  destruct (relative_head segs Hne Hplain) as (c & t & Ha & Hc).
  assert (Hsplit : Split (String.concat "/" segs ++ String Separator "")
                     Separator = segs ++ [EmptyString]).
  { rewrite Split_app, Split_concat by (auto using Split_plain). reflexivity. }
  assert (Hstart : (String.concat "/" segs ++ String Separator "")%string =
                   String c (t ++ String Separator "")).
  { now rewrite Ha. }
  rewrite Hstart, (Clean_unrooted c _ Hc), <- Hstart, Hsplit. cbv zeta.
  rewrite clean_elems_plain_app by assumption.
  cbn [clean_elems String.eqb]. rewrite app_nil_r, rev_involutive.
  rewrite Ha. reflexivity.
Qed.

Lemma Dir_relative (segs : list string) (f : string) :
  segs <> [] -> Forall plain segs ->
  Split f Separator = [f] ->
  Dir (String.concat "/" segs ++ String Separator f) = String.concat "/" segs.
Proof.
  intros Hne Hplain Hf. unfold Dir.
  rewrite upto_last_separator_app by assumption.
  now apply Clean_relative.
Qed.

(** For a relative remote file [s1/.../sN/f] the directories tried are
    [/s1], [/s1/s2], ..., [/s1/.../sN]. *)
Lemma mkdir_paths_relative (segs : list string) (f : string) :
  segs <> [] -> Forall plain segs ->
  Split f Separator = [f] ->
  mkdir_paths (String.concat "/" segs ++ String Separator f) =
  ancestors [] segs.
Proof.
  intros Hne Hplain Hf. unfold mkdir_paths.
  rewrite Dir_relative, Split_concat by (auto using Split_plain).
  change (String Separator "") with (absolute []).
  apply joined_absolute; [assumption | constructor].
Qed.

Lemma concat_upto (l : list string) (e : string) (rest : list string) :
  exists t,
    String.concat "/" (l ++ e :: rest) =
    (String.concat "/" (l ++ [e]) ++ t)%string.
Proof.
  induction l as [| a l IH].
  - destruct rest as [| r rest].
    + exists EmptyString. cbn [app String.concat]. now rewrite append_nil_r.
    + exists ("/" ++ String.concat "/" (r :: rest))%string. reflexivity.
  - destruct IH as [t Ht]. exists t. cbn [app].
    rewrite !concat_more by (now destruct l).
    rewrite Ht, !append_assoc. reflexivity.
Qed.

(** The ancestors of an absolute path are prefixes of it. *)
Lemma ancestors_prefixes (segs : list string) :
  forall (above : list string) (tail : string),
    Forall (fun p => prefix p (absolute (above ++ segs) ++ tail) = true)
      (ancestors above segs).
Proof.
  induction segs as [| e rest IH]; intros above tail; cbn [ancestors];
    constructor.
  - apply prefix_app. destruct (concat_upto above e rest) as [t Ht].
    exists (t ++ tail)%string. unfold absolute. rewrite Ht.
    cbn [append]. now rewrite append_assoc.
  - replace (above ++ e :: rest) with ((above ++ [e]) ++ rest)
      by (now rewrite <- app_assoc).
    apply IH.
Qed.

Lemma no_Mkdir_run {W A : Type} (h : Handler W) (rcv : Receiver W) (p : Prog A) :
  no_Mkdir p -> forall w, mkdir_calls (seen (run h rcv p w)) = [].
Proof.
  induction p as [a | | o k IH | X e k IH]; cbn [no_Mkdir run];
    intros Hq w; try reflexivity.
  - destruct o as [msg | msg err | c v | g];
      try (cbn [heard seen mkdir_calls]; now apply IH).
    destruct (rcv c v w) as [w' |]; [| reflexivity].
    cbn [heard seen mkdir_calls]. now apply IH.
  - destruct Hq as [He Hk]. destruct (h X e w) as [x w1].
    cbn [heard seen mkdir_calls].
    destruct e; try (now apply IH). contradiction.
Qed.

(** [PutString] once its directory block returned. *)
Lemma run_PutString {W : Type} (h : Handler W) (rcv : Receiver W) (w : W)
    (sc : sftpClient) (text remoteFile : string) :
  let m := exec h (make_remote_directories sc remoteFile) w in
  let wr := run h rcv (PutString_write sc text remoteFile) (world m) in
  outcome m = Returned tt ->
  run h rcv (PutString sc text remoteFile) w =
  mkSync (fate wr) (after wr) (trace m ++ seen wr).
Proof.
  intros m wr Hm. rewrite PutString_unfold, run_bind.
  rewrite (run_sendless h rcv _ (sendless_make_remote_directories sc remoteFile)).
  fold m. unfold seq_sync, as_sync. cbn [fate after seen]. now rewrite Hm.
Qed.

(** The part of [PutFile] within the deferred close of the local file,
    once its directory block returned. *)
Lemma run_PutFile_body {W : Type} (h : Handler W) (rcv : Receiver W) (w : W)
    (sc : sftpClient) (srcFile : option os_File) (remoteFile : string) :
  let m := exec h (make_remote_directories sc remoteFile) w in
  let wr := run h rcv (PutFile_write sc srcFile remoteFile) (world m) in
  outcome m = Returned tt ->
  run h rcv (make_remote_directories sc remoteFile ;;
             PutFile_write sc srcFile remoteFile) w =
  mkSync (fate wr) (after wr) (trace m ++ seen wr).
Proof.
  intros m wr Hm. rewrite run_bind.
  rewrite (run_sendless h rcv _ (sendless_make_remote_directories sc remoteFile)).
  fold m. unfold seq_sync, as_sync. cbn [fate after seen]. now rewrite Hm.
Qed.

(** C7, amended: in a run whose [Mkdir] calls are answered, with an
    error or without, both uploads call [Mkdir] once per element of
    [Split (Dir remoteFile)], in order, on the [Join] of the root with
    the elements so far, so always on a path that starts at the root.
    For an absolute remote file [/s1/.../sN/f] these are the root and
    then [/s1], ..., [/s1/.../sN], from the root to the parent, each a
    prefix of the remote file.  For a relative remote file
    [s1/.../sN/f] they are the same [/s1], ..., [/s1/.../sN] below the
    root, none of which is a prefix of the remote file.  The errors of
    [Mkdir] are dropped: the directory block returns, and each upload
    ends as its writing part does, followed for [PutFile] by the close
    of the local file. *)
Theorem uploads_try_directories_from_root :
  forall (W : Type) (h : Handler W) (rcv : Receiver W) (w : W)
         (sc : sftpClient) (remoteFile : string),
    let m := exec h (make_remote_directories sc remoteFile) w in
    forallb answered (trace m) = true ->
    outcome m = Returned tt /\
    mkdir_calls (trace m) = mkdir_paths remoteFile /\
    length (mkdir_paths remoteFile) = length (Split (Dir remoteFile) Separator) /\
    Forall rooted (mkdir_paths remoteFile) /\
    (forall text,
       let r := run h rcv (PutString sc text remoteFile) w in
       mkdir_calls (seen r) = mkdir_paths remoteFile /\
       fate r = fate (run h rcv (PutString_write sc text remoteFile) (world m)) /\
       mkdir_calls (trace (exec h (PutString sc text remoteFile) w)) =
         mkdir_paths remoteFile /\
       outcome (exec h (PutString sc text remoteFile) w) =
         outcome (exec h (PutString_write sc text remoteFile) (world m))) /\
    (forall localFile srcFile w0,
       h _ (os_Open localFile) w0 = (Some (srcFile, None), w) ->
       let r := run h rcv (PutFile sc localFile remoteFile) w0 in
       let wr := run h rcv (PutFile_write sc srcFile remoteFile) (world m) in
       mkdir_calls (seen r) = mkdir_paths remoteFile /\
       fate r = match fate wr with
                | Blocks => Blocks
                | f => match fst (h _ (os_File_Close srcFile) (after wr)) with
                       | Some _ => f
                       | None => Panics
                       end
                end) /\
    (forall segs f,
       segs <> [] -> Forall plain segs -> Split f Separator = [f] ->
       remoteFile = (absolute segs ++ String Separator f)%string ->
       mkdir_paths remoteFile = absolute [] :: ancestors [] segs /\
       Forall (fun p => prefix p remoteFile = true) (mkdir_paths remoteFile)) /\
    (forall segs f,
       segs <> [] -> Forall plain segs -> Split f Separator = [f] ->
       remoteFile = (String.concat "/" segs ++ String Separator f)%string ->
       mkdir_paths remoteFile = ancestors [] segs /\
       Forall (fun p => prefix p remoteFile = false) (mkdir_paths remoteFile)).
Proof.
  intros W h rcv w sc remoteFile m Hans.
  destruct (make_remote_directories_run h w sc remoteFile Hans)
    as (Ho & Hcalls & Hlen).
  fold m in Ho, Hcalls, Hlen.
  split; [exact Ho |]. split; [exact Hcalls |].
  split; [apply joined_length |].
  split; [apply mkdir_paths_rooted |].
  split; [| split; [| split]].
  - intros text r. subst r.
    rewrite (run_PutString h rcv w sc text remoteFile Ho). fold m.
    cbn [fate seen]. split; [| split; [reflexivity | split]].
    + rewrite mkdir_calls_app, Hcalls.
      rewrite (no_Mkdir_run h rcv (PutString_write sc text remoteFile))
        by apply no_Mkdir_PutString_write.
      apply app_nil_r.
    + rewrite PutString_mkdir_calls. exact Hcalls.
    + rewrite PutString_unfold, exec_bind. unfold seq_run. fold m.
      now rewrite Ho.
  - intros localFile srcFile w0 Hopen r wr. subst r.
    rewrite (run_PutFile h rcv w0 w sc localFile remoteFile srcFile Hopen).
    rewrite run_defer. cbv zeta.
    rewrite (run_PutFile_body h rcv w sc srcFile remoteFile Ho).
    fold m. fold wr. cbn [fate after seen]. rewrite run_close.
    assert (Hwr : mkdir_calls (seen wr) = []).
    { apply no_Mkdir_run. apply no_Mkdir_PutFile_write. }
    unfold heard.
    destruct (fate wr) as [a | |]; cbn [fate seen mkdir_calls];
      rewrite ?mkdir_calls_app, Hwr, Hcalls; cbn [mkdir_calls];
      rewrite ?app_nil_r; split; try reflexivity;
      now destruct (fst (h _ (os_File_Close srcFile) (after wr))).
  - intros segs f Hne Hsegs Hf ->.
    rewrite mkdir_paths_absolute by assumption.
    destruct segs as [| s segs]; [congruence |]. split; [reflexivity |].
    constructor.
    + apply prefix_app. eexists. reflexivity.
    + apply (ancestors_prefixes (s :: segs) []).
  - intros segs f Hne Hsegs Hf ->. split.
    + now apply mkdir_paths_relative.
    + destruct (relative_head segs Hne Hsegs) as (c & t & Ha & Hc).
      rewrite Ha. cbn [append].
      eapply Forall_impl; [| apply mkdir_paths_rooted].
      intros p Hp. now apply rooted_not_prefix.
Qed.

(** Uploads to [/a/b/c.txt] on a server where every directory exists:
    [Mkdir] is called on [/], [/a] and [/a/b], fails each time, and
    [PutFile] still returns nil. *)
Lemma uploads_try_directories_from_root_witness :
  mkdir_calls (seen (run (serve directories_exist) waiting
                       (PutString connected "hello" "/a/b/c.txt") tt)) =
    ["/"; "/a"; "/a/b"]%string /\
  run (serve directories_exist) waiting
    (PutFile connected "local.txt" "/a/b/c.txt") tt =
  mkSync (Done None) tt
    [ObsCall (os_Open "local.txt") (Some (Some 1, None));
     ObsCall (Client_Mkdir (Some 1) "/") (Some (Some "file exists"%string));
     ObsCall (Client_Mkdir (Some 1) "/a") (Some (Some "file exists"%string));
     ObsCall (Client_Mkdir (Some 1) "/a/b") (Some (Some "file exists"%string));
     ObsCall (Client_Create (Some 1) "/a/b/c.txt") (Some (Some 1, None));
     ObsCall (io_Copy (Some 1) (FileReader (Some 1))) (Some (5%Z, None));
     ObsCall (File_Close (Some 1)) (Some None);
     ObsCall (os_File_Close (Some 1)) (Some None)].
Proof.
  destruct (uploads_try_directories_from_root
              unit (serve directories_exist) waiting tt connected
              "/a/b/c.txt" eq_refl)
    as (_ & _ & _ & _ & Hput & _).
  split; [exact (proj1 (Hput "hello"%string)) | reflexivity].
Defined.

(** The directories tried for the relative [docs/2024/c.txt] are
    [/docs] and [/docs/2024]. *)
Example mkdir_paths_of_a_relative_path :
  mkdir_paths "docs/2024/c.txt" = ["/docs"; "/docs/2024"]%string /\
  Forall (fun p => prefix p "docs/2024/c.txt" = false)
    (mkdir_paths "docs/2024/c.txt").
Proof. split; [reflexivity | repeat constructor]. Qed.

(** ** The supervisor with a receiver *)

(** X21: a supervisor that took a reconnect request publishes the
    result of [Connect] on [ReconnectStatus] and is blocked in that send
    as long as nobody receives the status: it does not get back to its
    receive, so it takes no further request, however many turns it is
    given. *)
Theorem supervisor_parks_at_an_unread_status :
  forall (W : Type) (h : Handler W) (rcv : Receiver W) (w w1 w2 : W)
         (conn : SftpConn) (ftpConn : sftpClient)
         (newConn : option sftp_Client) (e : error) (t : list Obs) (n : nat),
    h _ (chan_recv (reconnect ftpConn)) w = (Some true, w1) ->
    run h rcv (Connect conn) w1 = mkSync (Done (newConn, e)) w2 t ->
    rcv (ReconnectStatus ftpConn) (is_nil e) w2 = None ->
    run h rcv (supervisor (S n) conn ftpConn) w =
    mkSync Blocks w2
      (ObsCall (chan_recv (reconnect ftpConn)) (Some true) :: t ++
       [ObsOut (chan_send (ReconnectStatus ftpConn) (is_nil e))]).
Proof.
  intros W h rcv w w1 w2 conn ftpConn newConn e t n Hrecv Hconn Hnone.
  cbn [supervisor]. rewrite run_bind. unfold supervisor_turn.
  rewrite run_call_bind, Hrecv. cbn [fst snd].
  rewrite run_bind, Hconn. unfold seq_sync, heard. cbn [fate after seen].
  destruct e as [msg |]; cbn [is_nil] in Hnone;
    cbn [emit bind run ReconnectStatus fate after seen is_nil];
    rewrite Hnone; reflexivity.
Qed.

(** The supervisor beside a healthy server, with nobody at the status
    channel: after the first request it is parked. *)
Lemma supervisor_parks_at_an_unread_status_witness :
  let r := run (serve healthy) parked
             (supervisor 3 (NewSftpConn quote_plain example_config) connected)
             tt in
  fate r = Blocks /\
  sent_on ch_status (seen r) = [true] /\
  length (seen r) = 4.
Proof.
  intros r. subst r.
  rewrite (supervisor_parks_at_an_unread_status
             unit (serve healthy) parked tt tt tt
             (NewSftpConn quote_plain example_config) connected
             (Some 1) None _ 2 eq_refl eq_refl eq_refl).
  repeat split.
Defined.
